(** * Upload relay: job tracker, staged-upload driver and GraphQL proxy

    A shallow embedding of the servers of the repository:

    - the tracked server (job table, cancellation, temporary files,
      periodic sweep), module [Tracked];
    - the direct server ([src/server.ts]: no job table, files kept in
      memory), module [Direct];
    - the first variant (only [/api/upload-image]: no size limit, ten
      attempts two seconds apart), module [Legacy];
    - the GraphQL proxy endpoint, identical in every variant, module [Proxy].

    JavaScript runs every handler to completion between two [await]s, so a
    handler is a function on an explicit [World]; what the outside world
    answers at each [await] (and whether a cancel request is served while
    the handler is suspended there) is read from an environment record.
    The upload routes run multer before the handler: [upload_file] is the
    handler, [post_upload_file] the route, on which multer's
    [limits.fileSize] decides whether the handler runs at all.
    Of the console output only the [console.error] lines of the program
    are kept, not what Express prints for an error it answers itself. *)

From Stdlib Require Import ZArith List String Bool Lia.
From stdpp Require Import base option list strings gmap.

Open Scope Z_scope.
Open Scope string_scope.

(** ** JavaScript values shared by the variants *)

(** A string-valued property that may be absent; [if (x)] holds for a
    present, non-empty string. *)
Definition truthy (x : option string) : bool :=
  match x with
  | Some s => negb (String.eqb s "")
  | None => false
  end.

(** [x || d] on such a property. *)
Definition or_else (x : option string) (d : string) : string :=
  if truthy x then default d x else d.

(** A thrown [Error]: its [name] and [message]. *)
Record JsError := { err_name : string; err_message : string }.

Definition mkError (msg : string) : JsError :=
  {| err_name := "Error"; err_message := msg |}.

(** node-fetch rejects an aborted request with an [AbortError]. *)
Definition AbortError : JsError :=
  {| err_name := "AbortError"; err_message := "The user aborted a request." |}.

(** What an awaited promise settles to. *)
Inductive Settled (A : Type) : Type :=
| Resolved (a : A)
| Rejected (e : JsError).
Arguments Resolved {A} a.
Arguments Rejected {A} e.

(** Parsed JSON, as far as the handlers look into it. *)
#[warnings="-register-all"]
Inductive Json : Type :=
| JNull
| JBool (b : bool)
| JNum (n : Z)
| JStr (s : string)
| JArr (items : list Json)
| JObj (fields : list (string * Json)).

(** One entry of [stagedTargets]. *)
Record Target := {
  target_url : string;
  resourceUrl : string;
  parameters : list (string * string)
}.

(** [data?.stagedUploadsCreate?.stagedTargets?.[0]] of a staged-upload
    response: the first target when there is one. *)
Definition StagedJson := option Target.

(** A file node, as returned by [fileCreate] ([files[0]]) and by the
    [node] query. Every property may be absent. *)
Record FileNode := {
  node_id : option string;
  fileStatus : option string;
  image_url : option string;          (* image?.url *)
  sources : option (list (option string)); (* the url of each source *)
  node_url : option string            (* url *)
}.

(** [sources?.[0]?.url] *)
Definition first_source_url (n : FileNode) : option string :=
  match sources n with
  | Some (u :: _) => u
  | _ => None
  end.

(** A [fileCreate] response: [data?.fileCreate?.files?.[0]] and the
    messages of [data?.fileCreate?.userErrors]. *)
Record FileCreateJson := {
  files0 : option FileNode;
  userErrors : list string
}.

(** The response of the blob storage: [ok] and the body text. *)
Record BlobResponse := { blob_ok : bool; blob_text : string }.

(** Outbound traffic and timer waits, in the order they happen. *)
Inductive NetEvent : Type :=
| CallStaged (resource : string) (fileSize : Z)
| CallBlob (url : string)
| CallFileCreate (contentType : string) (originalSource : string)
| CallFileCreateInline (size : Z)
| CallNode (fileId : string)
| CallProxy (token : string) (body : Json)
| Sleep (ms : Z).

Definition is_poll (e : NetEvent) : bool :=
  match e with CallNode _ => true | _ => false end.
Definition is_sleep (ms : Z) (e : NetEvent) : bool :=
  match e with Sleep m => Z.eqb m ms | _ => false end.
Definition is_call (e : NetEvent) : bool :=
  match e with Sleep _ => false | _ => true end.

(** Status queries separated by waits of [ms]: the events are
    [CallNode; Sleep ms; CallNode; Sleep ms; ...], ending after either. *)
Fixpoint spaced (ms : Z) (evs : list NetEvent) : bool :=
  match evs with
  | [] => true
  | CallNode _ :: rest =>
      match rest with
      | [] => true
      | Sleep m :: rest' => Z.eqb m ms && spaced ms rest'
      | _ => false
      end
  | _ => false
  end.

(** The number of status queries among the events. *)
Definition polls (evs : list NetEvent) : nat :=
  length (List.filter is_poll evs).

(** A node that is ready and the URL the polling returns for it: the
    image URL when there is one, else the URL of the first source (which
    may itself be absent), else the generic URL. *)
Definition ready_with (n : FileNode) (u : option string) : Prop :=
  fileStatus n = Some "READY"
  /\ ((truthy (image_url n) = true /\ u = image_url n)
      \/ (truthy (image_url n) = false
          /\ exists l, sources n = Some (u :: l))
      \/ (truthy (image_url n) = false
          /\ (sources n = None \/ sources n = Some [])
          /\ truthy (node_url n) = true /\ u = node_url n)).

(** ** Routes with a middleware in front *)

(** What a route answers: the response of its handler, or, when the
    middleware passes an error on, the answer of Express itself. Neither
    server registers an error handler, so that answer is 500 for an error
    that carries no status, with a body the program has no part in; the
    handler does not run. *)
Inductive RouteAnswer (R : Type) : Type :=
| Handled (r : R)
| Unhandled (e : JsError).
Arguments Handled {R} r.
Arguments Unhandled {R} e.

(** The error multer passes on for a part over [limits.fileSize]. It has
    no [status] of its own. *)
Definition LIMIT_FILE_SIZE : JsError :=
  {| err_name := "MulterError"; err_message := "File too large" |}.

(** multer's check of [limits.fileSize]: a part longer than the limit is
    refused. The releases of the library differ on a part of exactly the
    limit; [refuse_at_limit] is what the installed one does. *)
Definition over_limit (refuse_at_limit : bool) (limit size : Z) : bool :=
  Z.gtb size limit || (refuse_at_limit && Z.eqb size limit).

(** ** The tracked server *)

Module Tracked.

Inductive Status : Type :=
| Waiting | Compressing | Uploading | Completed | Error | Cancelled.

#[export] Instance Status_eq_dec : EqDecision Status.
Proof. solve_decision. Defined.

Definition is_terminal (s : Status) : bool :=
  match s with
  | Completed | Error | Cancelled => true
  | _ => false
  end.

(** [interface UploadStatus]. [abortController] and [tempFiles] hold
    references: the controller and the array are objects shared by every
    copy of the record that a spread makes. *)
Record UploadStatus := {
  id : string;
  status : Status;
  progress : Z;
  originalFilename : string;
  error : option string;
  url : option string;
  type : string;
  timestamp : option Z;
  abortController : option nat;
  tempFiles : option nat
}.

(** [{...s, status: st}] and the other spreads the handlers use. *)
Definition set_status (st : Status) (s : UploadStatus) : UploadStatus :=
  {| id := id s; status := st; progress := progress s;
     originalFilename := originalFilename s; error := error s; url := url s;
     type := type s; timestamp := timestamp s;
     abortController := abortController s; tempFiles := tempFiles s |}.
Definition set_progress (p : Z) (s : UploadStatus) : UploadStatus :=
  {| id := id s; status := status s; progress := p;
     originalFilename := originalFilename s; error := error s; url := url s;
     type := type s; timestamp := timestamp s;
     abortController := abortController s; tempFiles := tempFiles s |}.
Definition set_error (e : string) (s : UploadStatus) : UploadStatus :=
  {| id := id s; status := status s; progress := progress s;
     originalFilename := originalFilename s; error := Some e; url := url s;
     type := type s; timestamp := timestamp s;
     abortController := abortController s; tempFiles := tempFiles s |}.
Definition set_url (u : option string) (s : UploadStatus) : UploadStatus :=
  {| id := id s; status := status s; progress := progress s;
     originalFilename := originalFilename s; error := error s; url := u;
     type := type s; timestamp := timestamp s;
     abortController := abortController s; tempFiles := tempFiles s |}.
Definition set_abortController (c : nat) (s : UploadStatus) : UploadStatus :=
  {| id := id s; status := status s; progress := progress s;
     originalFilename := originalFilename s; error := error s; url := url s;
     type := type s; timestamp := timestamp s;
     abortController := Some c; tempFiles := tempFiles s |}.
Definition set_tempFiles (r : nat) (s : UploadStatus) : UploadStatus :=
  {| id := id s; status := status s; progress := progress s;
     originalFilename := originalFilename s; error := error s; url := url s;
     type := type s; timestamp := timestamp s;
     abortController := abortController s; tempFiles := Some r |}.

(** [console.error] lines: the fixed prefix and what is printed after it. *)
Record LogEntry := { log_prefix : string; log_detail : string }.

(** The process state a handler can read and write.
    - [uploadStatuses]: the global job table;
    - [files]: the file system, path to content;
    - [unlink_fails]: the paths on which [fs.unlinkSync] throws;
    - [arrays]: the [tempFiles] arrays, by reference;
    - [controllers]: the [AbortController]s, by reference, with their
      [signal.aborted] flag;
    - [console]: the [console.error] output of the program's own code,
      oldest first;
    - [net]: outbound requests and timer waits, oldest first. *)
Record World := {
  uploadStatuses : gmap string UploadStatus;
  files : gmap string string;
  unlink_fails : gset string;
  arrays : list (list string);
  controllers : list bool;
  console : list LogEntry;
  net : list NetEvent
}.

Definition with_table (t : gmap string UploadStatus) (w : World) : World :=
  {| uploadStatuses := t; files := files w; unlink_fails := unlink_fails w;
     arrays := arrays w; controllers := controllers w;
     console := console w; net := net w |}.
Definition with_files (f : gmap string string) (w : World) : World :=
  {| uploadStatuses := uploadStatuses w; files := f;
     unlink_fails := unlink_fails w;
     arrays := arrays w; controllers := controllers w;
     console := console w; net := net w |}.
Definition with_arrays (a : list (list string)) (w : World) : World :=
  {| uploadStatuses := uploadStatuses w; files := files w;
     unlink_fails := unlink_fails w;
     arrays := a; controllers := controllers w;
     console := console w; net := net w |}.
Definition with_controllers (c : list bool) (w : World) : World :=
  {| uploadStatuses := uploadStatuses w; files := files w;
     unlink_fails := unlink_fails w;
     arrays := arrays w; controllers := c;
     console := console w; net := net w |}.
Definition console_error (prefix detail : string) (w : World) : World :=
  {| uploadStatuses := uploadStatuses w; files := files w;
     unlink_fails := unlink_fails w;
     arrays := arrays w; controllers := controllers w;
     console := console w ++ [{| log_prefix := prefix; log_detail := detail |}];
     net := net w |}.
Definition emit (e : NetEvent) (w : World) : World :=
  {| uploadStatuses := uploadStatuses w; files := files w;
     unlink_fails := unlink_fails w;
     arrays := arrays w; controllers := controllers w;
     console := console w; net := net w ++ [e] |}.

(** HTTP responses. *)
Inductive Body : Type :=
| BError (msg : string)                    (* { error } *)
| BUploadId (uploadId : string)            (* { uploadId } *)
| BUrl (u : option string)                 (* { url } *)
| BSuccess (msg : string)                  (* { success: true, message } *)
| BStatus (s : UploadStatus).              (* the job record *)

Record Response := { code : Z; body : Body }.

Definition respond (c : Z) (b : Body) : Response := {| code := c; body := b |}.

(** *** File system *)

Definition existsSync (p : string) (w : World) : bool :=
  bool_decide (is_Some (files w !! p)).

(** The line a failed delete of [p] leaves on the console. *)
Definition delete_error (p : string) : LogEntry :=
  {| log_prefix := "Error deleting temp file " ++ p ++ ":";
     log_detail := "EPERM" |}.

(** [try { if (fs.existsSync(file)) fs.unlinkSync(file) } catch (error)
    { console.error(`Error deleting temp file ${file}:`, error) }] *)
Definition delete_temp_file (w : World) (file : string) : World :=
  if existsSync file w then
    if bool_decide (file ∈ unlink_fails w) then
      console_error (log_prefix (delete_error file)) "EPERM" w
    else with_files (delete file (files w)) w
  else w.

(** [if (status.tempFiles) status.tempFiles.forEach(...)] *)
Definition temp_paths (s : UploadStatus) (w : World) : list string :=
  match tempFiles s with
  | Some r => default [] (arrays w !! r)
  | None => []
  end.

Definition delete_temp_files (s : UploadStatus) (w : World) : World :=
  foldl delete_temp_file w (temp_paths s w).

(** *** Abort controllers *)

Definition abort (c : nat) (w : World) : World :=
  with_controllers (<[c := true]> (controllers w)) w.

Definition aborted (c : nat) (w : World) : bool :=
  default false (controllers w !! c).

(** *** POST /api/init-upload *)

Record InitRequest := {
  init_filename : option string;
  init_fileType : option string
}.

(** [uuid] is the identifier [uuidv4()] draws, [now] is [Date.now()]. *)
Definition init_upload (uuid : string) (now : Z) (req : InitRequest)
    (w : World) : Response * World :=
  if negb (truthy (init_filename req)) || negb (truthy (init_fileType req))
  then (respond 400 (BError "Missing filename or fileType"), w)
  else
    let r := length (arrays w) in
    let w1 := with_arrays (arrays w ++ [[]]) w in
    let job :=
      {| id := uuid; status := Waiting; progress := 0;
         originalFilename := default "" (init_filename req);
         error := None; url := None;
         type := default "" (init_fileType req);
         timestamp := Some now;
         abortController := None; tempFiles := Some r |} in
    (respond 200 (BUploadId uuid),
     with_table (<[uuid := job]> (uploadStatuses w1)) w1).

(** *** GET /api/upload-status/:uploadId *)

Definition upload_status (uploadId : string) (w : World) : Response :=
  match uploadStatuses w !! uploadId with
  | Some s =>
      if String.eqb uploadId "" then respond 404 (BError "Upload not found")
      else respond 200 (BStatus s)
  | None => respond 404 (BError "Upload not found")
  end.

(** *** DELETE /api/cancel-upload/:uploadId *)

Definition cancel_message : string := "Upload cancelled by user".

Definition cancel_upload (uploadId : string) (w : World) : Response * World :=
  match uploadStatuses w !! uploadId with
  | Some s =>
      if String.eqb uploadId "" then
        (respond 404 (BError "Upload not found"), w)
      else
        let w1 := match abortController s with
                  | Some c => abort c w
                  | None => w
                  end in
        let w2 := with_table
                    (<[uploadId := set_error cancel_message
                                     (set_status Cancelled s)]>
                       (uploadStatuses w1)) w1 in
        let w3 := delete_temp_files s w2 in
        (respond 200 (BSuccess "Upload cancelled"), w3)
  | None => (respond 404 (BError "Upload not found"), w)
  end.

(** *** The periodic sweep *)

Definition retention : Z := 3600000.

(** [status.timestamp && now - status.timestamp > 3600000] *)
Definition expired (now : Z) (s : UploadStatus) : bool :=
  match timestamp s with
  | Some t => negb (Z.eqb t 0) && Z.gtb (now - t) retention
  | None => false
  end.

(** The body of the [setInterval] callback, run at time [now]: every
    expired job has its temporary files deleted and leaves the table.
    JavaScript visits the jobs in insertion order, the fold below in key
    order; the order only shows in the order of the [console.error] lines
    of failed deletes. *)
Definition sweep (now : Z) (w : World) : World :=
  let old := filter (fun kv => expired now kv.2 = true) (uploadStatuses w) in
  let w1 := foldl (fun w kv => delete_temp_files kv.2 w) w (map_to_list old) in
  with_table (filter (fun kv => expired now kv.2 = false) (uploadStatuses w1)) w1.

(** *** Handlers that can throw

    A computation reads and writes the [World] and either returns or
    throws. *)

Inductive Res (A : Type) : Type :=
| Ret (a : A)
| Throw (e : JsError).
Arguments Ret {A} a.
Arguments Throw {A} e.

Definition M (A : Type) : Type := World -> Res A * World.

Definition ret {A} (a : A) : M A := fun w => (Ret a, w).
Definition throw {A} (e : JsError) : M A := fun w => (Throw e, w).
Definition bind {A B} (m : M A) (k : A -> M B) : M B :=
  fun w => match m w with
           | (Ret a, w1) => k a w1
           | (Throw e, w1) => (Throw e, w1)
           end.
Definition try_catch {A} (m : M A) (h : JsError -> M A) : M A :=
  fun w => match m w with
           | (Ret a, w1) => (Ret a, w1)
           | (Throw e, w1) => h e w1
           end.
Definition modify (f : World -> World) : M unit := fun w => (Ret tt, f w).
Definition gets {A} (f : World -> A) : M A := fun w => (Ret (f w), w).

Notation "'let*' x ':=' m 'in' k" := (bind m (fun x => k))
  (at level 10, x name, m at level 100, k at level 200, only parsing).
Notation "m '>>' k" := (bind m (fun _ => k))
  (at level 60, right associativity, only parsing).

(** [uploadStatuses.set(uploadId, {...uploadStatuses.get(uploadId)!, ...})]
    with [f] the fields the spread overrides, and the assignment
    [status.field = ...] on the record the table holds. The record is
    there whenever the handlers below run this: they checked it on entry
    and nothing they interleave with here removes it ([cancel_upload]
    keeps it). The hourly sweep does delete records, but no run of it is
    placed inside a run of the upload handler in this development; had
    one removed the job, [set] would put back a record made of the
    overridden fields alone, where [alter] leaves the key absent. *)
Definition update (uploadId : string) (f : UploadStatus -> UploadStatus)
  : M unit :=
  modify (fun w => with_table (alter f uploadId (uploadStatuses w)) w).

Definition status_of (uploadId : string) : M (option Status) :=
  gets (fun w => status <$> uploadStatuses w !! uploadId).

(** [new AbortController()] *)
Definition new_controller : M nat :=
  fun w => (Ret (length (controllers w)),
            with_controllers (controllers w ++ [false]) w).

(** [array.push(p)] on the array behind reference [r]. *)
Definition push (r : nat) (p : string) : M unit :=
  modify (fun w => with_arrays (alter (fun a => (a ++ [p])%list) r (arrays w)) w).

(** A cancel request for the job, served while the handler is suspended. *)
Definition interleave_cancel (cancel : bool) (uploadId : string) : M unit :=
  modify (fun w => if cancel then (cancel_upload uploadId w).2 else w).

(** [await fetch(..., { signal })] followed by reading the body: the
    request is bound to controller [c]; aborting it rejects the fetch. *)
Definition await_fetch {A} (uploadId : string) (c : nat) (cancel : bool)
    (answer : Settled A) : M A :=
  interleave_cancel cancel uploadId >>
  let* a := gets (aborted c) in
  if a then throw AbortError
  else match answer with
       | Resolved x => ret x
       | Rejected e => throw e
       end.

Definition ENOENT (p : string) : JsError :=
  mkError ("ENOENT: no such file or directory, " ++ p).

(** [fs.copyFileSync(src, dst)] *)
Definition copyFileSync (src dst : string) : M unit :=
  fun w => match files w !! src with
           | Some c => (Ret tt, with_files (<[dst := c]> (files w)) w)
           | None => (Throw (ENOENT src), w)
           end.

(** [fs.statSync(p).size] *)
Definition statSync_size (p : string) : M Z :=
  fun w => match files w !! p with
           | Some c => (Ret (Z.of_nat (String.length c)), w)
           | None => (Throw (ENOENT p), w)
           end.

(** What the outside world does at each suspension point of one run of the
    upload handler, and the two values fixed at start-up.
    [transform] is what the encoder (sharp or ffmpeg) ends with: the
    encoded bytes or an error. A [cancel_in_*] flag says that a cancel
    request for this job is served during that [await]. [timer_fires]
    says that, after such a cancel during a video transcode, the
    one-second cancellation timer of [compressVideo] fires before ffmpeg
    ends. ffmpeg writes its output file while it runs: [written_early]
    is what it has put at the output path when a cancel request is
    served during the transcode ([None]: it has not created the file
    yet), and [written_late] what it puts there after that and before it
    is killed or fails ([None]: nothing more reaches the path).
    [poll i] answers the [i]-th status query. *)
Record Env := {
  tempDir : string;
  ffmpegAvailable : bool;
  transform : Settled string;
  cancel_in_transform : bool;
  timer_fires : bool;
  written_early : option string;
  written_late : option string;
  staged : Settled StagedJson;
  cancel_in_staged : bool;
  blob : Settled BlobResponse;
  cancel_in_blob : bool;
  fileCreate : Settled FileCreateJson;
  cancel_in_fileCreate : bool;
  poll : nat -> Settled (option FileNode);
  cancel_in_poll : nat -> bool;
  cancel_in_sleep : nat -> bool
}.

Definition cancelled_error : JsError := mkError "Upload cancelled".
Definition timeout_message : string :=
  "The file did not become ready in the allotted time.".

Section Driver.

Variable env : Env.
Variable uploadId : string.

(** *** waitForFileReady *)

(** The [try] block of one iteration, after the request was sent:
    [Some u] is [return u], [None] falls through to the timer. *)
Definition check_node (node : option FileNode) : M (option (option string)) :=
  match node with
  | None => throw (mkError "File not found")
  | Some n =>
      if bool_decide (fileStatus n = Some "READY") then
        if truthy (image_url n) then ret (Some (image_url n))
        else match sources n with
             | Some (u :: _) => ret (Some u)
             | _ => if truthy (node_url n) then ret (Some (node_url n))
                    else throw (mkError "Could not find URL for file")
             end
      else ret None
  end.

(** [n] iterations are left; [attempt] is the loop counter. *)
Fixpoint wait_loop (fileId : string) (interval : Z) (n attempt : nat)
  : M (option string) :=
  match n with
  | O => throw (mkError timeout_message)
  | S n' =>
      let* st := status_of uploadId in
      if bool_decide (st = None) || bool_decide (st = Some Cancelled)
      then throw cancelled_error
      else
        let* c := new_controller in
        update uploadId (set_abortController c) >>
        let* r :=
          try_catch
            (modify (emit (CallNode fileId)) >>
             let* node := await_fetch uploadId c (cancel_in_poll env attempt)
                            (poll env attempt) in
             check_node node)
            (fun e =>
               if String.eqb (err_name e) "AbortError"
               then throw cancelled_error
               else modify (console_error "Error checking file status:"
                              (err_message e)) >> ret None) in
        match r with
        | Some u => ret u
        | None =>
            modify (emit (Sleep interval)) >>
            interleave_cancel (cancel_in_sleep env attempt) uploadId >>
            wait_loop fileId interval n' (S attempt)
        end
  end.

Definition waitForFileReady (fileId : string) (maxAttempts : nat)
    (interval : Z) : M (option string) :=
  wait_loop fileId interval maxAttempts 0.

(** The default arguments. *)
Definition default_maxAttempts : nat := 30.
Definition default_interval : Z := 5000.

(** *** The staged-upload steps *)

Definition MAX_VIDEO_SIZE : Z := 100 * 1024 * 1024.

Definition createStagedUpload (filePath resource : string) : M Target :=
  let* fileSize := statSync_size filePath in
  if String.eqb resource "VIDEO" && Z.gtb fileSize MAX_VIDEO_SIZE
  then throw (mkError "Video file exceeds maximum size of 100MB")
  else
    let* c := new_controller in
    update uploadId (set_abortController c) >>
    modify (emit (CallStaged resource fileSize)) >>
    let* json := await_fetch uploadId c (cancel_in_staged env) (staged env) in
    match json with
    | None =>
        modify (console_error "Error at stagedUploadsCreate stage:" "") >>
        throw (mkError "Failed to get download URL")
    | Some target => ret target
    end.

Definition uploadFileToS3 (filePath : string) (stagedUpload : Target)
  : M unit :=
  update uploadId (set_progress 60 ∘ set_status Uploading) >>
  let* c := new_controller in
  update uploadId (set_abortController c) >>
  modify (emit (CallBlob (target_url stagedUpload))) >>
  let* r := await_fetch uploadId c (cancel_in_blob env) (blob env) in
  if blob_ok r then ret tt
  else
    modify (console_error "Loading error S3:" (blob_text r)) >>
    throw (mkError ("Loading error S3: " ++ blob_text r)).

(** The [fileCreate] call shared by the three upload functions. *)
Definition call_fileCreate (contentType : string) (target : Target)
  : M FileCreateJson :=
  let* c := new_controller in
  update uploadId (set_abortController c) >>
  modify (emit (CallFileCreate contentType (resourceUrl target))) >>
  await_fetch uploadId c (cancel_in_fileCreate env) (fileCreate env).

(** [fileCreateJson.data?.fileCreate?.files?.[0]?.id] *)
Definition created_id (json : FileCreateJson) : option string :=
  files0 json ≫= node_id.

Definition uploadImageToShopify (filePath : string) : M (option string) :=
  let* stagedUpload := createStagedUpload filePath "FILE" in
  uploadFileToS3 filePath stagedUpload >>
  update uploadId (set_progress 80 ∘ set_status Uploading) >>
  let* json := call_fileCreate "IMAGE" stagedUpload in
  if truthy (files0 json ≫= image_url) then ret (files0 json ≫= image_url)
  else
    if truthy (created_id json)
    then waitForFileReady (default "" (created_id json))
           default_maxAttempts default_interval
    else throw (mkError "Failed to create image in Shopify").

Definition uploadGenericFileToShopify (filePath : string)
  : M (option string) :=
  let* stagedUpload := createStagedUpload filePath "FILE" in
  uploadFileToS3 filePath stagedUpload >>
  update uploadId (set_progress 80 ∘ set_status Uploading) >>
  let* json := call_fileCreate "FILE" stagedUpload in
  if truthy (files0 json ≫= node_url) then ret (files0 json ≫= node_url)
  else
    if truthy (created_id json)
    then waitForFileReady (default "" (created_id json))
           default_maxAttempts default_interval
    else throw (mkError "Failed to create file in Shopify").

Definition uploadVideoToShopify (filePath : string) : M (option string) :=
  update uploadId (set_progress 50 ∘ set_status Uploading) >>
  let* c1 := new_controller in
  update uploadId (set_abortController c1) >>
  let* fileSize := statSync_size filePath in
  modify (emit (CallStaged "VIDEO" fileSize)) >>
  let* json := await_fetch uploadId c1 (cancel_in_staged env) (staged env) in
  match json with
  | None =>
      modify (console_error "Error at stagedUploadsCreate stage:" "") >>
      throw (mkError "Failed to get download URL for video")
  | Some target =>
      update uploadId (set_progress 70 ∘ set_status Uploading) >>
      let* c2 := new_controller in
      update uploadId (set_abortController c2) >>
      modify (emit (CallBlob (target_url target))) >>
      let* r := await_fetch uploadId c2 (cancel_in_blob env) (blob env) in
      if negb (blob_ok r) then
        modify (console_error "Loading error S3:" (blob_text r)) >>
        throw (mkError ("Loading error S3: " ++ blob_text r))
      else
        update uploadId (set_progress 80 ∘ set_status Uploading) >>
        let* created := call_fileCreate "VIDEO" target in
        if truthy (files0 created ≫= first_source_url)
        then ret (files0 created ≫= first_source_url)
        else
          if truthy (created_id created)
          then waitForFileReady (default "" (created_id created))
                 default_maxAttempts default_interval
          else
            match userErrors created with
            | msg :: _ => throw (mkError msg)
            | [] => throw (mkError "Failed to create video in Shopify")
            end
  end.

(** *** The local transformation *)

Definition write_file (p content : string) : M unit :=
  modify (fun w => with_files (<[p := content]> (files w)) w).

(** [compressImage]: sharp reads [inputPath] and, when it succeeds,
    writes [outputPath]. It never looks at the job. *)
Definition compressImage (inputPath outputPath : string) : M unit :=
  interleave_cancel (cancel_in_transform env) uploadId >>
  match transform env with
  | Resolved out => write_file outputPath out
  | Rejected e =>
      modify (console_error "Error compressing image:" (err_message e)) >>
      throw e
  end.

(** What ffmpeg has at its output path before it ends. The model keeps
    it in the runs in which someone can find it there, those in which a
    cancel request is served during the transcode; in every other run
    the path is written once more before anything reads it, by ffmpeg's
    end or by the fallback copy of the handler. *)
Definition leave_output (outputPath : string) (partial : option string)
  : M unit :=
  if cancel_in_transform env then
    match partial with
    | Some c => write_file outputPath c
    | None => ret tt
    end
  else ret tt.

(** [compressVideo]: without ffmpeg the file is copied; with it, ffmpeg
    writes [outputPath] as it goes, and the one-second timer kills it and
    rejects once it sees the job cancelled (or gone). Nothing in this
    function removes what ffmpeg has written by then. *)
Definition compressVideo (inputPath outputPath : string) : M unit :=
  if negb (ffmpegAvailable env) then copyFileSync inputPath outputPath
  else
    leave_output outputPath (written_early env) >>
    interleave_cancel (cancel_in_transform env) uploadId >>
    let* st := status_of uploadId in
    if timer_fires env &&
       (bool_decide (st = None) || bool_decide (st = Some Cancelled))
    then leave_output outputPath (written_late env) >> throw cancelled_error
    else match transform env with
         | Resolved out => write_file outputPath out
         | Rejected e =>
             leave_output outputPath (written_late env) >> throw e
         end.

End Driver.

(** *** POST /api/upload-file *)

(** [req.file] as multer's disk storage leaves it. *)
Record File := {
  originalname : string;
  mimetype : string;
  size : Z;
  path : string;
  filename : string
}.

Record UploadRequest := {
  file : option File;
  fileType : option string;
  body_uploadId : option string
}.

Definition is_type (t : string) (fileType : option string) : bool :=
  bool_decide (fileType = Some t).

Definition maxSize (fileType : option string) : Z :=
  if is_type "image" fileType then 10 * 1024 * 1024 else 100 * 1024 * 1024.

Definition too_large (fileType : option string) : string :=
  "File too large. "
  ++ (if is_type "image" fileType then "Images" else "Videos")
  ++ " must be under "
  ++ (if is_type "image" fileType then "10MB" else "100MB") ++ ".".

Definition compressedFilePath (env : Env) (f : File) : string :=
  tempDir env ++ "/" ++ "compressed-" ++ filename f.

Definition cancelled_response : Response :=
  respond 400 (BError cancel_message).

Definition message_or (msg d : string) : string :=
  if String.eqb msg "" then d else msg.

(** [status.tempFiles = status.tempFiles || []] on the record the table
    holds; the result is the reference of the array. *)
Definition ensure_tempFiles (uploadId : string) : M nat :=
  fun w =>
    match uploadStatuses w !! uploadId with
    | Some s =>
        match tempFiles s with
        | Some r => (Ret r, w)
        | None =>
            let r := length (arrays w) in
            (Ret r,
             with_table (<[uploadId := set_tempFiles r s]> (uploadStatuses w))
               (with_arrays (arrays w ++ [[]]) w))
        end
    | None =>
        (Throw {| err_name := "TypeError";
                  err_message := "Cannot read properties of undefined" |}, w)
    end.

(** The final [try { unlink both } catch { log }]: the first failure
    skips what is left of the block. *)
Definition cleanup (p1 p2 : string) (w : World) : World :=
  let second (w : World) :=
    if existsSync p2 w then
      if bool_decide (p2 ∈ unlink_fails w)
      then console_error "Error cleaning up temporary files:" "EPERM" w
      else with_files (delete p2 (files w)) w
    else w in
  if existsSync p1 w then
    if bool_decide (p1 ∈ unlink_fails w)
    then console_error "Error cleaning up temporary files:" "EPERM" w
    else second (with_files (delete p1 (files w)) w)
  else second w.

Definition upload_to_shopify (env : Env) (uploadId : string)
    (fileType : option string) (filePath : string) : M (option string) :=
  if is_type "image" fileType then uploadImageToShopify env uploadId filePath
  else if is_type "video" fileType
       then uploadVideoToShopify env uploadId filePath
       else uploadGenericFileToShopify env uploadId filePath.

(** The second [try]/[catch] of the handler and the clean-up after it.
    The flag of the pair says that the [catch] returned from the handler. *)
Definition upload_stage (env : Env) (uploadId : string)
    (fileType : option string) (f : File) : M Response :=
  let compressed := compressedFilePath env f in
  let* r :=
    try_catch
      (let* u := upload_to_shopify env uploadId fileType compressed in
       update uploadId (set_url u ∘ set_progress 100 ∘ set_status Completed) >>
       ret (false, respond 200 (BUrl u)))
      (fun e =>
         modify (console_error "Error uploading file:" (err_message e)) >>
         if String.eqb (err_message e) "Upload cancelled"
         then ret (true, cancelled_response)
         else
           update uploadId
             (set_error (message_or (err_message e) "Error uploading file")
              ∘ set_status Error) >>
           ret (false, respond 500 (BError "Error uploading file"))) in
  if r.1 then ret r.2
  else modify (cleanup (path f) compressed) >> ret r.2.

(** The first [try]/[catch]: [Some resp] is an early [return]. *)
Definition compress_stage (env : Env) (uploadId : string)
    (fileType : option string) (f : File) : M (option Response) :=
  let compressed := compressedFilePath env f in
  try_catch
    ((if is_type "image" fileType
      then compressImage env uploadId (path f) compressed
      else if is_type "video" fileType
           then compressVideo env uploadId (path f) compressed
           else copyFileSync (path f) compressed) >>
     update uploadId (set_progress 30 ∘ set_status Uploading) >>
     ret None)
    (fun e =>
       modify (console_error "Error compressing file:" (err_message e)) >>
       if String.eqb (err_message e) "Upload cancelled"
       then ret (Some cancelled_response)
       else
         copyFileSync (path f) compressed >>
         update uploadId (set_progress 30 ∘ set_status Uploading) >>
         ret None).

Definition is_cancelled (uploadId : string) : M bool :=
  let* st := status_of uploadId in
  ret (bool_decide (st = Some Cancelled)).

Definition handler_body (env : Env) (req : UploadRequest) : M Response :=
  match file req with
  | None => ret (respond 400 (BError "The file was not uploaded"))
  | Some f =>
      let uploadId := default "" (body_uploadId req) in
      let* known :=
        gets (fun w => bool_decide (is_Some (uploadStatuses w !! uploadId))) in
      if negb (truthy (body_uploadId req)) || negb known
      then ret (respond 400 (BError "Invalid upload ID"))
      else
        let* r := ensure_tempFiles uploadId in
        push r (path f) >>
        update uploadId (set_progress 10 ∘ set_status Compressing) >>
        if Z.gtb (size f) (maxSize (fileType req)) then
          update uploadId
            (set_error (too_large (fileType req)) ∘ set_status Error) >>
          ret (respond 400 (BError (too_large (fileType req))))
        else
          let* c1 := is_cancelled uploadId in
          if c1 then ret cancelled_response
          else
            push r (compressedFilePath env f) >>
            let* early := compress_stage env uploadId (fileType req) f in
            match early with
            | Some resp => ret resp
            | None =>
                let* c2 := is_cancelled uploadId in
                if c2 then ret cancelled_response
                else upload_stage env uploadId (fileType req) f
            end
  end.

(** The handler with its outer [catch]: the callback of the route, as
    it runs on a request that multer passed on. *)
Definition upload_file (env : Env) (req : UploadRequest) (w : World)
  : Response * World :=
  match handler_body env req w with
  | (Ret resp, w1) => (resp, w1)
  | (Throw e, w1) =>
      let uploadId := default "" (body_uploadId req) in
      let w2 := console_error "Loading error" (err_message e) w1 in
      let w3 :=
        if truthy (body_uploadId req)
           && bool_decide (is_Some (uploadStatuses w2 !! uploadId))
        then with_table
               (alter (set_error "Loading error processing file"
                       ∘ set_status Error) uploadId (uploadStatuses w2)) w2
        else w2 in
      (respond 500 (BError "Loading error processing file"), w3)
  end.

(** *** The route: multer, then the handler *)

(** [limits: { fileSize: 100 * 1024 * 1024 }] *)
Definition fileSize_limit : Z := 100 * 1024 * 1024.

(** multer removes the file it was storing when it gives up on a
    request; a delete that fails is kept with the error, neither thrown
    nor logged. *)
Definition multer_remove (f : File) (w : World) : World :=
  if bool_decide (path f ∈ unlink_fails w) then w
  else with_files (delete (path f) (files w)) w.

(** [app.post("/api/upload-file", upload.single("file"), handler)].
    [req] is the request as it was sent, [file req] its part [file] with
    the path multer stores it under, and [w] the world once multer is done
    with the part. A part over the limit makes multer pass
    [LIMIT_FILE_SIZE] on: Express answers and the handler never runs. *)
Definition post_upload_file (refuse_at_limit : bool) (env : Env)
    (req : UploadRequest) (w : World) : RouteAnswer Response * World :=
  match file req with
  | Some f =>
      if over_limit refuse_at_limit fileSize_limit (size f)
      then (Unhandled LIMIT_FILE_SIZE, multer_remove f w)
      else (Handled (upload_file env req w).1, (upload_file env req w).2)
  | None => (Handled (upload_file env req w).1, (upload_file env req w).2)
  end.

(** The status line of the answer. *)
Definition http_status (a : RouteAnswer Response) : Z :=
  match a with
  | Handled r => code r
  | Unhandled _ => 500
  end.

(** *** Vocabulary of the statements *)

(** A computation that neither adds nor removes a job. *)
Definition keeps_jobs {A} (m : M A) : Prop :=
  forall w, dom (uploadStatuses (m w).2) = dom (uploadStatuses w).

(** The events a computation or a handler adds to [net]. *)
Definition sent (before after : World) : list NetEvent :=
  drop (length (net before)) (net after).

(** The job is in the table under an identifier the handlers accept:
    [!uploadId] is false, that is, the identifier is not empty. *)
Definition registered (uploadId : string) (w : World) : Prop :=
  uploadId <> "" /\ is_Some (uploadStatuses w !! uploadId).

(** The [tempFiles] reference of a record points to an array. *)
Definition temp_ok (s : UploadStatus) (w : World) : Prop :=
  forall r, tempFiles s = Some r -> is_Some (arrays w !! r).

(** The platform stages the upload with target [t], the blob storage
    accepts the bytes, [fileCreate] answers [json], and no cancel request
    is served during these three calls. *)
Record Answers (env : Env) (t : Target) (r : BlobResponse)
    (json : FileCreateJson) : Prop := {
  ans_staged : staged env = Resolved (Some t);
  ans_staged_quiet : cancel_in_staged env = false;
  ans_blob : blob env = Resolved r;
  ans_blob_ok : blob_ok r = true;
  ans_blob_quiet : cancel_in_blob env = false;
  ans_fileCreate : fileCreate env = Resolved json;
  ans_fileCreate_quiet : cancel_in_fileCreate env = false
}.

(** What the three upload functions put in the staged-upload and
    [fileCreate] requests, by [fileType]. *)
Definition staged_resource (fileType : option string) : string :=
  if is_type "image" fileType then "FILE"
  else if is_type "video" fileType then "VIDEO" else "FILE".
Definition content_type (fileType : option string) : string :=
  if is_type "image" fileType then "IMAGE"
  else if is_type "video" fileType then "VIDEO" else "FILE".

(** The URL each of them looks for in the [fileCreate] response. *)
Definition embedded_url (fileType : option string) (json : FileCreateJson)
  : option string :=
  if is_type "image" fileType then files0 json ≫= image_url
  else if is_type "video" fileType then files0 json ≫= first_source_url
  else files0 json ≫= node_url.

(** The message thrown when the response has neither URL nor id. *)
Definition create_failure (fileType : option string) (json : FileCreateJson)
  : string :=
  if is_type "image" fileType then "Failed to create image in Shopify"
  else if is_type "video" fileType
       then match userErrors json with
            | msg :: _ => msg
            | [] => "Failed to create video in Shopify"
            end
       else "Failed to create file in Shopify".

(** No status query ever reports the file ready: each answers with a
    node that is not [READY], or with no node, or fails (not by abort). *)
Definition never_ready (env : Env) : Prop :=
  forall i,
    match poll env i with
    | Resolved (Some n) => fileStatus n <> Some "READY"
    | Resolved None => True
    | Rejected e => err_name e <> "AbortError"
    end.

(** No cancel request is served while the job polls. *)
Definition quiet_polling (env : Env) : Prop :=
  forall i, cancel_in_poll env i = false /\ cancel_in_sleep env i = false.

(** The three calls of an upload, in order, each made once; [c] is the
    content of the file sent. *)
Definition three_calls (fileType : option string) (t : Target) (c : string)
  : list NetEvent :=
  [CallStaged (staged_resource fileType) (Z.of_nat (String.length c));
   CallBlob (target_url t);
   CallFileCreate (content_type fileType) (resourceUrl t)].

(** The events of [n] attempts that do not see the file ready. *)
Definition idle_polls (fileId : string) (interval : Z) (n : nat)
  : list NetEvent :=
  concat (replicate n [CallNode fileId; Sleep interval]).

(** The message thrown when the staged upload returns no target. *)
Definition staged_failure (fileType : option string) : string :=
  if is_type "image" fileType then "Failed to get download URL"
  else if is_type "video" fileType
       then "Failed to get download URL for video"
       else "Failed to get download URL".

(** The first of the three calls that fails, with its position and the
    error the upload function throws for it: a rejected request, no
    staged target, a refusal of the blob storage, or a [fileCreate]
    response with neither URL nor id. *)
Definition first_failure (fileType : option string) (env : Env)
  : option (nat * JsError) :=
  match staged env with
  | Rejected e => Some (1%nat, e)
  | Resolved None => Some (1%nat, mkError (staged_failure fileType))
  | Resolved (Some _) =>
      match blob env with
      | Rejected e => Some (2%nat, e)
      | Resolved r =>
          if blob_ok r then
            match fileCreate env with
            | Rejected e => Some (3%nat, e)
            | Resolved json =>
                if truthy (embedded_url fileType json)
                   || truthy (created_id json)
                then None
                else Some (3%nat, mkError (create_failure fileType json))
            end
          else Some (2%nat, mkError ("Loading error S3: " ++ blob_text r))
      end
  end.

(** The calls made up to and including the first that fails. *)
Definition calls_sent (fileType : option string) (env : Env) (c : string)
  : list NetEvent :=
  CallStaged (staged_resource fileType) (Z.of_nat (String.length c))
  :: match staged env with
     | Resolved (Some t) =>
         CallBlob (target_url t)
         :: match blob env with
            | Resolved r =>
                if blob_ok r
                then [CallFileCreate (content_type fileType) (resourceUrl t)]
                else []
            | Rejected _ => []
            end
     | _ => []
     end.

(** No cancel request is served during the three calls. *)
Definition quiet_calls (env : Env) : Prop :=
  cancel_in_staged env = false
  /\ cancel_in_blob env = false
  /\ cancel_in_fileCreate env = false.

(** What the compressed path holds once the first stage is over: the
    output of the encoder when one runs and succeeds, else the original
    bytes. *)
Definition encoded (env : Env) (fileType : option string) (original : string)
  : string :=
  if is_type "image" fileType
     || (is_type "video" fileType && ffmpegAvailable env)
  then match transform env with
       | Resolved out => out
       | Rejected _ => original
       end
  else original.

(** A request the handler takes to the upload: it names a registered
    job and carries a file within the size limit, which multer stored; no
    cancel request is served while the file is transformed, and the
    encoder does not fail with the cancellation message. *)
Record Accepted (env : Env) (req : UploadRequest) (w : World) (f : File)
    (uploadId : string) (original : string) : Prop := {
  acc_file : file req = Some f;
  acc_id : body_uploadId req = Some uploadId;
  acc_known : registered uploadId w;
  acc_size : size f <= maxSize (fileType req);
  acc_stored : files w !! path f = Some original;
  acc_quiet : cancel_in_transform env = false;
  acc_encoder :
    forall e, transform env = Rejected e ->
              err_message e <> "Upload cancelled"
}.

(** A computation that takes every world to one related to it by [R]. *)
Definition stable {A} (R : World -> World -> Prop) (m : M A) : Prop :=
  forall w, R w (m w).2.

(** Every record but the one of [uploadId] is the same in both worlds. *)
Definition same_others (uploadId : string) (w w' : World) : Prop :=
  forall other,
    other <> uploadId ->
    uploadStatuses w' !! other = uploadStatuses w !! other.

(** The same deletes fail in both worlds. *)
Definition same_locks (w w' : World) : Prop :=
  unlink_fails w' = unlink_fails w.

(** A status query whose answer does not end the polling: a node that is
    not [READY], no node, or a failure that is not an abort. *)
Definition unready (answer : Settled (option FileNode)) : Prop :=
  match answer with
  | Resolved (Some n) => fileStatus n <> Some "READY"
  | Resolved None => True
  | Rejected e => err_name e <> "AbortError"
  end.

(** The attempts before the [k]-th do not see the file ready and no
    cancel request is served during them. *)
Definition idle_before (env : Env) (k : nat) : Prop :=
  forall i, (i < k)%nat ->
    unready (poll env i)
    /\ cancel_in_poll env i = false
    /\ cancel_in_sleep env i = false.


(** The first of the three calls of an upload during which a cancel
    request is served, the calls before it having succeeded. *)
Definition aborted_call (env : Env) : option nat :=
  if cancel_in_staged env then Some 1%nat
  else
    match staged env with
    | Resolved (Some _) =>
        if cancel_in_blob env then Some 2%nat
        else
          match blob env with
          | Resolved r =>
              if blob_ok r && cancel_in_fileCreate env then Some 3%nat
              else None
          | Rejected _ => None
          end
    | _ => None
    end.

(** The [fileCreate] response already holds the URL [u] of the file,
    where the upload function of the kind looks for it:
    [files[0].image.url] for an image, the [url] of [files[0].sources[0]]
    for a video, [files[0].url] for any other type. *)
Definition holds_url (fileType : option string) (json : FileCreateJson)
    (u : string) : Prop :=
  u <> ""
  /\ exists n,
       files0 json = Some n
       /\ if is_type "image" fileType then image_url n = Some u
          else if is_type "video" fileType
               then exists l, sources n = Some (Some u :: l)
               else node_url n = Some u.



End Tracked.

(** ** The direct server ([src/server.ts])

    No job table and no temporary files: the upload is held in memory and
    the handler answers the one request it serves. The state is what it
    sends out and what it writes with [console.error]. *)

Module Direct.

Record Out := { net : list NetEvent; console : list string }.

Definition emit (e : NetEvent) (o : Out) : Out :=
  {| net := net o ++ [e]; console := console o |}.
Definition console_error (line : string) (o : Out) : Out :=
  {| net := net o; console := console o ++ [line] |}.

Inductive Body : Type :=
| BError (msg : string)
| BUrl (u : option string).

Record Response := { code : Z; body : Body }.
Definition respond (c : Z) (b : Body) : Response := {| code := c; body := b |}.

Inductive Res (A : Type) : Type :=
| Ret (a : A)
| Throw (e : JsError).
Arguments Ret {A} a.
Arguments Throw {A} e.

Definition M (A : Type) : Type := Out -> Res A * Out.

Definition ret {A} (a : A) : M A := fun o => (Ret a, o).
Definition throw {A} (e : JsError) : M A := fun o => (Throw e, o).
Definition bind {A B} (m : M A) (k : A -> M B) : M B :=
  fun o => match m o with
           | (Ret a, o1) => k a o1
           | (Throw e, o1) => (Throw e, o1)
           end.
Definition try_catch {A} (m : M A) (h : JsError -> M A) : M A :=
  fun o => match m o with
           | (Ret a, o1) => (Ret a, o1)
           | (Throw e, o1) => h e o1
           end.
Definition modify (f : Out -> Out) : M unit := fun o => (Ret tt, f o).

Notation "'let*' x ':=' m 'in' k" := (bind m (fun x => k))
  (at level 10, x name, m at level 100, k at level 200, only parsing).
Notation "m '>>' k" := (bind m (fun _ => k))
  (at level 60, right associativity, only parsing).

(** [await fetch(...)] and the read of its body. *)
Definition await {A} (answer : Settled A) : M A :=
  match answer with
  | Resolved x => ret x
  | Rejected e => throw e
  end.

(** [req.file] as multer's memory storage leaves it. *)
Record File := {
  originalname : string;
  mimetype : string;
  size : Z;
  buffer : string
}.

Record UploadRequest := {
  file : option File;
  fileType : option string
}.

(** The answers of the platform and of the blob storage to one run.
    [inline] answers the [fileCreate] call that carries a video as
    base64, [fileCreate] the one that follows a staged upload. *)
Record Env := {
  inline : Settled FileCreateJson;
  staged : Settled StagedJson;
  blob : Settled BlobResponse;
  fileCreate : Settled FileCreateJson;
  poll : nat -> Settled (option FileNode)
}.

Definition timeout_message : string :=
  "The file did not become ready in the allotted time.".

Section Handler.

Variable env : Env.

Definition check_node (node : option FileNode) : M (option (option string)) :=
  match node with
  | None => throw (mkError "File not found")
  | Some n =>
      if bool_decide (fileStatus n = Some "READY") then
        if truthy (image_url n) then ret (Some (image_url n))
        else match sources n with
             | Some (u :: _) => ret (Some u)
             | _ => if truthy (node_url n) then ret (Some (node_url n))
                    else throw (mkError "Could not find URL for file")
             end
      else ret None
  end.

Fixpoint wait_loop (fileId : string) (interval : Z) (n attempt : nat)
  : M (option string) :=
  match n with
  | O => throw (mkError timeout_message)
  | S n' =>
      modify (emit (CallNode fileId)) >>
      let* node := await (poll env attempt) in
      let* r := check_node node in
      match r with
      | Some u => ret u
      | None =>
          modify (emit (Sleep interval)) >>
          wait_loop fileId interval n' (S attempt)
      end
  end.

Definition waitForFileReady (fileId : string) (maxAttempts : nat)
    (interval : Z) : M (option string) :=
  wait_loop fileId interval maxAttempts 0.

Definition default_maxAttempts : nat := 30.
Definition default_interval : Z := 5000.

Definition is_type (t : string) (fileType : option string) : bool :=
  bool_decide (fileType = Some t).

Definition maxSize (fileType : option string) : Z :=
  if is_type "image" fileType then 10 * 1024 * 1024 else 50 * 1024 * 1024.

Definition too_large (fileType : option string) : string :=
  "File too large. "
  ++ (if is_type "image" fileType then "Images" else "Videos")
  ++ " must be under "
  ++ (if is_type "image" fileType then "10MB" else "50MB") ++ ".".

(** The inline attempt for videos: [Some resp] is its [return]. *)
Definition inline_video (f : File) : M (option Response) :=
  try_catch
    (modify (emit (CallFileCreateInline (size f))) >>
     let* json := await (inline env) in
     if truthy (files0 json ≫= node_url)
     then ret (Some (respond 200 (BUrl (files0 json ≫= node_url))))
     else
       match userErrors json with
       | _ :: _ =>
           modify (console_error "Error creating generic file:") >> ret None
       | [] => ret None
       end)
    (fun e =>
       modify (console_error "Error with direct file upload:") >> ret None).

(** Steps 1 to 4, from the staged upload on. *)
Definition staged_flow (f : File) (fileType : option string) : M Response :=
  modify (emit (CallStaged
                  (if is_type "video" fileType then "VIDEO" else "FILE")
                  (size f))) >>
  let* stagedJson := await (staged env) in
  match stagedJson with
  | None =>
      modify (console_error "Error at stagedUploadsCreate stage:") >>
      ret (respond 500 (BError "Failed to get download URL"))
  | Some target =>
      modify (emit (CallBlob (target_url target))) >>
      let* uploadResult := await (blob env) in
      if negb (blob_ok uploadResult) then
        modify (console_error "Loading error S3:") >>
        ret (respond 500 (BError "Loading error S3"))
      else
        let contentType :=
          if is_type "image" fileType then "IMAGE" else "VIDEO" in
        modify (emit (CallFileCreate contentType (resourceUrl target))) >>
        let* json := await (fileCreate env) in
        if String.eqb contentType "IMAGE" && truthy (files0 json ≫= image_url)
        then ret (respond 200 (BUrl (files0 json ≫= image_url)))
        else
        if String.eqb contentType "VIDEO"
           && truthy (files0 json ≫= first_source_url)
        then ret (respond 200 (BUrl (files0 json ≫= first_source_url)))
        else
        if truthy (files0 json ≫= node_url)
        then ret (respond 200 (BUrl (files0 json ≫= node_url)))
        else
        if negb (truthy (files0 json ≫= node_id)) then
          modify (console_error "Error creating file in Shopify:") >>
          ret (respond 500 (BError "Failed to create file in Shopify"))
        else
          try_catch
            (let* createdFile :=
               waitForFileReady (default "" (files0 json ≫= node_id))
                 default_maxAttempts default_interval in
             ret (respond 200 (BUrl createdFile)))
            (fun e =>
               modify (console_error "Error waiting for file:") >>
               ret (respond 500
                      (BError "The file was not ready in the allotted time")))
  end.

Definition handler_body (req : UploadRequest) : M Response :=
  match file req with
  | None => ret (respond 400 (BError "The file was not uploaded"))
  | Some f =>
      if Z.gtb (size f) (maxSize (fileType req))
      then ret (respond 400 (BError (too_large (fileType req))))
      else
        let* early :=
          if is_type "video" (fileType req) then inline_video f
          else ret None in
        match early with
        | Some resp => ret resp
        | None => staged_flow f (fileType req)
        end
  end.

(** The handler of POST /api/upload-file with its outer [catch], as it
    runs on a request that multer passed on. *)
Definition upload_file (req : UploadRequest) (o : Out) : Response * Out :=
  match handler_body req o with
  | (Ret resp, o1) => (resp, o1)
  | (Throw e, o1) =>
      (respond 500 (BError "Loading error processing file"),
       console_error "Loading error" o1)
  end.

End Handler.

(** *** The route: multer, then the handler *)

(** [limits: { fileSize: 250 * 1024 * 1024 }] *)
Definition fileSize_limit : Z := 250 * 1024 * 1024.

(** [app.post('/api/upload-file', upload.single('file'), handler)]: the
    part is held in memory, so a refusal by multer leaves nothing
    behind. *)
Definition post_upload_file (refuse_at_limit : bool) (env : Env)
    (req : UploadRequest) (o : Out) : RouteAnswer Response * Out :=
  match file req with
  | Some f =>
      if over_limit refuse_at_limit fileSize_limit (size f)
      then (Unhandled LIMIT_FILE_SIZE, o)
      else (Handled (upload_file env req o).1, (upload_file env req o).2)
  | None => (Handled (upload_file env req o).1, (upload_file env req o).2)
  end.

Definition http_status (a : RouteAnswer Response) : Z :=
  match a with
  | Handled r => code r
  | Unhandled _ => 500
  end.

(** *** Vocabulary of the statements *)

(** The URL the inline attempt for a video returns, if any. *)
Definition inline_url (env : Env) (fileType : option string) : option string :=
  if is_type "video" fileType then
    match inline env with
    | Resolved json => files0 json ≫= node_url
    | Rejected _ => None
    end
  else None.

(** The URL the handler finds in the response of the [fileCreate] call
    that follows the staged upload: the one of the kind, else [url]. *)
Definition embedded_url (fileType : option string) (json : FileCreateJson)
  : option string :=
  if is_type "image" fileType then
    if truthy (files0 json ≫= image_url) then files0 json ≫= image_url
    else files0 json ≫= node_url
  else
    if truthy (files0 json ≫= first_source_url)
    then files0 json ≫= first_source_url
    else files0 json ≫= node_url.

(** The calls of a run that gets to the [fileCreate] response. *)
Definition calls_to_create (fileType : option string) (f : File) (t : Target)
  : list NetEvent :=
  (if is_type "video" fileType then [CallFileCreateInline (size f)] else [])
  ++ [CallStaged (if is_type "video" fileType then "VIDEO" else "FILE")
        (size f);
      CallBlob (target_url t);
      CallFileCreate (if is_type "image" fileType then "IMAGE" else "VIDEO")
        (resourceUrl t)].

(** The platform stages the upload with target [t], the blob storage
    accepts the bytes and [fileCreate] answers [json]. *)
Record Answers (env : Env) (t : Target) (r : BlobResponse)
    (json : FileCreateJson) : Prop := {
  ans_staged : staged env = Resolved (Some t);
  ans_blob : blob env = Resolved r;
  ans_blob_ok : blob_ok r = true;
  ans_fileCreate : fileCreate env = Resolved json
}.

(** Every status query is answered with a node that is not [READY]. *)
Definition never_ready (env : Env) : Prop :=
  forall i, exists n,
    poll env i = Resolved (Some n) /\ fileStatus n <> Some "READY".

Definition idle_polls (fileId : string) (interval : Z) (n : nat)
  : list NetEvent :=
  concat (replicate n [CallNode fileId; Sleep interval]).

(** The attempts before the [k]-th are answered with a node that is not
    [READY]. *)
Definition idle_before (env : Env) (k : nat) : Prop :=
  forall i, (i < k)%nat ->
    exists n, poll env i = Resolved (Some n) /\ fileStatus n <> Some "READY".

(** A status query that ends the polling with an error: the request
    fails, there is no node, or the node is [READY] but has no URL. *)
Definition failing (answer : Settled (option FileNode)) : Prop :=
  match answer with
  | Rejected _ => True
  | Resolved None => True
  | Resolved (Some n) =>
      fileStatus n = Some "READY"
      /\ truthy (image_url n) = false
      /\ (sources n = None \/ sources n = Some [])
      /\ truthy (node_url n) = false
  end.

(** The first of the three calls after the inline attempt that fails,
    with its position and the message the handler answers: a rejected
    request is caught by the outer handler, the other failures are answered
    where they are found. *)
Definition failure_answer (fileType : option string) (env : Env)
  : option (nat * string) :=
  match staged env with
  | Rejected _ => Some (1%nat, "Loading error processing file")
  | Resolved None => Some (1%nat, "Failed to get download URL")
  | Resolved (Some _) =>
      match blob env with
      | Rejected _ => Some (2%nat, "Loading error processing file")
      | Resolved r =>
          if blob_ok r then
            match fileCreate env with
            | Rejected _ => Some (3%nat, "Loading error processing file")
            | Resolved json =>
                if truthy (embedded_url fileType json)
                   || truthy (files0 json ≫= node_id)
                then None
                else Some (3%nat, "Failed to create file in Shopify")
            end
          else Some (2%nat, "Loading error S3")
      end
  end.

(** The response of the [fileCreate] call after the staged upload
    already holds the URL [u] the handler answers with: for an image
    [files[0].image.url], for any other type the [url] of
    [files[0].sources[0]], and [files[0].url] when that one is missing or
    empty. *)
Definition holds_url (fileType : option string) (json : FileCreateJson)
    (u : string) : Prop :=
  u <> ""
  /\ exists n,
       files0 json = Some n
       /\ if is_type "image" fileType
          then image_url n = Some u
               \/ ((image_url n = None \/ image_url n = Some "")
                   /\ node_url n = Some u)
          else (exists l, sources n = Some (Some u :: l))
               \/ ((forall v l, sources n = Some (Some v :: l) -> v = "")
                   /\ node_url n = Some u).

(** The calls the handler makes up to and including the first that
    fails, the inline attempt of a video first. *)
Definition calls_sent (fileType : option string) (env : Env) (f : File)
  : list NetEvent :=
  (if is_type "video" fileType then [CallFileCreateInline (size f)] else [])
  ++ CallStaged (if is_type "video" fileType then "VIDEO" else "FILE")
       (size f)
     :: match staged env with
        | Resolved (Some t) =>
            CallBlob (target_url t)
            :: match blob env with
               | Resolved r =>
                   if blob_ok r
                   then [CallFileCreate
                           (if is_type "image" fileType then "IMAGE"
                            else "VIDEO") (resourceUrl t)]
                   else []
               | Rejected _ => []
               end
        | _ => []
        end.

(** The inline attempt of a video came back without a URL: the request
    failed, or the response holds none. For other types there is no such
    attempt. *)
Definition inline_failed (env : Env) (fileType : option string) : Prop :=
  is_type "video" fileType = true
  /\ match inline env with
     | Rejected _ => True
     | Resolved j => forall n, files0 j = Some n ->
                               node_url n = None \/ node_url n = Some ""
     end.

End Direct.

(** ** POST /shopify-admin-proxy (the same in every variant) *)

Module Proxy.

(** What the platform sends back: the [ok] flag of the response and what
    [response.json()] settles to. *)
Record Upstream := { ok : bool; json : Settled Json }.

Inductive Body : Type :=
| BData (data : Json)     (* res.json(data) *)
| BError (msg : string).  (* { error } *)

Record Response := { code : Z; body : Body }.

(** [token] is [process.env.SHOPIFY_ADMIN_API_TOKEN]; [answer] is what
    the [fetch] settles to. The result is the response to the caller and
    the request sent to the platform. *)
Definition proxy (token : string) (req_body : Json)
    (answer : Settled Upstream) : Response * list NetEvent :=
  let sent := [CallProxy token req_body] in
  let failed := {| code := 500; body := BError "Internal server error" |} in
  match answer with
  | Rejected _ => (failed, sent)
  | Resolved response =>
      if negb (ok response) then (failed, sent)
      else match json response with
           | Resolved data => ({| code := 200; body := BData data |}, sent)
           | Rejected _ => (failed, sent)
           end
  end.

End Proxy.

(** ** The first variant of the server (only [/api/upload-image])

    It has the state and the effects of the direct server, and is written
    with its monad. There is no size limit and no shortcut on the
    [fileCreate] response; polling makes ten attempts two seconds apart. *)

Module Legacy.
Import Direct.

(** [blob] is the response of the blob storage with the text the first
    [uploadResult.text()] reads. *)
Record Env := {
  staged : Settled StagedJson;
  blob : Settled BlobResponse;
  fileCreate : Settled FileCreateJson;
  poll : nat -> Settled (option FileNode)
}.

(** node-fetch rejects a second read of a body with this error. *)
Definition body_used_already (url : string) : JsError :=
  {| err_name := "TypeError";
     err_message := "body used already for: " ++ url |}.

(** [await uploadResult.text()] on a response whose body was read. *)
Definition text_again (url : string) : M string :=
  throw (body_used_already url).

Section Handler.

Variable env : Env.

(** [fileNode.image?.url || fileNode.url] *)
Definition ready_url (n : FileNode) : option string :=
  if truthy (image_url n) then image_url n else node_url n.

Fixpoint wait_loop (fileId : string) (interval : Z) (n attempt : nat)
  : M (option string) :=
  match n with
  | O => throw (mkError Direct.timeout_message)
  | S n' =>
      modify (emit (CallNode fileId)) >>
      let* node := await (poll env attempt) in
      match node with
      | None => throw (mkError "File not found")
      | Some fileNode =>
          if bool_decide (fileStatus fileNode = Some "READY")
          then ret (ready_url fileNode)
          else
            modify (emit (Sleep interval)) >>
            wait_loop fileId interval n' (S attempt)
      end
  end.

Definition waitForFileReady (fileId : string) (maxAttempts : nat)
    (interval : Z) : M (option string) :=
  wait_loop fileId interval maxAttempts 0.

Definition default_maxAttempts : nat := 10.
Definition default_interval : Z := 2000.

Definition handler_body (file : option File) : M Response :=
  match file with
  | None => ret (respond 400 (BError "The file was not uploaded"))
  | Some f =>
      modify (emit (CallStaged "FILE" (size f))) >>
      let* stagedJson := await (staged env) in
      match stagedJson with
      | None =>
          modify (console_error "Error at stagedUploadsCreate stage:") >>
          ret (respond 500 (BError "Failed to get download URL:"))
      | Some target =>
          modify (emit (CallBlob (target_url target))) >>
          let* uploadResult := await (blob env) in
          let* early :=
            if negb (blob_ok uploadResult) then
              let* err := text_again (target_url target) in
              modify (console_error "Loading error S3:") >>
              ret (Some (respond 500 (BError "Loading error S3")))
            else ret None in
          match early with
          | Some resp => ret resp
          | None =>
              modify (emit (CallFileCreate "IMAGE" (resourceUrl target))) >>
              let* json := await (fileCreate env) in
              if negb (truthy (files0 json ≫= node_id)) then
                modify (console_error "Error creating file in Shopify:") >>
                ret (respond 500 (BError "Failed to create file in Shopify"))
              else
                try_catch
                  (let* createdFile :=
                     waitForFileReady (default "" (files0 json ≫= node_id))
                       default_maxAttempts default_interval in
                   ret (respond 200 (BUrl createdFile)))
                  (fun e =>
                     modify (console_error "Error waiting for file:") >>
                     ret (respond 500
                            (BError
                               "The file was not ready in the allotted time")))
          end
      end
  end.

(** POST /api/upload-image *)
Definition upload_image (file : option File) (o : Out) : Response * Out :=
  match handler_body file o with
  | (Ret resp, o1) => (resp, o1)
  | (Throw e, o1) =>
      (respond 500 (BError "Loading error image"),
       console_error "Loading error" o1)
  end.

End Handler.

(** *** Vocabulary of the statements *)

(** The three calls of an upload. *)
Definition three_calls (f : File) (t : Target) : list NetEvent :=
  [CallStaged "FILE" (size f); CallBlob (target_url t);
   CallFileCreate "IMAGE" (resourceUrl t)].

(** The platform stages the upload with target [t], the blob storage
    accepts the bytes and [fileCreate] answers with a file that has the
    non-empty id [fileId]. *)
Record Created (env : Env) (t : Target) (fileId : string) : Prop := {
  cr_staged : staged env = Resolved (Some t);
  cr_blob : exists r, blob env = Resolved r /\ blob_ok r = true;
  cr_fileCreate :
    exists json, fileCreate env = Resolved json
                 /\ files0 json ≫= node_id = Some fileId;
  cr_id : fileId <> ""
}.

(** The attempts before the [k]-th are answered with a node that is not
    [READY]. *)
Definition idle_before (env : Env) (k : nat) : Prop :=
  forall i, (i < k)%nat ->
    exists n, poll env i = Resolved (Some n) /\ fileStatus n <> Some "READY".

End Legacy.

(** ** Concrete runs

    A job registered for [a.png], the file multer stored for it, and the
    answers of a platform that stages, stores and creates the file. *)

Module Examples.
Import Tracked.

Definition w_empty : World :=
  {| uploadStatuses := ∅;
     files := {[ "/srv/temp/1-a.png" := "PNGDATA" ]};
     unlink_fails := ∅; arrays := []; controllers := [];
     console := []; net := [] |}.

Definition w_registered : World :=
  (init_upload "u1" 1000
     {| init_filename := Some "a.png"; init_fileType := Some "image" |}
     w_empty).2.

Definition a_png : File :=
  {| originalname := "a.png"; mimetype := "image/png"; size := 7;
     path := "/srv/temp/1-a.png"; filename := "1-a.png" |}.

Definition req_image : UploadRequest :=
  {| file := Some a_png; fileType := Some "image";
     body_uploadId := Some "u1" |}.

Definition a_target : Target :=
  {| target_url := "https://blob.example/upload";
     resourceUrl := "https://blob.example/res/1";
     parameters := [("key", "tmp/1")] |}.

Definition pending_node : FileNode :=
  {| node_id := Some "gid://shopify/MediaImage/1"; fileStatus := Some "PROCESSING";
     image_url := None; sources := None; node_url := None |}.

Definition ready_node : FileNode :=
  {| node_id := Some "gid://shopify/MediaImage/1"; fileStatus := Some "READY";
     image_url := Some "https://cdn.example/a.jpg"; sources := None;
     node_url := None |}.

(** [fileCreate] returns the URL at once. *)
Definition env_direct_url : Env :=
  {| tempDir := "/srv/temp"; ffmpegAvailable := true;
     transform := Resolved "JPGDATA";
     cancel_in_transform := false; timer_fires := false;
     written_early := None; written_late := None;
     staged := Resolved (Some a_target); cancel_in_staged := false;
     blob := Resolved {| blob_ok := true; blob_text := "" |};
     cancel_in_blob := false;
     fileCreate := Resolved {| files0 := Some ready_node; userErrors := [] |};
     cancel_in_fileCreate := false;
     poll := fun _ => Resolved (Some pending_node);
     cancel_in_poll := fun _ => false;
     cancel_in_sleep := fun _ => false |}.

(** The job of [w_registered] after a successful upload. *)
Definition w_completed : World :=
  (upload_file env_direct_url req_image w_registered).2.

(** A job in the middle of its upload: both temporary files exist and
    the request to the blob storage is in flight. *)
Definition job_uploading : UploadStatus :=
  {| id := "u1"; status := Uploading; progress := 60;
     originalFilename := "a.png"; error := None; url := None;
     type := "image"; timestamp := Some 1000;
     abortController := Some 1%nat; tempFiles := Some 0%nat |}.

Definition w_uploading : World :=
  {| uploadStatuses := {[ "u1" := job_uploading ]};
     files := {[ "/srv/temp/1-a.png" := "PNGDATA";
                 "/srv/temp/compressed-1-a.png" := "JPGDATA" ]};
     unlink_fails := ∅;
     arrays := [["/srv/temp/1-a.png"; "/srv/temp/compressed-1-a.png"]];
     controllers := [false; false];
     console := [];
     net := [CallStaged "FILE" 7; CallBlob "https://blob.example/upload"] |}.

(** [fileCreate] returns only an id and the node never becomes ready. *)
Definition env_never_ready : Env :=
  {| tempDir := "/srv/temp"; ffmpegAvailable := true;
     transform := Resolved "JPGDATA";
     cancel_in_transform := false; timer_fires := false;
     written_early := None; written_late := None;
     staged := Resolved (Some a_target); cancel_in_staged := false;
     blob := Resolved {| blob_ok := true; blob_text := "" |};
     cancel_in_blob := false;
     fileCreate := Resolved {| files0 := Some pending_node; userErrors := [] |};
     cancel_in_fileCreate := false;
     poll := fun _ => Resolved (Some pending_node);
     cancel_in_poll := fun _ => false;
     cancel_in_sleep := fun _ => false |}.

(** The first status query fails on the network, the second finds the
    file ready. *)
Definition env_retry : Env :=
  {| tempDir := "/srv/temp"; ffmpegAvailable := true;
     transform := Resolved "JPGDATA";
     cancel_in_transform := false; timer_fires := false;
     written_early := None; written_late := None;
     staged := Resolved (Some a_target); cancel_in_staged := false;
     blob := Resolved {| blob_ok := true; blob_text := "" |};
     cancel_in_blob := false;
     fileCreate := Resolved {| files0 := Some pending_node; userErrors := [] |};
     cancel_in_fileCreate := false;
     poll := fun i =>
               match i with
               | O => Rejected {| err_name := "FetchError";
                                  err_message := "socket hang up" |}
               | _ => Resolved (Some ready_node)
               end;
     cancel_in_poll := fun _ => false;
     cancel_in_sleep := fun _ => false |}.

(** A cancel request is served while sharp recompresses the image. *)
Definition env_cancel_in_compress : Env :=
  {| tempDir := "/srv/temp"; ffmpegAvailable := true;
     transform := Resolved "JPGDATA";
     cancel_in_transform := true; timer_fires := true;
     written_early := None; written_late := None;
     staged := Resolved (Some a_target); cancel_in_staged := false;
     blob := Resolved {| blob_ok := true; blob_text := "" |};
     cancel_in_blob := false;
     fileCreate := Resolved {| files0 := Some ready_node; userErrors := [] |};
     cancel_in_fileCreate := false;
     poll := fun _ => Resolved (Some pending_node);
     cancel_in_poll := fun _ => false;
     cancel_in_sleep := fun _ => false |}.

(** The staged-upload request fails on the network. *)
Definition env_staged_fails : Env :=
  {| tempDir := "/srv/temp"; ffmpegAvailable := true;
     transform := Resolved "JPGDATA";
     cancel_in_transform := false; timer_fires := false;
     written_early := None; written_late := None;
     staged := Rejected {| err_name := "FetchError";
                           err_message := "socket hang up" |};
     cancel_in_staged := false;
     blob := Resolved {| blob_ok := true; blob_text := "" |};
     cancel_in_blob := false;
     fileCreate := Resolved {| files0 := Some ready_node; userErrors := [] |};
     cancel_in_fileCreate := false;
     poll := fun _ => Resolved (Some pending_node);
     cancel_in_poll := fun _ => false;
     cancel_in_sleep := fun _ => false |}.

(** An image of 11MB. *)
Definition big_png : File :=
  {| originalname := "a.png"; mimetype := "image/png";
     size := 11 * 1024 * 1024;
     path := "/srv/temp/1-a.png"; filename := "1-a.png" |}.

Definition req_big_image : UploadRequest :=
  {| file := Some big_png; fileType := Some "image";
     body_uploadId := Some "u1" |}.

(** The platform stages, stores and creates the file without a URL; the
    status queries are answered by [answers], and a cancel request is
    served during the queries and the waits that [in_query] and [in_wait]
    select. *)
Definition env_polling (answers : nat -> Settled (option FileNode))
    (in_query in_wait : nat -> bool) : Env :=
  {| tempDir := "/srv/temp"; ffmpegAvailable := true;
     transform := Resolved "JPGDATA";
     cancel_in_transform := false; timer_fires := false;
     written_early := None; written_late := None;
     staged := Resolved (Some a_target); cancel_in_staged := false;
     blob := Resolved {| blob_ok := true; blob_text := "" |};
     cancel_in_blob := false;
     fileCreate := Resolved {| files0 := Some pending_node; userErrors := [] |};
     cancel_in_fileCreate := false;
     poll := answers;
     cancel_in_poll := in_query;
     cancel_in_sleep := in_wait |}.

(** The file is ready at the third query. *)
Definition ready_at_third (i : nat) : Settled (option FileNode) :=
  if Nat.eqb i 2 then Resolved (Some ready_node)
  else Resolved (Some pending_node).

(** A cancel request is served while the bytes go to the blob storage. *)
Definition env_cancel_in_blob : Env :=
  {| tempDir := "/srv/temp"; ffmpegAvailable := true;
     transform := Resolved "JPGDATA";
     cancel_in_transform := false; timer_fires := false;
     written_early := None; written_late := None;
     staged := Resolved (Some a_target); cancel_in_staged := false;
     blob := Resolved {| blob_ok := true; blob_text := "" |};
     cancel_in_blob := true;
     fileCreate := Resolved {| files0 := Some ready_node; userErrors := [] |};
     cancel_in_fileCreate := false;
     poll := fun _ => Resolved (Some pending_node);
     cancel_in_poll := fun _ => false;
     cancel_in_sleep := fun _ => false |}.

(** A cancel request is served while sharp reads the image; the stored
    file is deleted under it and sharp fails. *)
Definition env_cancel_breaks_sharp : Env :=
  {| tempDir := "/srv/temp"; ffmpegAvailable := true;
     transform := Rejected (mkError "Input file is missing");
     cancel_in_transform := true; timer_fires := false;
     written_early := None; written_late := None;
     staged := Resolved (Some a_target); cancel_in_staged := false;
     blob := Resolved {| blob_ok := true; blob_text := "" |};
     cancel_in_blob := false;
     fileCreate := Resolved {| files0 := Some ready_node; userErrors := [] |};
     cancel_in_fileCreate := false;
     poll := fun _ => Resolved (Some pending_node);
     cancel_in_poll := fun _ => false;
     cancel_in_sleep := fun _ => false |}.

(** A job registered for a video and the file multer stored for it. *)
Definition w_video : World :=
  (init_upload "v1" 1000
     {| init_filename := Some "b.mp4"; init_fileType := Some "video" |}
     {| uploadStatuses := ∅;
        files := {[ "/srv/temp/2-b.mp4" := "MP4DATA" ]};
        unlink_fails := ∅; arrays := []; controllers := [];
        console := []; net := [] |}).2.

Definition b_mp4 : File :=
  {| originalname := "b.mp4"; mimetype := "video/mp4"; size := 7;
     path := "/srv/temp/2-b.mp4"; filename := "2-b.mp4" |}.

Definition req_video : UploadRequest :=
  {| file := Some b_mp4; fileType := Some "video";
     body_uploadId := Some "v1" |}.

(** A video node that carries its first source. *)
Definition video_node : FileNode :=
  {| node_id := Some "gid://shopify/Video/2"; fileStatus := Some "READY";
     image_url := None;
     sources := Some [Some "https://cdn.example/b.mp4";
                      Some "https://cdn.example/b.webm"];
     node_url := None |}.

(** ffmpeg transcodes the video and [fileCreate] returns the node with
    its sources at once. *)
Definition env_video_url : Env :=
  {| tempDir := "/srv/temp"; ffmpegAvailable := true;
     transform := Resolved "H264DATA";
     cancel_in_transform := false; timer_fires := false;
     written_early := None; written_late := None;
     staged := Resolved (Some a_target); cancel_in_staged := false;
     blob := Resolved {| blob_ok := true; blob_text := "" |};
     cancel_in_blob := false;
     fileCreate := Resolved {| files0 := Some video_node; userErrors := [] |};
     cancel_in_fileCreate := false;
     poll := fun _ => Resolved (Some pending_node);
     cancel_in_poll := fun _ => false;
     cancel_in_sleep := fun _ => false |}.


(** A video of 101MB and an image of 11MB sent for registered jobs. *)
Definition huge_mp4 : File :=
  {| originalname := "b.mp4"; mimetype := "video/mp4";
     size := 101 * 1024 * 1024;
     path := "/srv/temp/2-b.mp4"; filename := "2-b.mp4" |}.

Definition req_huge_video : UploadRequest :=
  {| file := Some huge_mp4; fileType := Some "video";
     body_uploadId := Some "v1" |}.

(** The staged-upload request fails with the message the handler takes
    for a cancellation. *)
Definition env_staged_says_cancelled : Env :=
  {| tempDir := "/srv/temp"; ffmpegAvailable := true;
     transform := Resolved "JPGDATA";
     cancel_in_transform := false; timer_fires := false;
     written_early := None; written_late := None;
     staged := Rejected (mkError "Upload cancelled");
     cancel_in_staged := false;
     blob := Resolved {| blob_ok := true; blob_text := "" |};
     cancel_in_blob := false;
     fileCreate := Resolved {| files0 := Some ready_node; userErrors := [] |};
     cancel_in_fileCreate := false;
     poll := fun _ => Resolved (Some pending_node);
     cancel_in_poll := fun _ => false;
     cancel_in_sleep := fun _ => false |}.

End Examples.

Module DirectExamples.
Import Direct.

Definition o_empty : Out := {| net := []; console := [] |}.

Definition a_png : File :=
  {| originalname := "a.png"; mimetype := "image/png"; size := 7;
     buffer := "PNGDATA" |}.

Definition big_png : File :=
  {| originalname := "a.png"; mimetype := "image/png";
     size := 11 * 1024 * 1024; buffer := "PNGDATA" |}.

Definition a_mp4 : File :=
  {| originalname := "a.mp4"; mimetype := "video/mp4"; size := 9;
     buffer := "MP4DATA" |}.

Definition req_image : UploadRequest :=
  {| file := Some a_png; fileType := Some "image" |}.
Definition req_big_image : UploadRequest :=
  {| file := Some big_png; fileType := Some "image" |}.
Definition req_video : UploadRequest :=
  {| file := Some a_mp4; fileType := Some "video" |}.

Definition generic_node : FileNode :=
  {| node_id := Some "gid://shopify/GenericFile/1"; fileStatus := None;
     image_url := None; sources := None;
     node_url := Some "https://cdn.example/a.mp4" |}.

(** [fileCreate] returns the URL at once; so does the inline attempt. *)
Definition env_direct_url : Env :=
  {| inline := Resolved {| files0 := Some generic_node; userErrors := [] |};
     staged := Resolved (Some Examples.a_target);
     blob := Resolved {| blob_ok := true; blob_text := "" |};
     fileCreate :=
       Resolved {| files0 := Some Examples.ready_node; userErrors := [] |};
     poll := fun _ => Resolved (Some Examples.pending_node) |}.

(** [fileCreate] returns only an id and the node never becomes ready. *)
Definition env_never_ready : Env :=
  {| inline := Rejected (mkError "payload too large");
     staged := Resolved (Some Examples.a_target);
     blob := Resolved {| blob_ok := true; blob_text := "" |};
     fileCreate :=
       Resolved {| files0 := Some Examples.pending_node; userErrors := [] |};
     poll := fun _ => Resolved (Some Examples.pending_node) |}.

(** [fileCreate] returns only an id and the file is ready at the third
    query. *)
Definition env_ready_at_third : Env :=
  {| inline := Rejected (mkError "payload too large");
     staged := Resolved (Some Examples.a_target);
     blob := Resolved {| blob_ok := true; blob_text := "" |};
     fileCreate :=
       Resolved {| files0 := Some Examples.pending_node; userErrors := [] |};
     poll := Examples.ready_at_third |}.

(** The second status query fails on the network. *)
Definition env_query_fails : Env :=
  {| inline := Rejected (mkError "payload too large");
     staged := Resolved (Some Examples.a_target);
     blob := Resolved {| blob_ok := true; blob_text := "" |};
     fileCreate :=
       Resolved {| files0 := Some Examples.pending_node; userErrors := [] |};
     poll := fun i =>
               if Nat.eqb i 1 then Rejected (mkError "socket hang up")
               else Resolved (Some Examples.pending_node) |}.

(** The blob storage refuses the bytes. *)
Definition env_blob_refuses : Env :=
  {| inline := Rejected (mkError "payload too large");
     staged := Resolved (Some Examples.a_target);
     blob := Resolved {| blob_ok := false; blob_text := "AccessDenied" |};
     fileCreate :=
       Resolved {| files0 := Some Examples.pending_node; userErrors := [] |};
     poll := fun _ => Resolved (Some Examples.pending_node) |}.

(** The inline attempt fails; after the staged upload [fileCreate]
    returns the video node with its sources. *)
Definition env_video_sources : Env :=
  {| inline := Rejected (mkError "payload too large");
     staged := Resolved (Some Examples.a_target);
     blob := Resolved {| blob_ok := true; blob_text := "" |};
     fileCreate :=
       Resolved {| files0 := Some Examples.video_node; userErrors := [] |};
     poll := fun _ => Resolved (Some Examples.pending_node) |}.

Definition huge_mp4 : File :=
  {| originalname := "a.mp4"; mimetype := "video/mp4";
     size := 300 * 1024 * 1024; buffer := "MP4DATA" |}.
Definition req_huge_video : UploadRequest :=
  {| file := Some huge_mp4; fileType := Some "video" |}.

End DirectExamples.

Module LegacyExamples.
Import Direct.

(** [fileCreate] returns the image with its URL; the node is ready at
    the third query. *)
Definition env_ready_at_third : Legacy.Env :=
  {| Legacy.staged := Resolved (Some Examples.a_target);
     Legacy.blob := Resolved {| blob_ok := true; blob_text := "" |};
     Legacy.fileCreate :=
       Resolved {| files0 := Some Examples.ready_node; userErrors := [] |};
     Legacy.poll := Examples.ready_at_third |}.

(** The node never becomes ready. *)
Definition env_never_ready : Legacy.Env :=
  {| Legacy.staged := Resolved (Some Examples.a_target);
     Legacy.blob := Resolved {| blob_ok := true; blob_text := "" |};
     Legacy.fileCreate :=
       Resolved {| files0 := Some Examples.pending_node; userErrors := [] |};
     Legacy.poll := fun _ => Resolved (Some Examples.pending_node) |}.

(** The blob storage refuses the bytes. *)
Definition env_blob_refuses : Legacy.Env :=
  {| Legacy.staged := Resolved (Some Examples.a_target);
     Legacy.blob :=
       Resolved {| blob_ok := false; blob_text := "AccessDenied" |};
     Legacy.fileCreate :=
       Resolved {| files0 := Some Examples.ready_node; userErrors := [] |};
     Legacy.poll := fun _ => Resolved (Some Examples.pending_node) |}.

(** A file of 300MB. *)
Definition huge_png : File :=
  {| originalname := "huge.png"; mimetype := "image/png";
     size := 300 * 1024 * 1024; buffer := "PNGDATA" |}.

End LegacyExamples.

(** ** Facts about the tracked server *)

Module TrackedFacts.
Import Tracked.

#[local] Open Scope list_scope.

(** *** Deleting temporary files *)

Lemma delete_temp_file_table w p :
  uploadStatuses (delete_temp_file w p) = uploadStatuses w.
Proof.
  unfold delete_temp_file.
  destruct (existsSync p w); [|done].
  by destruct (bool_decide (p ∈ unlink_fails w)).
Qed.

Lemma delete_temp_file_frame w p :
  unlink_fails (delete_temp_file w p) = unlink_fails w
  /\ arrays (delete_temp_file w p) = arrays w
  /\ controllers (delete_temp_file w p) = controllers w
  /\ net (delete_temp_file w p) = net w.
Proof.
  unfold delete_temp_file.
  destruct (existsSync p w); [|done].
  by destruct (bool_decide (p ∈ unlink_fails w)).
Qed.

Lemma delete_paths_table l : forall w,
  uploadStatuses (foldl delete_temp_file w l) = uploadStatuses w.
Proof.
  induction l as [|p l IH]; intros w; simpl; [done|].
  by rewrite IH, delete_temp_file_table.
Qed.

Lemma delete_paths_frame l : forall w,
  unlink_fails (foldl delete_temp_file w l) = unlink_fails w
  /\ arrays (foldl delete_temp_file w l) = arrays w
  /\ controllers (foldl delete_temp_file w l) = controllers w
  /\ net (foldl delete_temp_file w l) = net w.
Proof.
  induction l as [|p l IH]; intros w; simpl; [done|].
  destruct (IH (delete_temp_file w p)) as (-> & -> & -> & ->).
  apply delete_temp_file_frame.
Qed.

(** Deleting never creates a file. *)
Lemma delete_temp_file_absent w p q :
  files w !! q = None -> files (delete_temp_file w p) !! q = None.
Proof.
  intros Hq. unfold delete_temp_file.
  destruct (existsSync p w); [|done].
  destruct (bool_decide (p ∈ unlink_fails w)); simpl; [done|].
  apply lookup_delete_None. by right.
Qed.

Lemma delete_paths_absent l : forall w q,
  files w !! q = None -> files (foldl delete_temp_file w l) !! q = None.
Proof.
  induction l as [|p l IH]; intros w q Hq; simpl; [done|].
  by apply IH, delete_temp_file_absent.
Qed.

(** Deleting never erases a log line. *)
Lemma delete_temp_file_console w p e :
  e ∈ console w -> e ∈ console (delete_temp_file w p).
Proof.
  intros He. unfold delete_temp_file.
  destruct (existsSync p w); [|done].
  destruct (bool_decide (p ∈ unlink_fails w)); simpl; [|done].
  apply elem_of_app. by left.
Qed.

Lemma delete_paths_console l : forall w e,
  e ∈ console w -> e ∈ console (foldl delete_temp_file w l).
Proof.
  induction l as [|p l IH]; intros w e He; simpl; [done|].
  by apply IH, delete_temp_file_console.
Qed.

(** One delete: the path is gone, or the failure is on the console. *)
Lemma delete_temp_file_done w p :
  files (delete_temp_file w p) !! p = None
  \/ (p ∈ unlink_fails w /\ delete_error p ∈ console (delete_temp_file w p)).
Proof.
  unfold delete_temp_file, existsSync.
  case_bool_decide as Hex.
  - case_bool_decide as Hl; simpl.
    + right. split; [done|]. apply elem_of_app. right.
      by apply list_elem_of_singleton.
    + left. apply lookup_delete_eq.
  - left. destruct (files w !! p) eqn:E; [|done].
    exfalso. apply Hex. by eexists.
Qed.

Lemma delete_paths_done l : forall w p,
  p ∈ l ->
  files (foldl delete_temp_file w l) !! p = None
  \/ (p ∈ unlink_fails w
      /\ delete_error p ∈ console (foldl delete_temp_file w l)).
Proof.
  induction l as [|a l IH]; intros w p Hp; [by apply elem_of_nil in Hp|].
  simpl. apply elem_of_cons in Hp as [->|Hp].
  - destruct (delete_temp_file_done w a) as [Hgone|[Hl Hlog]].
    + left. by apply delete_paths_absent.
    + right. split; [done|]. by apply delete_paths_console.
  - destruct (IH (delete_temp_file w a) p Hp) as [?|[Hl ?]]; [by left|].
    right. split; [|done].
    by destruct (delete_temp_file_frame w a) as (<- & _).
Qed.

(** Deleting again what was deleted changes nothing. *)
Lemma delete_temp_file_again w p :
  files w !! p = None -> delete_temp_file w p = w.
Proof.
  intros Hp. unfold delete_temp_file, existsSync.
  case_bool_decide as Hex; [|done].
  destruct Hex as [c Hc]. congruence.
Qed.

(** *** Cancelling *)

Lemma cancel_upload_known w uploadId s :
  uploadId <> "" ->
  uploadStatuses w !! uploadId = Some s ->
  cancel_upload uploadId w =
    (respond 200 (BSuccess "Upload cancelled"),
     delete_temp_files s
       (with_table
          (<[uploadId := set_error cancel_message (set_status Cancelled s)]>
             (uploadStatuses w))
          (match abortController s with
           | Some c => abort c w
           | None => w
           end))).
Proof.
  intros Hne Hs. unfold cancel_upload. rewrite Hs.
  destruct (String.eqb_spec uploadId ""); [done|].
  by destruct (abortController s).
Qed.

Lemma cancel_upload_table w uploadId s :
  uploadId <> "" ->
  uploadStatuses w !! uploadId = Some s ->
  uploadStatuses (cancel_upload uploadId w).2 =
    <[uploadId := set_error cancel_message (set_status Cancelled s)]>
      (uploadStatuses w).
Proof.
  intros Hne Hs. rewrite (cancel_upload_known _ _ _ Hne Hs). simpl.
  unfold delete_temp_files. rewrite delete_paths_table. simpl.
  by destruct (abortController s).
Qed.

Lemma cancel_upload_unknown w uploadId :
  uploadStatuses w !! uploadId = None ->
  cancel_upload uploadId w = (respond 404 (BError "Upload not found"), w).
Proof. intros Hs. unfold cancel_upload. by rewrite Hs. Qed.

(** A cancel request never removes or adds a job. *)
Lemma cancel_upload_dom w uploadId :
  dom (uploadStatuses (cancel_upload uploadId w).2) = dom (uploadStatuses w).
Proof.
  destruct (uploadStatuses w !! uploadId) as [s|] eqn:Hs.
  - destruct (String.eqb_spec uploadId "") as [->|Hne].
    + unfold cancel_upload. by rewrite Hs.
    + rewrite (cancel_upload_table _ _ _ Hne Hs).
      apply dom_insert_lookup_L. by eexists.
  - by rewrite cancel_upload_unknown.
Qed.

Lemma delete_temp_files_frame s w :
  unlink_fails (delete_temp_files s w) = unlink_fails w
  /\ arrays (delete_temp_files s w) = arrays w
  /\ controllers (delete_temp_files s w) = controllers w
  /\ net (delete_temp_files s w) = net w.
Proof. unfold delete_temp_files. apply delete_paths_frame. Qed.

Lemma cancel_upload_controllers w uploadId s :
  uploadId <> "" ->
  uploadStatuses w !! uploadId = Some s ->
  controllers (cancel_upload uploadId w).2
  = match abortController s with
    | Some c => <[c := true]> (controllers w)
    | None => controllers w
    end.
Proof.
  intros Hne Hs. rewrite (cancel_upload_known _ _ _ Hne Hs). cbn [snd].
  destruct (delete_temp_files_frame s
              (with_table
                 (<[uploadId:=set_error cancel_message (set_status Cancelled s)]>
                    (uploadStatuses w))
                 match abortController s with
                 | Some c => abort c w
                 | None => w
                 end)) as (_ & _ & -> & _).
  by destruct (abortController s).
Qed.

(** The controller the job holds is aborted by the cancel request. *)
Lemma cancel_upload_aborts w uploadId s c :
  uploadId <> "" ->
  uploadStatuses w !! uploadId = Some s ->
  abortController s = Some c ->
  (c < length (controllers w))%nat ->
  aborted c (cancel_upload uploadId w).2 = true.
Proof.
  intros Hne Hs Hc Hlt. unfold aborted.
  rewrite (cancel_upload_controllers _ _ _ Hne Hs), Hc.
  by rewrite list_lookup_insert_eq.
Qed.

Lemma cancel_upload_net uploadId w :
  net (cancel_upload uploadId w).2 = net w.
Proof.
  destruct (uploadStatuses w !! uploadId) as [s|] eqn:Hs;
    [|by rewrite cancel_upload_unknown].
  destruct (String.eqb_spec uploadId "") as [->|Hne].
  { unfold cancel_upload. by rewrite Hs. }
  rewrite (cancel_upload_known _ _ _ Hne Hs). cbn [snd].
  destruct (delete_temp_files_frame s
              (with_table
                 (<[uploadId:=set_error cancel_message (set_status Cancelled s)]>
                    (uploadStatuses w))
                 match abortController s with
                 | Some c => abort c w
                 | None => w
                 end)) as (_ & _ & _ & ->).
  by destruct (abortController s).
Qed.

(** C1 as the code has it: a cancel request is applied whatever the
    status of the job. It stores status [cancelled] and the fixed message
    in [error], and keeps [url] and every other field; the record is
    left as it was only when it was already cancelled with that message. *)
Theorem cancel_upload_overwrites w uploadId s :
  uploadId <> "" ->
  uploadStatuses w !! uploadId = Some s ->
  let w' := (cancel_upload uploadId w).2 in
  uploadStatuses w' !! uploadId
    = Some (set_error cancel_message (set_status Cancelled s))
  /\ (status <$> uploadStatuses w' !! uploadId) = Some Cancelled
  /\ (error <$> uploadStatuses w' !! uploadId) = Some (Some cancel_message)
  /\ (url <$> uploadStatuses w' !! uploadId) = Some (url s)
  /\ (status s = Cancelled -> error s = Some cancel_message ->
      uploadStatuses w' = uploadStatuses w).
Proof.
  intros Hne Hs w'. subst w'.
  rewrite (cancel_upload_table _ _ _ Hne Hs), lookup_insert_eq.
  repeat split; try done.
  intros Hst Herr. apply insert_id. rewrite Hs. f_equal.
  destruct s; simpl in *. by subst.
Qed.

Lemma cancel_upload_overwrites_witness :
  let w' := (cancel_upload "u1" Examples.w_completed).2 in
  (status <$> uploadStatuses w' !! "u1") = Some Cancelled
  /\ (url <$> uploadStatuses w' !! "u1")
     = Some (Some "https://cdn.example/a.jpg").
Proof.
  pose proof (cancel_upload_overwrites Examples.w_completed "u1"
    {| id := "u1"; status := Completed; progress := 100;
       originalFilename := "a.png"; error := None;
       url := Some "https://cdn.example/a.jpg"; type := "image";
       timestamp := Some 1000; abortController := Some 2%nat;
       tempFiles := Some 0%nat |}) as H.
  destruct H as (_ & Hst & _ & Hurl & _).
  - discriminate.
  - vm_compute. reflexivity.
  - split; [exact Hst | exact Hurl].
Defined.

(** C1, as stated, fails: cancelling the completed job of
    [Examples.w_completed] turns its status into [cancelled] and fills
    its [error]. *)
Lemma cancel_completed_job_is_changed :
  let w := Examples.w_completed in
  let w' := (cancel_upload "u1" w).2 in
  (status <$> uploadStatuses w !! "u1") = Some Completed
  /\ (error <$> uploadStatuses w !! "u1") = Some None
  /\ (status <$> uploadStatuses w' !! "u1") = Some Cancelled
  /\ (error <$> uploadStatuses w' !! "u1")
     = Some (Some "Upload cancelled by user")
  /\ uploadStatuses w' !! "u1" <> uploadStatuses w !! "u1".
Proof. vm_compute. repeat split; discriminate. Qed.

(** C2: cancelling a registered job that is not terminal answers 200,
    aborts the controller the job holds, so that the request in flight,
    which is bound to it, is rejected with [AbortError]; it stores status
    [cancelled] with the fixed message, and deletes every path of
    [tempFiles]: afterwards each path is absent or its failed delete is on
    the console (and the request still succeeds); with no failing delete
    every path is absent. An unknown identifier is answered 404 and
    changes nothing. *)
Theorem cancel_upload_running_job :
  (forall w uploadId s,
     uploadId <> "" ->
     uploadStatuses w !! uploadId = Some s ->
     is_terminal (status s) = false ->
     let r := cancel_upload uploadId w in
     r.1 = respond 200 (BSuccess "Upload cancelled")
     /\ (forall c, abortController s = Some c ->
                   (c < length (controllers w))%nat ->
                   aborted c r.2 = true
                   /\ forall (A : Type) (answer : Settled A),
                        await_fetch uploadId c true answer w
                        = (Throw AbortError, r.2))
     /\ (status <$> uploadStatuses r.2 !! uploadId) = Some Cancelled
     /\ (error <$> uploadStatuses r.2 !! uploadId)
        = Some (Some "Upload cancelled by user")
     /\ (forall p, p ∈ temp_paths s w ->
           files r.2 !! p = None
           \/ (p ∈ unlink_fails w /\ delete_error p ∈ console r.2))
     /\ (unlink_fails w = ∅ ->
         forall p, p ∈ temp_paths s w -> files r.2 !! p = None))
  /\ (forall w uploadId,
        uploadStatuses w !! uploadId = None ->
        cancel_upload uploadId w
        = (respond 404 (BError "Upload not found"), w)).
Proof.
  split; [|apply cancel_upload_unknown].
  intros w uploadId s Hne Hs _ r.
  assert (Hpaths : forall p, p ∈ temp_paths s w ->
            files r.2 !! p = None
            \/ (p ∈ unlink_fails w /\ delete_error p ∈ console r.2)).
  { intros p Hp. subst r. rewrite (cancel_upload_known _ _ _ Hne Hs).
    cbn [snd]. unfold delete_temp_files.
    set (w2 := with_table _ _).
    assert (Hsame : temp_paths s w2 = temp_paths s w
                    /\ unlink_fails w2 = unlink_fails w).
    { subst w2. unfold temp_paths. by destruct (abortController s). }
    destruct Hsame as [Hsame Hlocked]. rewrite Hsame, <- Hlocked.
    by apply delete_paths_done. }
  subst r. split; [by rewrite (cancel_upload_known _ _ _ Hne Hs)|].
  split.
  { intros c Hc Hlt.
    pose proof (cancel_upload_aborts _ _ _ _ Hne Hs Hc Hlt) as Hab.
    split; [done|]. intros A answer.
    unfold await_fetch, bind, interleave_cancel, modify, gets.
    by rewrite Hab. }
  split; [by rewrite (cancel_upload_table _ _ _ Hne Hs), lookup_insert_eq|].
  split; [by rewrite (cancel_upload_table _ _ _ Hne Hs), lookup_insert_eq|].
  split; [exact Hpaths|].
  intros Hnone p Hp. destruct (Hpaths p Hp) as [?|[Hl _]]; [done|].
  rewrite Hnone in Hl. by apply not_elem_of_empty in Hl.
Qed.

Lemma cancel_upload_running_job_witness :
  let r := cancel_upload "u1" Examples.w_uploading in
  r.1 = respond 200 (BSuccess "Upload cancelled")
  /\ aborted 1 r.2 = true
  /\ files r.2 !! "/srv/temp/compressed-1-a.png" = None.
Proof.
  destruct cancel_upload_running_job as [H _].
  destruct (H Examples.w_uploading "u1" Examples.job_uploading)
    as (Hr & Hab & _ & _ & _ & Hfiles).
  - discriminate.
  - vm_compute. reflexivity.
  - reflexivity.
  - split; [exact Hr|]. split.
    + apply (Hab 1%nat); [reflexivity | simpl; lia].
    + apply Hfiles; [reflexivity|].
      apply elem_of_cons. right. apply elem_of_cons. by left.
Defined.

(** *** The handlers keep every job in the table *)

Lemma keeps_ret {A} (a : A) : keeps_jobs (ret a).
Proof. by intros w. Qed.

Lemma keeps_throw {A} e : keeps_jobs (@throw A e).
Proof. by intros w. Qed.

Lemma keeps_gets {A} (f : World -> A) : keeps_jobs (gets f).
Proof. by intros w. Qed.

Lemma keeps_modify f :
  (forall w, dom (uploadStatuses (f w)) = dom (uploadStatuses w)) ->
  keeps_jobs (modify f).
Proof. intros H w. apply H. Qed.

Lemma keeps_bind {A B} (m : M A) (k : A -> M B) :
  keeps_jobs m -> (forall a, keeps_jobs (k a)) -> keeps_jobs (bind m k).
Proof.
  intros Hm Hk w. unfold bind. specialize (Hm w).
  destruct (m w) as [[a|e] w1]; simpl in *; [|done].
  by rewrite (Hk a w1).
Qed.

Lemma keeps_try_catch {A} (m : M A) (h : JsError -> M A) :
  keeps_jobs m -> (forall e, keeps_jobs (h e)) -> keeps_jobs (try_catch m h).
Proof.
  intros Hm Hh w. unfold try_catch. specialize (Hm w).
  destruct (m w) as [[a|e] w1]; simpl in *; [done|].
  by rewrite (Hh e w1).
Qed.

Lemma keeps_update uploadId f : keeps_jobs (update uploadId f).
Proof. apply keeps_modify. intros w. simpl. apply dom_alter_L. Qed.

Lemma keeps_interleave_cancel b uploadId :
  keeps_jobs (interleave_cancel b uploadId).
Proof.
  apply keeps_modify. intros w. destruct b; [|done]. apply cancel_upload_dom.
Qed.

Lemma keeps_new_controller : keeps_jobs new_controller.
Proof. by intros w. Qed.

Lemma keeps_copyFileSync src dst : keeps_jobs (copyFileSync src dst).
Proof. intros w. unfold copyFileSync. by destruct (files w !! src). Qed.

Lemma keeps_statSync_size p : keeps_jobs (statSync_size p).
Proof. intros w. unfold statSync_size. by destruct (files w !! p). Qed.

Lemma keeps_ensure_tempFiles uploadId : keeps_jobs (ensure_tempFiles uploadId).
Proof.
  intros w. unfold ensure_tempFiles.
  destruct (uploadStatuses w !! uploadId) as [s|] eqn:Hs; [|done].
  destruct (tempFiles s); [done|]. simpl.
  apply dom_insert_lookup_L. by eexists.
Qed.

(** Applies the rules above along the structure of a computation. *)
Ltac keeps_step :=
  first
    [ apply keeps_ret | apply keeps_throw | apply keeps_gets
    | apply keeps_update | apply keeps_interleave_cancel
    | apply keeps_new_controller | apply keeps_copyFileSync
    | apply keeps_statSync_size | apply keeps_ensure_tempFiles
    | apply keeps_bind; [|intros ?]
    | apply keeps_try_catch; [|intros ?]
    | apply keeps_modify; intros ?; reflexivity
    | assumption
    | match goal with
      | |- keeps_jobs (if ?b then _ else _) => destruct b
      | |- keeps_jobs (match ?x with _ => _ end) => destruct x
      end ].

Ltac keeps := repeat keeps_step.

Lemma keeps_await_fetch {A} uploadId c b (answer : Settled A) :
  keeps_jobs (await_fetch uploadId c b answer).
Proof. unfold await_fetch. keeps. Qed.

Lemma keeps_check_node node : keeps_jobs (check_node node).
Proof. unfold check_node. keeps. Qed.

Lemma keeps_wait_loop env uploadId fileId interval n : forall attempt,
  keeps_jobs (wait_loop env uploadId fileId interval n attempt).
Proof.
  induction n as [|n IH]; intros attempt; simpl.
  - keeps.
  - unfold status_of.
    repeat first [ apply keeps_await_fetch | apply keeps_check_node
                 | apply IH | keeps_step ].
Qed.

Lemma keeps_upload_to_shopify env uploadId fileType filePath :
  keeps_jobs (upload_to_shopify env uploadId fileType filePath).
Proof.
  unfold upload_to_shopify, uploadImageToShopify, uploadVideoToShopify,
    uploadGenericFileToShopify, createStagedUpload, uploadFileToS3,
    call_fileCreate, waitForFileReady.
  repeat first [ apply keeps_await_fetch | apply keeps_wait_loop
               | keeps_step ].
Qed.

Lemma keeps_upload_stage env uploadId fileType f :
  keeps_jobs (upload_stage env uploadId fileType f).
Proof.
  unfold upload_stage.
  repeat first [ apply keeps_upload_to_shopify | keeps_step ].
  apply keeps_modify. intros w. unfold cleanup.
  repeat (destruct (existsSync _ _) || destruct (bool_decide _)); done.
Qed.

Lemma keeps_compress_stage env uploadId fileType f :
  keeps_jobs (compress_stage env uploadId fileType f).
Proof.
  unfold compress_stage, compressImage, compressVideo, leave_output,
    write_file, status_of.
  keeps.
Qed.

Lemma keeps_handler_body env req : keeps_jobs (handler_body env req).
Proof.
  unfold handler_body, is_cancelled, push, status_of.
  repeat first [ apply keeps_upload_stage | apply keeps_compress_stage
               | keeps_step ].
Qed.

(** The upload handler never removes a job. *)
Lemma upload_file_dom env req w :
  dom (uploadStatuses (upload_file env req w).2) = dom (uploadStatuses w).
Proof.
  unfold upload_file. pose proof (keeps_handler_body env req w) as H.
  destruct (handler_body env req w) as [[r|e] w1]; simpl in *; [done|].
  rewrite <- H. destruct (_ && _); [|done]. simpl. apply dom_alter_L.
Qed.

(** *** Status queries and the sweep *)

Lemma upload_status_known w uploadId s :
  uploadId <> "" ->
  uploadStatuses w !! uploadId = Some s ->
  upload_status uploadId w = respond 200 (BStatus s).
Proof.
  intros Hne Hs. unfold upload_status. rewrite Hs.
  by destruct (String.eqb_spec uploadId "").
Qed.

Lemma sweep_files_table l : forall w,
  uploadStatuses
    (foldl (fun w (kv : string * UploadStatus) => delete_temp_files kv.2 w) w l)
  = uploadStatuses w.
Proof.
  induction l as [|kv l IH]; intros w; simpl; [done|].
  rewrite IH. unfold delete_temp_files. apply delete_paths_table.
Qed.

Lemma sweep_lookup now w uploadId s :
  uploadStatuses w !! uploadId = Some s ->
  uploadStatuses (sweep now w) !! uploadId
  = if expired now s then None else Some s.
Proof.
  intros Hs. unfold sweep. simpl. rewrite sweep_files_table.
  destruct (expired now s) eqn:E.
  - apply map_lookup_filter_None. right. intros x Hx.
    rewrite Hs in Hx. injection Hx as <-. simpl. by rewrite E.
  - apply map_lookup_filter_Some. by split.
Qed.

Lemma expired_spec now s t :
  timestamp s = Some t -> t <> 0 ->
  expired now s = true <-> now - t > 3600000.
Proof.
  intros Ht Hnz. unfold expired, retention. rewrite Ht.
  destruct (Z.eqb_spec t 0); [done|]. simpl.
  rewrite Z.gtb_ltb, Z.ltb_lt. lia.
Qed.

(** C10: a job stays in the table, and the status query keeps answering
    with its record, through a cancel request and through the upload
    handler; only the sweep removes it, and only once its age exceeds the
    retention window of one hour. *)
Theorem job_record_kept_until_swept :
  (forall w uploadId s,
     uploadId <> "" ->
     uploadStatuses w !! uploadId = Some s ->
     upload_status uploadId w = respond 200 (BStatus s))
  /\ (forall w uploadId s,
        uploadId <> "" ->
        uploadStatuses w !! uploadId = Some s ->
        upload_status uploadId (cancel_upload uploadId w).2
        = respond 200
            (BStatus (set_error cancel_message (set_status Cancelled s))))
  /\ (forall env req w uploadId,
        registered uploadId w ->
        registered uploadId (upload_file env req w).2)
  /\ (forall now w uploadId s,
        uploadStatuses w !! uploadId = Some s ->
        uploadStatuses (sweep now w) !! uploadId
        = if expired now s then None else Some s)
  /\ (forall now s t,
        timestamp s = Some t -> t <> 0 ->
        expired now s = true <-> now - t > 3600000).
Proof.
  split; [exact upload_status_known|].
  split.
  { intros w uploadId s Hne Hs. apply upload_status_known; [done|].
    by rewrite (cancel_upload_table _ _ _ Hne Hs), lookup_insert_eq. }
  split.
  { intros env req w uploadId [Hne Hin]. split; [done|].
    apply elem_of_dom. rewrite upload_file_dom. by apply elem_of_dom. }
  split; [exact sweep_lookup | exact expired_spec].
Qed.

Lemma job_record_kept_until_swept_witness :
  upload_status "u1" (cancel_upload "u1" Examples.w_completed).2
  = respond 200
      (BStatus {| id := "u1"; status := Cancelled; progress := 100;
                  originalFilename := "a.png";
                  error := Some "Upload cancelled by user";
                  url := Some "https://cdn.example/a.jpg"; type := "image";
                  timestamp := Some 1000; abortController := Some 2%nat;
                  tempFiles := Some 0%nat |})
  /\ is_Some (uploadStatuses (sweep 3601000 Examples.w_completed) !! "u1")
  /\ uploadStatuses (sweep 3601001 Examples.w_completed) !! "u1" = None.
Proof.
  destruct job_record_kept_until_swept as (_ & Hcancel & _ & Hsweep & _).
  split; [|split].
  - rewrite (Hcancel Examples.w_completed "u1"
               {| id := "u1"; status := Completed; progress := 100;
                  originalFilename := "a.png"; error := None;
                  url := Some "https://cdn.example/a.jpg"; type := "image";
                  timestamp := Some 1000; abortController := Some 2%nat;
                  tempFiles := Some 0%nat |});
      [reflexivity | discriminate | vm_compute; reflexivity].
  - erewrite (Hsweep 3601000 Examples.w_completed "u1");
      [|vm_compute; reflexivity]. vm_compute. by eexists.
  - erewrite (Hsweep 3601001 Examples.w_completed "u1");
      [|vm_compute; reflexivity]. vm_compute. reflexivity.
Defined.

(** *** Running a handler on a symbolic world *)

#[local] Arguments waitForFileReady : simpl never.
#[local] Arguments await_fetch : simpl never.
#[local] Arguments truthy : simpl never.

Lemma truthy_Some u : truthy (Some u) = true <-> u <> "".
Proof.
  unfold truthy. destruct (String.eqb_spec u ""); split; simpl; congruence.
Qed.

Lemma gtb_of_gt a b : a > b -> Z.gtb a b = true.
Proof. intros H. rewrite Z.gtb_ltb. apply Z.ltb_lt. lia. Qed.

Lemma gtb_of_le a b : a <= b -> Z.gtb a b = false.
Proof. intros H. rewrite Z.gtb_ltb. apply Z.ltb_ge. lia. Qed.

Lemma fresh_controller_live (cs : list bool) :
  (cs ++ [false]) !! length cs = Some false.
Proof. by apply list_lookup_middle. Qed.

Lemma bind_assoc {A B C} (m : M A) (k1 : A -> M B) (k2 : B -> M C) w :
  bind (bind m k1) k2 w = bind m (fun a => bind (k1 a) k2) w.
Proof. unfold bind. by destruct (m w) as [[a|e] w1]. Qed.

Lemma bind_ret {A B} (a : A) (k : A -> M B) w : bind (ret a) k w = k a w.
Proof. done. Qed.

Lemma bind_throw {A B} e (k : A -> M B) w : bind (throw e) k w = (Throw e, w).
Proof. done. Qed.

Lemma bind_modify {B} f (k : unit -> M B) w : bind (modify f) k w = k tt (f w).
Proof. done. Qed.

Lemma bind_gets {A B} (f : World -> A) (k : A -> M B) w :
  bind (gets f) k w = k (f w) w.
Proof. done. Qed.

Lemma bind_update {B} uploadId f (k : unit -> M B) w :
  bind (update uploadId f) k w
  = k tt (with_table (alter f uploadId (uploadStatuses w)) w).
Proof. done. Qed.

Lemma bind_new_controller {B} (k : nat -> M B) w :
  bind new_controller k w
  = k (length (controllers w)) (with_controllers (controllers w ++ [false]) w).
Proof. done. Qed.

Lemma bind_quiet {B} uploadId (k : unit -> M B) w :
  bind (interleave_cancel false uploadId) k w = k tt w.
Proof. done. Qed.

Lemma bind_try_catch {A B} (m : M A) h (k : A -> M B) w :
  bind (try_catch m h) k w
  = match m w with
    | (Ret a, w1) => k a w1
    | (Throw e, w1) => bind (h e) k w1
    end.
Proof. unfold bind, try_catch. by destruct (m w) as [[a|e] w1]. Qed.

Lemma await_resolved {A} uploadId c (x : A) w :
  aborted c w = false ->
  await_fetch uploadId c false (Resolved x) w = (Ret x, w).
Proof.
  intros Ha. unfold await_fetch, bind, interleave_cancel. cbn. by rewrite Ha.
Qed.

Lemma await_rejected {A} uploadId c e w :
  aborted c w = false ->
  @await_fetch A uploadId c false (Rejected e) w = (Throw e, w).
Proof.
  intros Ha. unfold await_fetch, bind, interleave_cancel. cbn. by rewrite Ha.
Qed.

Lemma bind_await_resolved {A B} uploadId c (x : A) (k : A -> M B) w :
  aborted c w = false ->
  bind (await_fetch uploadId c false (Resolved x)) k w = k x w.
Proof. intros Ha. unfold bind. by rewrite await_resolved. Qed.

Lemma bind_await_rejected {A B} uploadId c e (k : A -> M B) w :
  aborted c w = false ->
  bind (await_fetch uploadId c false (Rejected e)) k w = (Throw e, w).
Proof. intros Ha. unfold bind. by rewrite await_rejected. Qed.

Lemma bind_statSync_size {B} p c (k : Z -> M B) w :
  files w !! p = Some c ->
  bind (statSync_size p) k w = k (Z.of_nat (String.length c)) w.
Proof. intros Hc. unfold bind, statSync_size. by rewrite Hc. Qed.

(** The controller a request was just bound to is not aborted. *)
Ltac live := unfold aborted; cbn; by rewrite fresh_controller_live.

(** Projections of a world built by the setters. *)
Ltac world :=
  cbn [uploadStatuses files unlink_fails arrays controllers console net
       with_table with_files with_arrays with_controllers console_error emit].

Ltac run_step :=
  first [ rewrite bind_assoc | rewrite bind_ret | rewrite bind_throw
        | rewrite bind_modify | rewrite bind_gets | rewrite bind_update
        | rewrite bind_new_controller | rewrite bind_quiet
        | rewrite bind_await_resolved by live
        | rewrite bind_await_rejected by live
        | rewrite await_resolved by live
        | rewrite await_rejected by live ].

Ltac run := repeat (run_step; cbv beta iota; world).

(** *** The upload functions up to the [fileCreate] response *)

Section ToFileCreate.

Context (env : Env) (uploadId : string) (fileType : option string).
Context (t : Target) (r : BlobResponse) (json : FileCreateJson).
Context (Hans : Answers env t r json).

Ltac answers :=
  destruct Hans as [Hst Hstq Hbl Hblok Hblq Hfc Hfcq];
  unfold upload_to_shopify, uploadImageToShopify, uploadVideoToShopify,
    uploadGenericFileToShopify, createStagedUpload, uploadFileToS3,
    call_fileCreate, embedded_url, create_failure, staged_resource,
    content_type in *;
  rewrite ?Hst, ?Hstq, ?Hbl, ?Hblq, ?Hfc, ?Hfcq.

Lemma upload_to_shopify_url filePath w c s :
  uploadStatuses w !! uploadId = Some s ->
  files w !! filePath = Some c ->
  truthy (embedded_url fileType json) = true ->
  exists w',
    upload_to_shopify env uploadId fileType filePath w
    = (Ret (embedded_url fileType json), w')
    /\ net w' = net w ++ three_calls fileType t c
    /\ files w' = files w
    /\ unlink_fails w' = unlink_fails w
    /\ is_Some (uploadStatuses w' !! uploadId).
Proof.
  intros Hs Hc Hurl. unfold three_calls. answers.
  destruct (is_type "image" fileType); [|destruct (is_type "video" fileType)];
    run; erewrite bind_statSync_size by (world; exact Hc);
    cbn [String.eqb andb Ascii.eqb Bool.eqb]; run;
    rewrite ?Hblok; cbn [negb]; run; rewrite Hurl;
    (eexists; split; [reflexivity|]); world;
    rewrite <- !app_assoc; cbn [app]; repeat (split; [done|]);
    rewrite !lookup_alter_eq, Hs; by eexists.
Qed.

(** No URL in the response but an id: the job goes on to poll. *)
Lemma upload_to_shopify_polls filePath w c s :
  uploadStatuses w !! uploadId = Some s ->
  files w !! filePath = Some c ->
  truthy (embedded_url fileType json) = false ->
  truthy (created_id json) = true ->
  exists w2,
    upload_to_shopify env uploadId fileType filePath w
    = waitForFileReady env uploadId (default "" (created_id json))
        default_maxAttempts default_interval w2
    /\ net w2 = net w ++ three_calls fileType t c
    /\ files w2 = files w
    /\ unlink_fails w2 = unlink_fails w
    /\ (status <$> uploadStatuses w2 !! uploadId) = Some Uploading.
Proof.
  intros Hs Hc Hurl Hid. unfold three_calls. answers.
  destruct (is_type "image" fileType); [|destruct (is_type "video" fileType)];
    run; erewrite bind_statSync_size by (world; exact Hc);
    cbn [String.eqb andb Ascii.eqb Bool.eqb]; run;
    rewrite ?Hblok; cbn [negb]; run; rewrite Hurl, Hid;
    (eexists; split; [reflexivity|]); world;
    rewrite <- !app_assoc; cbn [app]; repeat (split; [done|]);
    rewrite !lookup_alter_eq, Hs; done.
Qed.

(** Neither URL nor id: the upload function throws. *)
Lemma upload_to_shopify_no_id filePath w c s :
  uploadStatuses w !! uploadId = Some s ->
  files w !! filePath = Some c ->
  truthy (embedded_url fileType json) = false ->
  truthy (created_id json) = false ->
  exists w2,
    upload_to_shopify env uploadId fileType filePath w
    = (Throw (mkError (create_failure fileType json)), w2)
    /\ net w2 = net w ++ three_calls fileType t c
    /\ files w2 = files w
    /\ unlink_fails w2 = unlink_fails w
    /\ is_Some (uploadStatuses w2 !! uploadId).
Proof.
  intros Hs Hc Hurl Hid. unfold three_calls. answers.
  destruct (is_type "image" fileType); [|destruct (is_type "video" fileType)];
    run; erewrite bind_statSync_size by (world; exact Hc);
    cbn [String.eqb andb Ascii.eqb Bool.eqb]; run;
    rewrite ?Hblok; cbn [negb]; run; rewrite Hurl, Hid;
    try destruct (userErrors json);
    (eexists; split; [reflexivity|]); world;
    rewrite <- !app_assoc; cbn [app]; repeat (split; [done|]);
    rewrite !lookup_alter_eq, Hs; by eexists.
Qed.

End ToFileCreate.

(** *** The second stage of the handler, given what the upload did *)

Lemma cleanup_frame p1 p2 w :
  uploadStatuses (cleanup p1 p2 w) = uploadStatuses w
  /\ net (cleanup p1 p2 w) = net w
  /\ unlink_fails (cleanup p1 p2 w) = unlink_fails w.
Proof.
  unfold cleanup.
  repeat (destruct (existsSync _ _) || destruct (bool_decide _)); done.
Qed.

(** With no failing delete, the clean-up leaves neither file. *)
Lemma cleanup_removes p1 p2 w :
  unlink_fails w = ∅ ->
  files (cleanup p1 p2 w) !! p1 = None /\ files (cleanup p1 p2 w) !! p2 = None.
Proof.
  intros Hnone. unfold cleanup, existsSync. world. rewrite Hnone.
  rewrite !(bool_decide_eq_false_2 (_ ∈ ∅)) by apply not_elem_of_empty.
  destruct (files w !! p1) as [c1|] eqn:H1.
  - rewrite bool_decide_eq_true_2 by (by eexists). world.
    destruct (delete p1 (files w) !! p2) as [c2|] eqn:H2.
    + rewrite bool_decide_eq_true_2 by (by eexists). world. split.
      * apply lookup_delete_None. right. apply lookup_delete_eq.
      * apply lookup_delete_eq.
    + rewrite bool_decide_eq_false_2 by (by intros [? ?]). world.
      split; [apply lookup_delete_eq | done].
  - rewrite bool_decide_eq_false_2 by (by intros [? ?]).
    destruct (files w !! p2) as [c2|] eqn:H2.
    + rewrite bool_decide_eq_true_2 by (by eexists). world. split.
      * apply lookup_delete_None. by right.
      * apply lookup_delete_eq.
    + rewrite bool_decide_eq_false_2 by (by intros [? ?]). done.
Qed.

Lemma upload_stage_ok env uploadId fileType f w u w2 :
  upload_to_shopify env uploadId fileType (compressedFilePath env f) w
  = (Ret u, w2) ->
  upload_stage env uploadId fileType f w
  = (Ret (respond 200 (BUrl u)),
     cleanup (path f) (compressedFilePath env f)
       (with_table
          (alter (set_url u ∘ set_progress 100 ∘ set_status Completed)
             uploadId (uploadStatuses w2)) w2)).
Proof.
  intros Hup. unfold upload_stage. rewrite bind_try_catch.
  unfold bind at 1. rewrite Hup. by run.
Qed.

Lemma upload_stage_failed env uploadId fileType f w e w2 :
  upload_to_shopify env uploadId fileType (compressedFilePath env f) w
  = (Throw e, w2) ->
  err_message e <> "Upload cancelled" ->
  upload_stage env uploadId fileType f w
  = (Ret (respond 500 (BError "Error uploading file")),
     cleanup (path f) (compressedFilePath env f)
       (with_table
          (alter (set_error (message_or (err_message e) "Error uploading file")
                  ∘ set_status Error)
             uploadId (uploadStatuses w2))
          (console_error "Error uploading file:" (err_message e) w2))).
Proof.
  intros Hup Hmsg. unfold upload_stage. rewrite bind_try_catch.
  unfold bind at 1. rewrite Hup. run.
  destruct (String.eqb_spec (err_message e) "Upload cancelled"); [done|].
  by run.
Qed.

Lemma upload_stage_cancelled env uploadId fileType f w e w2 :
  upload_to_shopify env uploadId fileType (compressedFilePath env f) w
  = (Throw e, w2) ->
  err_message e = "Upload cancelled" ->
  upload_stage env uploadId fileType f w
  = (Ret cancelled_response,
     console_error "Error uploading file:" (err_message e) w2).
Proof.
  intros Hup Hmsg. unfold upload_stage. rewrite bind_try_catch.
  unfold bind at 1. rewrite Hup. run. rewrite Hmsg. by run.
Qed.

(** *** Polling *)

Lemma wait_loop_timeout env uploadId fileId interval :
  never_ready env -> quiet_polling env ->
  forall n attempt w st,
    (status <$> uploadStatuses w !! uploadId) = Some st ->
    st <> Cancelled ->
    exists w',
      wait_loop env uploadId fileId interval n attempt w
      = (Throw (mkError timeout_message), w')
      /\ net w' = net w ++ idle_polls fileId interval n
      /\ files w' = files w
      /\ unlink_fails w' = unlink_fails w
      /\ (status <$> uploadStatuses w' !! uploadId) = Some st.
Proof.
  intros Hnever Hquiet n.
  induction n as [|n IH]; intros attempt w st Hst Hne.
  { eexists. split; [reflexivity|]. unfold idle_polls. cbn.
    by rewrite app_nil_r. }
  cbn [wait_loop]. unfold status_of. run. rewrite Hst.
  rewrite bool_decide_eq_false_2 by done.
  rewrite bool_decide_eq_false_2 by congruence.
  cbn [orb]. run. rewrite bind_try_catch. run.
  destruct (Hquiet attempt) as [-> Hsleep].
  specialize (Hnever attempt).
  set (w1 := emit _ _).
  assert (Hst1 : (status <$> uploadStatuses w1 !! uploadId) = Some st).
  { subst w1. world. rewrite lookup_alter_eq.
    destruct (uploadStatuses w !! uploadId); by simplify_eq/=. }
  assert (Hnext : forall w2,
            net w2 = net w1 -> files w2 = files w -> 
            unlink_fails w2 = unlink_fails w ->
            uploadStatuses w2 = uploadStatuses w1 ->
            exists w',
              bind (modify (emit (Sleep interval)))
                (fun _ =>
                   bind (interleave_cancel (cancel_in_sleep env attempt)
                           uploadId)
                     (fun _ => wait_loop env uploadId fileId interval n
                                 (S attempt))) w2
              = (Throw (mkError timeout_message), w')
              /\ net w' = net w ++ idle_polls fileId interval (S n)
              /\ files w' = files w
              /\ unlink_fails w' = unlink_fails w
              /\ (status <$> uploadStatuses w' !! uploadId) = Some st).
  { intros w2 Hnet Hfiles Hlocked Htable. rewrite Hsleep. run.
    destruct (IH (S attempt) (emit (Sleep interval) w2) st)
      as (w' & -> & Hn & Hf & Hl & Hs');
      [by world; rewrite Htable|done|].
    eexists. split; [reflexivity|]. rewrite Hn, Hf, Hl. world.
    rewrite Hnet. subst w1. world. unfold idle_polls. cbn.
    by rewrite <- !app_assoc. }
  destruct (poll env attempt) as [[node|]|e].
  - rewrite bind_await_resolved by (subst w1; live).
    unfold check_node. rewrite bool_decide_eq_false_2 by done.
    unfold ret at 1. cbv beta iota. by apply Hnext.
  - rewrite bind_await_resolved by (subst w1; live).
    unfold check_node, throw at 1. cbv beta iota.
    change (err_name (mkError "File not found") =? "AbortError")%string
      with false.
    cbv iota. run. by apply Hnext.
  - rewrite bind_await_rejected by (subst w1; live). cbv beta iota.
    destruct (String.eqb_spec (err_name e) "AbortError"); [done|]. run.
    by apply Hnext.
Qed.

Lemma bind_interleave {B} b uploadId (k : unit -> M B) w :
  bind (interleave_cancel b uploadId) k w
  = k tt (if b then (cancel_upload uploadId w).2 else w).
Proof. done. Qed.

Lemma interleave_net (b : bool) uploadId w :
  net (if b then (cancel_upload uploadId w).2 else w) = net w.
Proof. destruct b; [apply cancel_upload_net | done]. Qed.

Lemma await_fetch_net {A} uploadId c b (answer : Settled A) w :
  net (await_fetch uploadId c b answer w).2 = net w.
Proof.
  unfold await_fetch. rewrite bind_interleave, bind_gets.
  destruct (aborted c _); [apply interleave_net|].
  destruct answer; apply interleave_net.
Qed.

Lemma check_node_world node w : (check_node node w).2 = w.
Proof.
  unfold check_node. destruct node as [n|]; [|done].
  destruct (bool_decide _); [|done].
  destruct (truthy (image_url n)); [done|].
  destruct (sources n) as [[|u l]|]; try done;
    by destruct (truthy (node_url n)).
Qed.

(** Whatever the platform answers, [n] attempts make at most [n] status
    queries, with a wait of [interval] between two of them. *)
Lemma wait_loop_events env uploadId fileId interval n : forall attempt w,
  exists evs,
    net (wait_loop env uploadId fileId interval n attempt w).2 = net w ++ evs
    /\ spaced interval evs = true
    /\ (polls evs <= n)%nat.
Proof.
  induction n as [|n IH]; intros attempt w.
  { exists []. cbn. by rewrite app_nil_r. }
  cbn [wait_loop]. unfold status_of. run.
  destruct (_ || _).
  { exists []. cbn. rewrite app_nil_r. split; [done|]. split; [done|].
    unfold polls. cbn. lia. }
  run. rewrite bind_try_catch. run.
  set (w1 := emit _ _).
  assert (Hnext : forall w2,
            net w2 = net w ++ [CallNode fileId] ->
            exists evs,
              net (bind (modify (emit (Sleep interval)))
                     (fun _ => bind (interleave_cancel
                                       (cancel_in_sleep env attempt) uploadId)
                        (fun _ => wait_loop env uploadId fileId interval n
                                    (S attempt))) w2).2
              = net w ++ evs
              /\ spaced interval evs = true /\ (polls evs <= S n)%nat).
  { intros w2 Hnet. rewrite bind_modify, bind_interleave.
    match goal with
    | |- context [wait_loop _ _ _ _ n (S attempt) ?w3] =>
        destruct (IH (S attempt) w3) as (evs & -> & Hsp & Hn);
        exists (CallNode fileId :: Sleep interval :: evs)
    end.
    rewrite interleave_net. world. rewrite Hnet, <- !app_assoc. cbn.
    rewrite Z.eqb_refl. split; [done|]. split; [done|].
    unfold polls in *. cbn. lia. }
  assert (Hone : forall w2 : World,
            net w2 = net w ++ [CallNode fileId] ->
            exists evs, net w2 = net w ++ evs
                        /\ spaced interval evs = true
                        /\ (polls evs <= S n)%nat).
  { intros w2 ->. exists [CallNode fileId]. split; [done|]. split; [done|].
    unfold polls. cbn. lia. }
  pose proof (await_fetch_net uploadId (length (controllers w))
                (cancel_in_poll env attempt) (poll env attempt) w1) as Hnet1.
  unfold bind at 1.
  destruct (await_fetch _ _ _ _ w1) as [[node|e] w2]; cbn [snd] in Hnet1.
  - pose proof (check_node_world node w2) as Hw.
    destruct (check_node node w2) as [[[u|]|e] w3]; cbn [snd] in Hw; subst w3.
    + apply Hone. cbn. by rewrite Hnet1.
    + apply Hnext. by rewrite Hnet1.
    + destruct (err_name e =? "AbortError")%string.
      * apply Hone. cbn. by rewrite Hnet1.
      * run. apply Hnext. world. by rewrite Hnet1.
  - destruct (err_name e =? "AbortError")%string.
    + apply Hone. cbn. by rewrite Hnet1.
    + run. apply Hnext. world. by rewrite Hnet1.
Qed.

(** *** A failing call *)

Lemma upload_to_shopify_fails env uploadId fileType filePath w c s k e :
  quiet_calls env ->
  first_failure fileType env = Some (k, e) ->
  uploadStatuses w !! uploadId = Some s ->
  files w !! filePath = Some c ->
  exists w2,
    upload_to_shopify env uploadId fileType filePath w = (Throw e, w2)
    /\ net w2 = net w ++ calls_sent fileType env c
    /\ length (calls_sent fileType env c) = k
    /\ files w2 = files w
    /\ unlink_fails w2 = unlink_fails w
    /\ is_Some (uploadStatuses w2 !! uploadId).
Proof.
  intros (Hq1 & Hq2 & Hq3) Hfail Hs Hc.
  unfold first_failure, calls_sent, upload_to_shopify, uploadImageToShopify,
    uploadVideoToShopify, uploadGenericFileToShopify, createStagedUpload,
    uploadFileToS3, call_fileCreate, embedded_url, create_failure,
    staged_failure, staged_resource, content_type in *.
  rewrite Hq1, Hq2, Hq3.
  destruct (is_type "image" fileType); [|destruct (is_type "video" fileType)];
    run; erewrite bind_statSync_size by (world; exact Hc);
    cbn [String.eqb andb Ascii.eqb Bool.eqb]; run;
    (destruct (staged env) as [[t|]|e1]; run;
     [ destruct (blob env) as [r|e2]; run;
       [ destruct (blob_ok r); cbn [negb]; run;
         [ destruct (fileCreate env) as [json|e3]; run;
           [ destruct (truthy _); [done|]; destruct (truthy _); [done|];
             try destruct (userErrors json) | ]
         | ]
       | ]
     | | ]);
    simplify_eq/=;
    (eexists; split; [reflexivity|]); world;
    rewrite <- ?app_assoc; cbn [app]; repeat (split; [done|]);
    rewrite !lookup_alter_eq, Hs; by eexists.
Qed.

(** A status query that fails (not by abort) is logged; after the wait
    the loop asks again. *)
Lemma wait_loop_failed_query env uploadId fileId interval n attempt w e st :
  cancel_in_poll env attempt = false ->
  cancel_in_sleep env attempt = false ->
  poll env attempt = Rejected e ->
  err_name e <> "AbortError" ->
  (status <$> uploadStatuses w !! uploadId) = Some st ->
  st <> Cancelled ->
  exists w2,
    wait_loop env uploadId fileId interval (S n) attempt w
    = wait_loop env uploadId fileId interval n (S attempt) w2
    /\ net w2 = net w ++ [CallNode fileId; Sleep interval]
    /\ console w2
       = console w ++ [{| log_prefix := "Error checking file status:";
                          log_detail := err_message e |}]
    /\ (status <$> uploadStatuses w2 !! uploadId) = Some st.
Proof.
  intros Hq1 Hq2 Hpoll Hname Hst Hne.
  cbn [wait_loop]. unfold status_of. run. rewrite Hst.
  rewrite bool_decide_eq_false_2 by done.
  rewrite bool_decide_eq_false_2 by congruence.
  cbn [orb]. run. rewrite bind_try_catch. run.
  rewrite Hq1, Hq2, Hpoll. run.
  destruct (String.eqb_spec (err_name e) "AbortError"); [done|]. run.
  eexists. split; [reflexivity|]. world.
  rewrite <- app_assoc. repeat (split; [done|]).
  rewrite lookup_alter_eq.
  destruct (uploadStatuses w !! uploadId); by simplify_eq/=.
Qed.

(** *** The first stage of the handler *)

Lemma bind_copyFileSync {B} src dst c (k : unit -> M B) w :
  files w !! src = Some c ->
  bind (copyFileSync src dst) k w
  = k tt (with_files (<[dst := c]> (files w)) w).
Proof. intros Hc. unfold bind, copyFileSync. by rewrite Hc. Qed.

(** The encoder fails, and not by cancellation: the original bytes are
    copied to the compressed path and the job moves on to uploading. *)
Lemma compress_stage_fallback env uploadId fileType f w e c st :
  is_type "image" fileType = true
  \/ (is_type "video" fileType = true /\ ffmpegAvailable env = true) ->
  transform env = Rejected e ->
  err_message e <> "Upload cancelled" ->
  cancel_in_transform env = false ->
  files w !! path f = Some c ->
  (status <$> uploadStatuses w !! uploadId) = Some st ->
  st <> Cancelled ->
  exists w',
    compress_stage env uploadId fileType f w = (Ret None, w')
    /\ files w' = <[compressedFilePath env f := c]> (files w)
    /\ (status <$> uploadStatuses w' !! uploadId) = Some Uploading
    /\ (progress <$> uploadStatuses w' !! uploadId) = Some 30
    /\ net w' = net w.
Proof.
  intros Hkind Htr Hmsg Hq Hc Hst Hne.
  unfold compress_stage, compressImage, compressVideo, leave_output, status_of.
  rewrite Htr, Hq.
  assert (Hcatch : String.eqb (err_message e) "Upload cancelled" = false)
    by (by destruct (String.eqb_spec (err_message e) "Upload cancelled")).
  destruct Hkind as [->|[Hv ->]].
  - unfold try_catch. run. rewrite Hcatch.
    erewrite bind_copyFileSync by (world; exact Hc). run.
    eexists. split; [reflexivity|]. world. split; [done|].
    rewrite !lookup_alter_eq.
    destruct (uploadStatuses w !! uploadId); by simplify_eq/=.
  - destruct (is_type "image" fileType) eqn:Hi.
    { unfold is_type in *. repeat case_bool_decide; congruence. }
    rewrite Hv. cbn [negb]. unfold try_catch. run. rewrite Hst.
    rewrite bool_decide_eq_false_2 by done.
    rewrite bool_decide_eq_false_2 by congruence.
    rewrite andb_false_r. run. rewrite Hcatch.
    erewrite bind_copyFileSync by (world; exact Hc). run.
    eexists. split; [reflexivity|]. world. split; [done|].
    rewrite !lookup_alter_eq.
    destruct (uploadStatuses w !! uploadId); by simplify_eq/=.
Qed.

(** Image recompression never looks at the job: a cancel request served
    while sharp runs is overwritten when sharp succeeds. *)
Lemma compress_stage_loses_cancel env uploadId fileType f w s out :
  is_type "image" fileType = true ->
  cancel_in_transform env = true ->
  transform env = Resolved out ->
  uploadId <> "" ->
  uploadStatuses w !! uploadId = Some s ->
  exists w',
    compress_stage env uploadId fileType f w = (Ret None, w')
    /\ (status <$> uploadStatuses w' !! uploadId) = Some Uploading
    /\ (error <$> uploadStatuses w' !! uploadId) = Some (Some cancel_message).
Proof.
  intros Hi Hcancel Htr Hne Hs.
  unfold compress_stage, compressImage, write_file.
  rewrite Hi, Hcancel, Htr. unfold try_catch.
  rewrite bind_assoc, bind_interleave. run.
  eexists. split; [reflexivity|]. world.
  rewrite !lookup_alter_eq, (cancel_upload_table _ _ _ Hne Hs), lookup_insert_eq.
  done.
Qed.

(** *** The size limit *)

(** An oversize file for a registered job: the handler records the
    error and answers 400 at once. Nothing is sent and nothing is deleted:
    the file multer stored is still there, and still listed in
    [tempFiles]. *)
Lemma handler_body_oversize env req w f uploadId s :
  file req = Some f ->
  body_uploadId req = Some uploadId ->
  uploadId <> "" ->
  uploadStatuses w !! uploadId = Some s ->
  temp_ok s w ->
  size f > maxSize (fileType req) ->
  exists w' s',
    handler_body env req w
    = (Ret (respond 400 (BError (too_large (fileType req)))), w')
    /\ net w' = net w
    /\ files w' = files w
    /\ uploadStatuses w' !! uploadId = Some s'
    /\ status s' = Error
    /\ error s' = Some (too_large (fileType req))
    /\ path f ∈ temp_paths s' w'.
Proof.
  intros Hf Hid Hne Hs Hok Hsize. unfold handler_body.
  rewrite Hf, Hid, (gtb_of_gt _ _ Hsize). cbn.
  apply truthy_Some in Hne as Htr. rewrite Htr.
  rewrite bool_decide_eq_true_2 by (by eexists).
  cbn. unfold bind at 1, ensure_tempFiles at 1. rewrite Hs.
  destruct (tempFiles s) as [r0|] eqn:Htemp; cbn; eexists _, _;
    (split; [reflexivity|]); (split; [done|]); (split; [done|]).
  - cbn. rewrite !lookup_alter_eq, Hs. cbn. repeat (split; [done|]).
    unfold temp_paths. cbn. rewrite Htemp, list_lookup_alter_eq.
    destruct (Hok r0 Htemp) as [a Ha]. rewrite Ha. cbn.
    apply elem_of_app. right. by apply list_elem_of_singleton.
  - cbn. rewrite !lookup_alter_eq, lookup_insert_eq. cbn.
    repeat (split; [done|]).
    unfold temp_paths. cbn. rewrite list_lookup_alter_eq.
    rewrite list_lookup_middle by done. cbn.
    by apply list_elem_of_singleton.
Qed.



(** *** From the request to the upload *)

Lemma try_catch_run {A} (m : M A) h w :
  try_catch m h w
  = match m w with
    | (Ret a, w1) => (Ret a, w1)
    | (Throw e, w1) => h e w1
    end.
Proof. done. Qed.

(** The first stage, undisturbed, leaves the job uploading at 30 and the
    compressed path filled. *)
Lemma compress_stage_done env uploadId fileType f w original st :
  cancel_in_transform env = false ->
  (forall e, transform env = Rejected e ->
             err_message e <> "Upload cancelled") ->
  files w !! path f = Some original ->
  (status <$> uploadStatuses w !! uploadId) = Some st ->
  st <> Cancelled ->
  exists w',
    compress_stage env uploadId fileType f w = (Ret None, w')
    /\ files w' !! compressedFilePath env f
       = Some (encoded env fileType original)
    /\ (status <$> uploadStatuses w' !! uploadId) = Some Uploading
    /\ net w' = net w
    /\ unlink_fails w' = unlink_fails w.
Proof.
  intros Hq Henc Hc Hst Hne.
  assert (Hcatch : forall e, transform env = Rejected e ->
            String.eqb (err_message e) "Upload cancelled" = false).
  { intros e He. specialize (Henc e He).
    by destruct (String.eqb_spec (err_message e) "Upload cancelled"). }
  assert (Hup : forall w0 : World,
            uploadStatuses w0 = uploadStatuses w ->
            (status <$>
               alter (set_progress 30 ∘ set_status Uploading) uploadId
                 (uploadStatuses w0) !! uploadId) = Some Uploading).
  { intros w0 ->. rewrite lookup_alter_eq.
    destruct (uploadStatuses w !! uploadId); by simplify_eq/=. }
  unfold compress_stage, compressImage, compressVideo, leave_output,
    write_file, status_of, encoded.
  rewrite Hq, try_catch_run.
  destruct (is_type "image" fileType); cbn [orb].
  - destruct (transform env) as [out|e] eqn:Htr; run.
    + eexists. split; [reflexivity|]. world.
      rewrite lookup_insert_eq. by rewrite Hup.
    + rewrite (Hcatch e eq_refl).
      erewrite bind_copyFileSync by (world; exact Hc). run.
      eexists. split; [reflexivity|]. world.
      rewrite lookup_insert_eq. by rewrite Hup.
  - destruct (is_type "video" fileType); cbn [andb].
    + destruct (ffmpegAvailable env); cbn [negb].
      * run. rewrite Hst.
        rewrite bool_decide_eq_false_2 by done.
        rewrite bool_decide_eq_false_2 by congruence.
        rewrite andb_false_r.
        destruct (transform env) as [out|e] eqn:Htr; run.
        -- eexists. split; [reflexivity|]. world.
           rewrite lookup_insert_eq. by rewrite Hup.
        -- rewrite (Hcatch e eq_refl).
           erewrite bind_copyFileSync by (world; exact Hc). run.
           eexists. split; [reflexivity|]. world.
           rewrite lookup_insert_eq. by rewrite Hup.
      * erewrite bind_copyFileSync by (world; exact Hc). run.
        eexists. split; [reflexivity|]. world.
        rewrite lookup_insert_eq. by rewrite Hup.
    + erewrite bind_copyFileSync by (world; exact Hc). run.
      eexists. split; [reflexivity|]. world.
      rewrite lookup_insert_eq. by rewrite Hup.
Qed.

(** An accepted request reaches the second stage with nothing sent yet,
    the compressed file in place and the job still registered. *)
Lemma handler_body_accepted env req w f uploadId original :
  Accepted env req w f uploadId original ->
  exists w2,
    handler_body env req w = upload_stage env uploadId (fileType req) f w2
    /\ net w2 = net w
    /\ unlink_fails w2 = unlink_fails w
    /\ files w2 !! compressedFilePath env f
       = Some (encoded env (fileType req) original)
    /\ is_Some (uploadStatuses w2 !! uploadId).
Proof.
  intros [Hf Hid [Hne [s Hs]] Hsize Hc Hq Henc]. unfold handler_body.
  rewrite Hf, Hid, (gtb_of_le _ _ Hsize).
  cbn [default from_option]. change (Datatypes.id uploadId) with uploadId.
  apply truthy_Some in Hne as Htr. rewrite Htr. run.
  rewrite bool_decide_eq_true_2 by (by eexists).
  cbn [negb orb]. unfold bind at 1, ensure_tempFiles at 1. rewrite Hs.
  unfold is_cancelled, status_of, push.
  destruct (tempFiles s) as [r0|]; cbv beta iota; run;
    rewrite lookup_alter_eq, ?lookup_insert_eq, ?Hs;
    cbn [fmap option_fmap option_map];
    (rewrite bool_decide_eq_false_2 by (by intros [=])); run;
    match goal with
    | |- context [bind (compress_stage _ _ _ _) _ ?w1] =>
        destruct (compress_stage_done env uploadId (fileType req) f w1
                    original Compressing Hq Henc)
          as (w2 & Hrun & Hcomp & Hst2 & Hnet2 & Hlock2);
        [ by world
        | by world; rewrite lookup_alter_eq, ?lookup_insert_eq, ?Hs
        | done
        | ]
    end;
    unfold bind at 1; rewrite Hrun; run; rewrite Hst2;
    (rewrite bool_decide_eq_false_2 by (by intros [=]));
    exists w2; (split; [done|]); rewrite Hnet2, Hlock2; world;
    repeat (split; [done|]);
    (destruct (uploadStatuses w2 !! uploadId); [by eexists|done]).
Qed.

(** What the handler answers is what its second stage returns. *)
Lemma upload_file_accepted env req w f uploadId original :
  Accepted env req w f uploadId original ->
  exists w2,
    (forall resp w',
       upload_stage env uploadId (fileType req) f w2 = (Ret resp, w') ->
       upload_file env req w = (resp, w'))
    /\ net w2 = net w
    /\ unlink_fails w2 = unlink_fails w
    /\ files w2 !! compressedFilePath env f
       = Some (encoded env (fileType req) original)
    /\ is_Some (uploadStatuses w2 !! uploadId).
Proof.
  intros Hacc.
  destruct (handler_body_accepted _ _ _ _ _ _ Hacc) as (w2 & Hrun & Hrest).
  exists w2. split; [|done].
  intros resp w' Hstage. unfold upload_file. by rewrite Hrun, Hstage.
Qed.

End TrackedFacts.

(** ** Facts about the direct server *)

Module DirectFacts.
Import Direct.

#[local] Open Scope list_scope.
#[local] Arguments waitForFileReady : simpl never.
#[local] Arguments truthy : simpl never.

Lemma direct_upload_file_oversize env req o f :
  file req = Some f ->
  size f > maxSize (fileType req) ->
  upload_file env req o = (respond 400 (BError (too_large (fileType req))), o).
Proof.
  intros Hf Hsize. unfold upload_file, handler_body. rewrite Hf.
  assert (Hgt : Z.gtb (size f) (maxSize (fileType req)) = true).
  { rewrite Z.gtb_ltb. apply Z.ltb_lt. lia. }
  by rewrite Hgt.
Qed.

Lemma direct_bind_assoc {A B C} (m : M A) (k1 : A -> M B) (k2 : B -> M C) o :
  bind (bind m k1) k2 o = bind m (fun a => bind (k1 a) k2) o.
Proof. unfold bind. by destruct (m o) as [[a|e] o1]. Qed.

Lemma direct_bind_ret {A B} (a : A) (k : A -> M B) o : bind (ret a) k o = k a o.
Proof. done. Qed.

Lemma direct_bind_throw {A B} e (k : A -> M B) o : bind (throw e) k o = (Throw e, o).
Proof. done. Qed.

Lemma direct_bind_modify {B} f (k : unit -> M B) o :
  bind (modify f) k o = k tt (f o).
Proof. done. Qed.

Lemma direct_bind_try_catch {A B} (m : M A) h (k : A -> M B) o :
  bind (try_catch m h) k o
  = match m o with
    | (Ret a, o1) => k a o1
    | (Throw e, o1) => bind (h e) k o1
    end.
Proof. unfold bind, try_catch. by destruct (m o) as [[a|e] o1]. Qed.

Ltac out := cbn [net console emit console_error await].

Lemma direct_ret_run {A} (a : A) o : ret a o = (Ret a, o).
Proof. done. Qed.

Lemma direct_throw_run {A} e o : @throw A e o = (Throw e, o).
Proof. done. Qed.

Ltac run_step :=
  first [ rewrite direct_bind_assoc | rewrite direct_bind_ret
        | rewrite direct_bind_throw | rewrite direct_bind_modify
        | rewrite direct_ret_run | rewrite direct_throw_run ].

Ltac run := out; repeat (run_step; cbv beta iota; out).

Lemma direct_check_node_out node o : (check_node node o).2 = o.
Proof.
  unfold check_node. destruct node as [n|]; [|done].
  destruct (bool_decide _); [|done].
  destruct (truthy (image_url n)); [done|].
  destruct (sources n) as [[|u l]|]; try done;
    by destruct (truthy (node_url n)).
Qed.

(** Whatever the platform answers, [n] attempts make at most [n] status
    queries, with a wait of [interval] between two of them. *)
Lemma direct_wait_loop_events env fileId interval n : forall attempt o,
  exists evs,
    net (wait_loop env fileId interval n attempt o).2 = net o ++ evs
    /\ spaced interval evs = true
    /\ (polls evs <= n)%nat.
Proof.
  induction n as [|n IH]; intros attempt o.
  { exists []. cbn. rewrite app_nil_r. split; [done|]. split; [done|].
    unfold polls. cbn. lia. }
  cbn [wait_loop]. run. unfold await.
  assert (Hone : exists evs,
            net (emit (CallNode fileId) o) = net o ++ evs
            /\ spaced interval evs = true /\ (polls evs <= S n)%nat).
  { exists [CallNode fileId]. split; [done|]. split; [done|].
    unfold polls. cbn. lia. }
  destruct (poll env attempt) as [node|e]; run; [|exact Hone].
  pose proof (direct_check_node_out node (emit (CallNode fileId) o)) as Hw.
  unfold bind at 1.
  destruct (check_node node _) as [[[u|]|e] o2]; cbn [snd] in Hw; subst o2;
    [exact Hone| |exact Hone].
  run.
  destruct (IH (S attempt)
              (emit (Sleep interval) (emit (CallNode fileId) o)))
    as (evs & -> & Hsp & Hn).
  exists (CallNode fileId :: Sleep interval :: evs). out.
  rewrite <- !app_assoc. cbn. rewrite Z.eqb_refl.
  split; [done|]. split; [done|]. unfold polls in *. cbn. lia.
Qed.

Lemma direct_wait_loop_timeout env fileId interval :
  never_ready env ->
  forall n attempt o,
    wait_loop env fileId interval n attempt o
    = (Throw (mkError timeout_message),
       {| net := net o ++ idle_polls fileId interval n;
          console := console o |}).
Proof.
  intros Hnever n.
  induction n as [|n IH]; intros attempt o.
  { unfold idle_polls. cbn. rewrite app_nil_r. by destruct o. }
  cbn [wait_loop]. run.
  destruct (Hnever attempt) as (nd & -> & Hnot). unfold await. run.
  unfold check_node. rewrite bool_decide_eq_false_2 by done. run.
  rewrite IH. out. unfold idle_polls. cbn.
  by rewrite <- !app_assoc.
Qed.

(** A status query that fails ends the polling at once. *)
Lemma direct_wait_loop_failed_query env fileId interval n attempt o e :
  poll env attempt = Rejected e ->
  wait_loop env fileId interval (S n) attempt o
  = (Throw e, emit (CallNode fileId) o).
Proof. intros Hpoll. cbn [wait_loop]. run. by rewrite Hpoll. Qed.

Lemma direct_gtb_of_le a b : a <= b -> Z.gtb a b = false.
Proof. intros H. rewrite Z.gtb_ltb. apply Z.ltb_ge. lia. Qed.

(** The inline attempt for a video returns the URL at once. *)
Lemma direct_upload_file_inline_url env req f o :
  file req = Some f ->
  size f <= maxSize (fileType req) ->
  truthy (inline_url env (fileType req)) = true ->
  exists o',
    upload_file env req o
    = (respond 200 (BUrl (inline_url env (fileType req))), o')
    /\ net o' = net o ++ [CallFileCreateInline (size f)].
Proof.
  intros Hfile Hsize Hurl.
  unfold upload_file, handler_body, inline_video, inline_url in *.
  rewrite Hfile, (direct_gtb_of_le _ _ Hsize).
  destruct (is_type "video" (fileType req)); [|done].
  destruct (inline env) as [j|e]; [|done].
  rewrite direct_bind_try_catch. run. unfold await. run. rewrite Hurl. run.
  by eexists.
Qed.

Section FromStaged.

Context (env : Env) (req : UploadRequest) (f : File).
Context (t : Target) (r : BlobResponse) (json : FileCreateJson).
Context (Hans : Answers env t r json).
Context (Hfile : file req = Some f).
Context (Hsize : size f <= maxSize (fileType req)).
Context (Hinline : truthy (inline_url env (fileType req)) = false).

(** The handler up to the [fileCreate] response. *)
Ltac to_create :=
  destruct Hans as [Hst Hbl Hblok Hfc];
  unfold upload_file, handler_body, inline_video, staged_flow, inline_url,
    calls_to_create, embedded_url in *;
  rewrite Hfile, (direct_gtb_of_le _ _ Hsize);
  destruct (is_type "video" (fileType req)) eqn:Hv;
  destruct (is_type "image" (fileType req)) eqn:Hi;
  try (unfold is_type in Hv, Hi; repeat case_bool_decide; congruence);
  [ rewrite direct_bind_try_catch; run; unfold await;
    destruct (inline env) as [j|e0];
    [ run; rewrite Hinline; try destruct (userErrors j) | ]
  | | ];
  run; rewrite ?Hst, ?Hbl, ?Hfc; run; rewrite ?Hblok; cbn [negb]; run;
  cbn [String.eqb Ascii.eqb Bool.eqb andb]; cbv iota.

Lemma direct_upload_file_url o :
  truthy (embedded_url (fileType req) json) = true ->
  exists o',
    upload_file env req o
    = (respond 200 (BUrl (embedded_url (fileType req) json)), o')
    /\ net o' = net o ++ calls_to_create (fileType req) f t.
Proof.
  intros Hurl. to_create.
  all: try (destruct (truthy (files0 json ≫= first_source_url)); run;
            [|rewrite Hurl; run]).
  all: try (destruct (truthy (files0 json ≫= image_url)); run;
            [|rewrite Hurl; run]).
  all: eexists; (split; [reflexivity|]); out; by rewrite <- ?app_assoc.
Qed.

(** No URL in the response but an id, and the file never gets ready. *)
Lemma direct_upload_file_timeout o :
  truthy (embedded_url (fileType req) json) = false ->
  truthy (files0 json ≫= node_id) = true ->
  never_ready env ->
  exists o',
    upload_file env req o
    = (respond 500 (BError "The file was not ready in the allotted time"), o')
    /\ net o' = net o ++ calls_to_create (fileType req) f t
                ++ idle_polls (default "" (files0 json ≫= node_id))
                     default_interval default_maxAttempts.
Proof.
  intros Hurl Hid Hnever. to_create.
  all: try (destruct (truthy (files0 json ≫= first_source_url)) eqn:E;
            [congruence|]).
  all: try (destruct (truthy (files0 json ≫= image_url)) eqn:E;
            [congruence|]).
  all: rewrite Hurl, Hid; cbn [negb]; cbv iota;
    unfold try_catch, bind, waitForFileReady;
    rewrite (direct_wait_loop_timeout _ _ _ Hnever); cbn;
    eexists; (split; [reflexivity|]); out; by rewrite <- ?app_assoc.
Qed.

End FromStaged.

End DirectFacts.

(** ** Facts about the proxy *)

Module ProxyFacts.
Import Proxy.

(** C9, as stated, fails: the platform answers the forwarded request
    with a JSON body and a status that is not a success (an invalid
    token, say). Nothing failed in transport, yet the caller gets 500 with
    the fixed message instead of the JSON of the platform. *)
Lemma proxy_hides_platform_error_answer :
  let answer :=
    Resolved {| ok := false;
                json := Resolved
                          (JObj [("errors",
                                  JStr "Invalid API key or access token")]) |} in
  proxy "shpat_secret" (JObj [("query", JStr "{ shop { name } }")]) answer
  = ({| code := 500; body := BError "Internal server error" |},
     [CallProxy "shpat_secret" (JObj [("query", JStr "{ shop { name } }")])]).
Proof. reflexivity. Qed.

(** C9 as the code has it: the request body goes to the platform
    unchanged, with the token the server holds, in one call. The caller
    gets the JSON of the platform verbatim with 200 exactly when the
    platform answers with a success status and a JSON body; in every
    other case (the request fails, the status is not a success, the body
    is not JSON) it gets 500 with the fixed message. *)
Theorem proxy_relays_successful_answers token req_body answer :
  (proxy token req_body answer).2 = [CallProxy token req_body]
  /\ (forall data,
        answer = Resolved {| ok := true; json := Resolved data |} ->
        (proxy token req_body answer).1 = {| code := 200; body := BData data |})
  /\ ((forall data,
         answer <> Resolved {| ok := true; json := Resolved data |}) ->
      (proxy token req_body answer).1
      = {| code := 500; body := BError "Internal server error" |}).
Proof.
  split; [|split].
  - unfold proxy. destruct answer as [[[] [data|e]]|e]; done.
  - by intros data ->.
  - intros Hnot. unfold proxy.
    destruct answer as [[[] [data|e]]|e]; try done.
    by destruct (Hnot data).
Qed.

Lemma proxy_relays_successful_answers_witness :
  (proxy "shpat_secret" (JObj [("query", JStr "{ shop { name } }")])
     (Resolved {| ok := true;
                  json := Resolved (JObj [("data", JObj [("shop", JNull)])]) |})).1
  = {| code := 200; body := BData (JObj [("data", JObj [("shop", JNull)])]) |}
  /\ (proxy "shpat_secret" (JObj [("query", JStr "{ shop { name } }")])
        (Rejected (mkError "socket hang up"))).1
     = {| code := 500; body := BError "Internal server error" |}.
Proof.
  split.
  - apply (proxy_relays_successful_answers "shpat_secret"
             (JObj [("query", JStr "{ shop { name } }")])
             (Resolved {| ok := true;
                          json := Resolved
                                    (JObj [("data", JObj [("shop", JNull)])]) |})).
    reflexivity.
  - apply (proxy_relays_successful_answers "shpat_secret"
             (JObj [("query", JStr "{ shop { name } }")])
             (Rejected (mkError "socket hang up"))).
    intros data. discriminate.
Defined.

End ProxyFacts.

(** ** The claims that span the variants *)

Section Claims.
Import Tracked TrackedFacts.

#[local] Open Scope list_scope.

Lemma sent_app w w' evs : net w' = net w ++ evs -> sent w w' = evs.
Proof. intros H. unfold sent. by rewrite H, drop_app_length. Qed.

(** Discharges [Accepted] on a concrete request by evaluation. *)
Ltac example_accepted :=
  constructor;
  [ reflexivity
  | reflexivity
  | split; [discriminate | vm_compute; eexists; reflexivity]
  | vm_compute; discriminate
  | vm_compute; reflexivity
  | reflexivity
  | intros e; discriminate ].

(** The URL the response holds is the one the upload function finds. *)
Lemma holds_url_embedded fileType json u :
  holds_url fileType json u ->
  embedded_url fileType json = Some u /\ truthy (Some u) = true.
Proof.
  intros (Hne & n & Hn & Hkind). split; [|by apply truthy_Some].
  unfold embedded_url. rewrite Hn. cbn [mbind option_bind].
  destruct (is_type "image" fileType); [done|].
  destruct (is_type "video" fileType); [|done].
  destruct Hkind as [l Hl]. unfold first_source_url. by rewrite Hl.
Qed.

Lemma direct_holds_url_embedded fileType json u :
  Direct.holds_url fileType json u ->
  Direct.embedded_url fileType json = Some u /\ truthy (Some u) = true.
Proof.
  intros (Hne & n & Hn & Hkind).
  pose proof (proj2 (truthy_Some u) Hne) as Htr. split; [|done].
  unfold Direct.embedded_url. rewrite Hn. cbn [mbind option_bind].
  destruct (Direct.is_type "image" fileType).
  - destruct Hkind as [->|[[->| ->] ->]]; [by rewrite Htr|done..].
  - unfold first_source_url.
    destruct Hkind as [[l ->]|[Hnone ->]]; [by rewrite Htr|].
    destruct (sources n) as [[|[v|] l]|]; try done.
    by rewrite (Hnone v l eq_refl).
Qed.

(** C3: when the [fileCreate] response already holds the URL of the
    kind ([files[0].image.url] for an image, the [url] of
    [files[0].sources[0]] for a video, [files[0].url] for a generic file),
    the handler answers 200 with that URL and stores it with status
    [completed]; the calls made are the three of the staged upload and no
    status query. In the direct server the same holds for the response
    after the staged upload (for an image the image URL, for any other
    type the URL of the first source, and the generic URL when that one
    is missing) and for the inline attempt of a video. *)
Theorem embedded_url_skips_polling :
  (forall env req w f uploadId original t r json u,
     Accepted env req w f uploadId original ->
     Answers env t r json ->
     holds_url (fileType req) json u ->
     exists w',
       upload_file env req w = (respond 200 (BUrl (Some u)), w')
       /\ sent w w'
          = three_calls (fileType req) t (encoded env (fileType req) original)
       /\ polls (sent w w') = 0%nat
       /\ (status <$> uploadStatuses w' !! uploadId) = Some Completed
       /\ (url <$> uploadStatuses w' !! uploadId) = Some (Some u)
       /\ (progress <$> uploadStatuses w' !! uploadId) = Some 100)
  /\ (forall env req f t r json u o,
        Direct.Answers env t r json ->
        Direct.file req = Some f ->
        Direct.size f <= Direct.maxSize (Direct.fileType req) ->
        truthy (Direct.inline_url env (Direct.fileType req)) = false ->
        Direct.holds_url (Direct.fileType req) json u ->
        exists o',
          Direct.upload_file env req o
          = (Direct.respond 200 (Direct.BUrl (Some u)), o')
          /\ Direct.net o'
             = Direct.net o
               ++ Direct.calls_to_create (Direct.fileType req) f t
          /\ polls (drop (length (Direct.net o)) (Direct.net o')) = 0%nat)
  /\ (forall env req f j n u o,
        Direct.file req = Some f ->
        Direct.size f <= Direct.maxSize (Direct.fileType req) ->
        Direct.fileType req = Some "video" ->
        Direct.inline env = Resolved j ->
        files0 j = Some n ->
        node_url n = Some u ->
        u <> "" ->
        exists o',
          Direct.upload_file env req o
          = (Direct.respond 200 (Direct.BUrl (Some u)), o')
          /\ Direct.net o'
             = Direct.net o ++ [CallFileCreateInline (Direct.size f)]
          /\ polls (drop (length (Direct.net o)) (Direct.net o')) = 0%nat).
Proof.
  split; [|split].
  - intros env req w f uploadId original t r json u Hacc Hans Holds.
    destruct (holds_url_embedded _ _ _ Holds) as [Hemb Htr].
    destruct (upload_file_accepted _ _ _ _ _ _ Hacc)
      as (w1 & Hstage & Hnet1 & _ & Hc & [s1 Hs1]).
    destruct (upload_to_shopify_url env uploadId (fileType req) t r json Hans
                (compressedFilePath env f) w1 _ s1 Hs1 Hc
                ltac:(by rewrite Hemb))
      as (w2 & Hup & Hnet & _ & _ & [s2 Hs2]).
    rewrite Hemb in Hup.
    rewrite (Hstage _ _ (upload_stage_ok _ _ _ _ _ _ _ Hup)).
    eexists. split; [reflexivity|].
    match goal with
    | |- context [cleanup ?p1 ?p2 ?w0] =>
        destruct (cleanup_frame p1 p2 w0) as (Ht & Hn & _);
        assert (Hsent : sent w (cleanup p1 p2 w0)
                        = three_calls (fileType req) t
                            (encoded env (fileType req) original))
    end.
    { apply sent_app. rewrite Hn. cbn [net with_table].
      by rewrite Hnet, Hnet1. }
    rewrite Hsent, Ht. cbn [uploadStatuses with_table].
    rewrite lookup_alter_eq, Hs2. repeat split; done.
  - intros env req f t r json u o Hans Hf Hsize Hin Holds.
    destruct (direct_holds_url_embedded _ _ _ Holds) as [Hemb Htr].
    destruct (DirectFacts.direct_upload_file_url env req f t r json Hans Hf Hsize
                Hin o ltac:(by rewrite Hemb)) as (o' & Hrun & Hnet).
    rewrite Hemb in Hrun. exists o'. split; [done|]. split; [done|].
    rewrite Hnet, drop_app_length.
    unfold Direct.calls_to_create, polls.
    by destruct (Direct.is_type "video" _).
  - intros env req f j n u o Hf Hsize Hv Hj Hn Hu Hne.
    assert (Hin : Direct.inline_url env (Direct.fileType req) = Some u).
    { unfold Direct.inline_url, Direct.is_type.
      rewrite bool_decide_eq_true_2 by done. by rewrite Hj, Hn. }
    destruct (DirectFacts.direct_upload_file_inline_url env req f o Hf Hsize
                ltac:(rewrite Hin; by apply truthy_Some))
      as (o' & Hrun & Hnet).
    rewrite Hin in Hrun. exists o'. split; [done|]. split; [done|].
    by rewrite Hnet, drop_app_length.
Qed.

Lemma embedded_url_skips_polling_witness :
  (exists w',
     upload_file Examples.env_direct_url Examples.req_image
       Examples.w_registered
     = (respond 200 (BUrl (Some "https://cdn.example/a.jpg")), w')
     /\ polls (sent Examples.w_registered w') = 0%nat
     /\ (status <$> uploadStatuses w' !! "u1") = Some Completed)
  /\ (exists w',
        upload_file Examples.env_video_url Examples.req_video
          Examples.w_video
        = (respond 200 (BUrl (Some "https://cdn.example/b.mp4")), w')
        /\ polls (sent Examples.w_video w') = 0%nat
        /\ (url <$> uploadStatuses w' !! "v1")
           = Some (Some "https://cdn.example/b.mp4"))
  /\ (exists o',
        Direct.upload_file DirectExamples.env_direct_url
          DirectExamples.req_image DirectExamples.o_empty
        = (Direct.respond 200 (Direct.BUrl (Some "https://cdn.example/a.jpg")),
           o')
        /\ polls (drop 0 (Direct.net o')) = 0%nat)
  /\ (exists o',
        Direct.upload_file DirectExamples.env_video_sources
          DirectExamples.req_video DirectExamples.o_empty
        = (Direct.respond 200 (Direct.BUrl (Some "https://cdn.example/b.mp4")),
           o')
        /\ polls (drop 0 (Direct.net o')) = 0%nat)
  /\ (exists o',
        Direct.upload_file DirectExamples.env_direct_url
          DirectExamples.req_video DirectExamples.o_empty
        = (Direct.respond 200 (Direct.BUrl (Some "https://cdn.example/a.mp4")),
           o')
        /\ polls (drop 0 (Direct.net o')) = 0%nat).
Proof.
  destruct embedded_url_skips_polling as (Htracked & Hdirect & Hinline).
  split; [|split; [|split; [|split]]].
  - destruct (Htracked Examples.env_direct_url Examples.req_image
                Examples.w_registered Examples.a_png "u1" "PNGDATA"
                Examples.a_target
                {| blob_ok := true; blob_text := "" |}
                {| files0 := Some Examples.ready_node; userErrors := [] |}
                "https://cdn.example/a.jpg")
      as (w' & Hrun & _ & Hpolls & Hstatus & _).
    + example_accepted.
    + by constructor.
    + split; [discriminate|]. exists Examples.ready_node.
      split; reflexivity.
    + exists w'. split; [exact Hrun|]. split; [exact Hpolls | exact Hstatus].
  - destruct (Htracked Examples.env_video_url Examples.req_video
                Examples.w_video Examples.b_mp4 "v1" "MP4DATA"
                Examples.a_target
                {| blob_ok := true; blob_text := "" |}
                {| files0 := Some Examples.video_node; userErrors := [] |}
                "https://cdn.example/b.mp4")
      as (w' & Hrun & _ & Hpolls & _ & Hurl & _).
    + example_accepted.
    + by constructor.
    + split; [discriminate|]. exists Examples.video_node.
      split; [reflexivity|]. exists [Some "https://cdn.example/b.webm"].
      reflexivity.
    + exists w'. split; [exact Hrun|]. split; [exact Hpolls | exact Hurl].
  - destruct (Hdirect DirectExamples.env_direct_url DirectExamples.req_image
                DirectExamples.a_png Examples.a_target
                {| blob_ok := true; blob_text := "" |}
                {| files0 := Some Examples.ready_node; userErrors := [] |}
                "https://cdn.example/a.jpg" DirectExamples.o_empty)
      as (o' & Hrun & _ & Hpolls).
    + by constructor.
    + reflexivity.
    + vm_compute. discriminate.
    + vm_compute. reflexivity.
    + split; [discriminate|]. exists Examples.ready_node.
      split; [reflexivity|]. left. reflexivity.
    + exists o'. split; [exact Hrun | exact Hpolls].
  - destruct (Hdirect DirectExamples.env_video_sources DirectExamples.req_video
                DirectExamples.a_mp4 Examples.a_target
                {| blob_ok := true; blob_text := "" |}
                {| files0 := Some Examples.video_node; userErrors := [] |}
                "https://cdn.example/b.mp4" DirectExamples.o_empty)
      as (o' & Hrun & _ & Hpolls).
    + by constructor.
    + reflexivity.
    + vm_compute. discriminate.
    + vm_compute. reflexivity.
    + split; [discriminate|]. exists Examples.video_node.
      split; [reflexivity|]. left.
      exists [Some "https://cdn.example/b.webm"]. reflexivity.
    + exists o'. split; [exact Hrun | exact Hpolls].
  - destruct (Hinline DirectExamples.env_direct_url DirectExamples.req_video
                DirectExamples.a_mp4
                {| files0 := Some DirectExamples.generic_node;
                   userErrors := [] |}
                DirectExamples.generic_node "https://cdn.example/a.mp4"
                DirectExamples.o_empty)
      as (o' & Hrun & _ & Hpolls); try reflexivity.
    + vm_compute. discriminate.
    + discriminate.
    + exists o'. split; [exact Hrun | exact Hpolls].
Defined.

Lemma polls_app evs1 evs2 : polls (evs1 ++ evs2) = (polls evs1 + polls evs2)%nat.
Proof. unfold polls. by rewrite List.filter_app, length_app. Qed.

Lemma polls_idle fileId interval n : polls (idle_polls fileId interval n) = n.
Proof.
  unfold polls, idle_polls. induction n as [|n IH]; [done|].
  cbn. by rewrite IH.
Qed.

Lemma polls_three_calls fileType t c : polls (three_calls fileType t c) = 0%nat.
Proof. done. Qed.

(** C4: polling makes at most [maxAttempts] status queries (30 by
    default), with a wait of the interval (5000 ms by default) between
    two of them, whatever the platform answers. When the file never gets
    ready the handler ends after exactly that many queries: the tracked
    server stores status [error] with the timeout message and answers 500,
    the direct server answers 500. *)
Theorem polling_bounded_and_times_out :
  (forall env uploadId fileId maxAttempts interval w,
     exists evs,
       net (waitForFileReady env uploadId fileId maxAttempts interval w).2
       = net w ++ evs
       /\ spaced interval evs = true
       /\ (polls evs <= maxAttempts)%nat)
  /\ (default_maxAttempts = 30%nat /\ default_interval = 5000)
  /\ (forall env req w f uploadId original t r json,
        Accepted env req w f uploadId original ->
        Answers env t r json ->
        truthy (embedded_url (fileType req) json) = false ->
        truthy (created_id json) = true ->
        never_ready env ->
        quiet_polling env ->
        exists w',
          upload_file env req w
          = (respond 500 (BError "Error uploading file"), w')
          /\ sent w w'
             = three_calls (fileType req) t
                 (encoded env (fileType req) original)
               ++ idle_polls (default "" (created_id json)) 5000 30
          /\ polls (sent w w') = 30%nat
          /\ (status <$> uploadStatuses w' !! uploadId) = Some Error
          /\ (error <$> uploadStatuses w' !! uploadId)
             = Some (Some "The file did not become ready in the allotted time."))
  /\ (forall env fileId maxAttempts interval o,
        exists evs,
          Direct.net (Direct.waitForFileReady env fileId maxAttempts interval
                        o).2
          = Direct.net o ++ evs
          /\ spaced interval evs = true
          /\ (polls evs <= maxAttempts)%nat)
  /\ (Direct.default_maxAttempts = 30%nat /\ Direct.default_interval = 5000)
  /\ (forall env req f t r json o,
        Direct.Answers env t r json ->
        Direct.file req = Some f ->
        Direct.size f <= Direct.maxSize (Direct.fileType req) ->
        truthy (Direct.inline_url env (Direct.fileType req)) = false ->
        truthy (Direct.embedded_url (Direct.fileType req) json) = false ->
        truthy (files0 json ≫= node_id) = true ->
        Direct.never_ready env ->
        exists o',
          Direct.upload_file env req o
          = (Direct.respond 500
               (Direct.BError "The file was not ready in the allotted time"),
             o')
          /\ polls (drop (length (Direct.net o)) (Direct.net o')) = 30%nat).
Proof.
  split; [|split; [done|split; [|split; [|split; [done|]]]]].
  - intros. apply wait_loop_events.
  - intros env req w f uploadId original t r json Hacc Hans Hurl Hid
      Hnever Hquiet.
    destruct (upload_file_accepted _ _ _ _ _ _ Hacc)
      as (w1 & Hstage & Hnet1 & _ & Hc & [s1 Hs1]).
    destruct (upload_to_shopify_polls env uploadId (fileType req) t r json
                Hans (compressedFilePath env f) w1 _ s1 Hs1 Hc Hurl Hid)
      as (w2 & Hup & Hnet2 & _ & _ & Hst2).
    destruct (wait_loop_timeout env uploadId (default "" (created_id json))
                default_interval Hnever Hquiet default_maxAttempts 0%nat
                w2 Uploading Hst2) as (w3 & Hwait & Hnet3 & _ & _ & Hst3);
      [done|].
    unfold waitForFileReady in Hup. rewrite Hwait in Hup.
    rewrite (Hstage _ _ (upload_stage_failed _ _ _ _ _ _ _ Hup
                           ltac:(discriminate))).
    eexists. split; [reflexivity|].
    match goal with
    | |- context [cleanup ?p1 ?p2 ?w0] =>
        destruct (cleanup_frame p1 p2 w0) as (Ht & Hn & _);
        assert (Hsent : sent w (cleanup p1 p2 w0)
                        = three_calls (fileType req) t
                            (encoded env (fileType req) original)
                          ++ idle_polls (default "" (created_id json)) 5000 30)
    end.
    { apply sent_app. rewrite Hn. cbn [net with_table console_error].
      by rewrite Hnet3, Hnet2, Hnet1, <- app_assoc. }
    rewrite Hsent, Ht. cbn [uploadStatuses with_table console_error].
    rewrite lookup_alter_eq.
    destruct (uploadStatuses w3 !! uploadId) as [s3|]; [|done].
    split; [done|]. split; [|done].
    by rewrite polls_app, polls_idle.
  - intros. apply DirectFacts.direct_wait_loop_events.
  - intros env req f t r json o Hans Hf Hsize Hin Hurl Hid Hnever.
    destruct (DirectFacts.direct_upload_file_timeout env req f t r json Hans Hf Hsize
                Hin o Hurl Hid Hnever) as (o' & -> & Hnet).
    eexists. split; [reflexivity|]. rewrite Hnet, drop_app_length.
    rewrite polls_app.
    change (polls (Direct.idle_polls ?a ?b ?n)) with (polls (idle_polls a b n)).
    rewrite polls_idle. unfold Direct.calls_to_create, polls.
    by destruct (Direct.is_type "video" _).
Qed.

Lemma polling_bounded_and_times_out_witness :
  (exists w',
     upload_file Examples.env_never_ready Examples.req_image
       Examples.w_registered
     = (respond 500 (BError "Error uploading file"), w')
     /\ polls (sent Examples.w_registered w') = 30%nat
     /\ (status <$> uploadStatuses w' !! "u1") = Some Error)
  /\ (exists o',
        Direct.upload_file DirectExamples.env_never_ready
          DirectExamples.req_video DirectExamples.o_empty
        = (Direct.respond 500
             (Direct.BError "The file was not ready in the allotted time"),
           o')
        /\ polls (drop 0 (Direct.net o')) = 30%nat).
Proof.
  destruct polling_bounded_and_times_out
    as (_ & _ & Htracked & _ & _ & Hdirect).
  split.
  - destruct (Htracked Examples.env_never_ready Examples.req_image
                Examples.w_registered Examples.a_png "u1" "PNGDATA"
                Examples.a_target
                {| blob_ok := true; blob_text := "" |}
                {| files0 := Some Examples.pending_node; userErrors := [] |})
      as (w' & Hrun & _ & Hpolls & Hstatus & _).
    + example_accepted.
    + by constructor.
    + vm_compute. reflexivity.
    + vm_compute. reflexivity.
    + intros i. cbn. discriminate.
    + intros i. by split.
    + exists w'. split; [exact Hrun|]. split; [exact Hpolls | exact Hstatus].
  - destruct (Hdirect DirectExamples.env_never_ready DirectExamples.req_video
                DirectExamples.a_mp4 Examples.a_target
                {| blob_ok := true; blob_text := "" |}
                {| files0 := Some Examples.pending_node; userErrors := [] |}
                DirectExamples.o_empty)
      as (o' & Hrun & Hpolls).
    + by constructor.
    + reflexivity.
    + vm_compute. discriminate.
    + vm_compute. reflexivity.
    + vm_compute. reflexivity.
    + vm_compute. reflexivity.
    + intros i. exists Examples.pending_node. split; [reflexivity|discriminate].
    + exists o'. split; [exact Hrun | exact Hpolls].
Defined.







(** C6 fails on the oversize path: for a registered job the handler
    stores the terminal status [error] and returns without any clean-up.
    The file multer stored is still on disk and still listed in the
    [tempFiles] of the job. *)
Theorem oversize_upload_keeps_temp_file env req w f uploadId s :
  file req = Some f ->
  body_uploadId req = Some uploadId ->
  uploadId <> "" ->
  uploadStatuses w !! uploadId = Some s ->
  temp_ok s w ->
  is_Some (files w !! path f) ->
  size f > maxSize (fileType req) ->
  exists w' s',
    upload_file env req w
    = (respond 400 (BError (too_large (fileType req))), w')
    /\ uploadStatuses w' !! uploadId = Some s'
    /\ is_terminal (status s') = true
    /\ path f ∈ temp_paths s' w'
    /\ is_Some (files w' !! path f).
Proof.
  intros Hf Hid Hne Hs Hok Hfile Hsize.
  destruct (handler_body_oversize env req w f uploadId s Hf Hid Hne Hs Hok
              Hsize) as (w' & s' & Hrun & _ & Hfiles & Hs' & Hst & _ & Hin).
  exists w', s'. unfold upload_file. rewrite Hrun.
  split; [done|]. split; [done|]. split; [by rewrite Hst|].
  split; [done|]. by rewrite Hfiles.
Qed.

Lemma oversize_upload_keeps_temp_file_witness :
  exists w' s',
    upload_file Examples.env_direct_url Examples.req_big_image
      Examples.w_registered
    = (respond 400 (BError "File too large. Images must be under 10MB."), w')
    /\ uploadStatuses w' !! "u1" = Some s'
    /\ is_terminal (status s') = true
    /\ "/srv/temp/1-a.png" ∈ temp_paths s' w'
    /\ is_Some (files w' !! "/srv/temp/1-a.png").
Proof.
  apply (oversize_upload_keeps_temp_file Examples.env_direct_url
           Examples.req_big_image Examples.w_registered Examples.big_png "u1"
           {| id := "u1"; status := Waiting; progress := 0;
              originalFilename := "a.png"; error := None; url := None;
              type := "image"; timestamp := Some 1000;
              abortController := None; tempFiles := Some 0%nat |}).
  - reflexivity.
  - reflexivity.
  - discriminate.
  - vm_compute. reflexivity.
  - intros r [= <-]. vm_compute. by eexists.
  - vm_compute. by eexists.
  - vm_compute. reflexivity.
Defined.

(** C7 fails for image recompression: a cancel request served while
    sharp runs sets the job to [cancelled], but when sharp succeeds the
    handler overwrites the status with [uploading] and the check that
    follows never sees the cancellation. The upload goes on to the
    platform and completes. *)
Theorem cancel_during_image_recompression_is_lost :
  let r := upload_file Examples.env_cancel_in_compress Examples.req_image
             Examples.w_registered in
  cancel_in_transform Examples.env_cancel_in_compress = true
  /\ r.1 = respond 200 (BUrl (Some "https://cdn.example/a.jpg"))
  /\ (status <$> uploadStatuses r.2 !! "u1") = Some Completed
  /\ (error <$> uploadStatuses r.2 !! "u1")
     = Some (Some "Upload cancelled by user")
  /\ sent Examples.w_registered r.2
     = [CallStaged "FILE" 7; CallBlob "https://blob.example/upload";
        CallFileCreate "IMAGE" "https://blob.example/res/1"].
Proof. vm_compute. repeat split. Qed.

(** C8, as stated, fails in the tracked server: the first status query
    fails on the network, the loop logs it, waits and asks again; the job
    completes. *)
Lemma failed_status_query_is_retried :
  let r := upload_file Examples.env_retry Examples.req_image
             Examples.w_registered in
  poll Examples.env_retry 0
  = Rejected {| err_name := "FetchError"; err_message := "socket hang up" |}
  /\ r.1 = respond 200 (BUrl (Some "https://cdn.example/a.jpg"))
  /\ (status <$> uploadStatuses r.2 !! "u1") = Some Completed
  /\ sent Examples.w_registered r.2
     = [CallStaged "FILE" 7; CallBlob "https://blob.example/upload";
        CallFileCreate "IMAGE" "https://blob.example/res/1";
        CallNode "gid://shopify/MediaImage/1"; Sleep 5000;
        CallNode "gid://shopify/MediaImage/1"].
Proof. vm_compute. repeat split. Qed.

Lemma calls_sent_NoDup fileType env c : NoDup (calls_sent fileType env c).
Proof.
  unfold calls_sent.
  destruct (staged env) as [[t|]|e];
    [destruct (blob env) as [r|e]; [destruct (blob_ok r)|]| |];
    repeat (apply NoDup_cons; split;
            [intros Hin;
             repeat (apply elem_of_cons in Hin as [Hin|Hin]; [discriminate|]);
             by apply elem_of_nil in Hin|]);
    apply NoDup_nil_2.
Qed.

End Claims.

(** ** The job table: registration, cancellation and the sweep *)

Section JobTable.
Import Tracked TrackedFacts.

#[local] Open Scope list_scope.

(** X1: a registration request with a file name and a type answers 200
    with the identifier drawn; a status query for it then answers 200 with
    a record that is waiting at progress 0, carries the name, the type and
    the time of the request, has neither URL nor error and lists no
    temporary file. Every other job, the files and the traffic are as
    before. *)
Theorem init_upload_then_status uuid now name kind w :
  name <> "" -> kind <> "" -> uuid <> "" ->
  let req := {| init_filename := Some name; init_fileType := Some kind |} in
  exists w' s,
    init_upload uuid now req w = (respond 200 (BUploadId uuid), w')
    /\ upload_status uuid w' = respond 200 (BStatus s)
    /\ id s = uuid /\ status s = Waiting /\ progress s = 0
    /\ originalFilename s = name /\ type s = kind
    /\ timestamp s = Some now /\ url s = None /\ error s = None
    /\ abortController s = None
    /\ temp_paths s w' = []
    /\ (forall other, other <> uuid ->
          uploadStatuses w' !! other = uploadStatuses w !! other)
    /\ files w' = files w /\ net w' = net w /\ console w' = console w.
Proof.
  intros Hname Hkind Huuid req. unfold init_upload. cbn [init_filename init_fileType req].
  rewrite (proj2 (truthy_Some name) Hname), (proj2 (truthy_Some kind) Hkind).
  cbn [negb orb]. eexists _, _. split; [reflexivity|]. world.
  split.
  { apply upload_status_known; [done|]. world. apply lookup_insert_eq. }
  cbn [id status progress originalFilename type timestamp url error
       abortController default from_option].
  repeat (split; [done|]).
  split.
  { unfold temp_paths. cbn [tempFiles]. world.
    by rewrite list_lookup_middle. }
  split; [|done].
  intros other Hne. by apply lookup_insert_ne.
Qed.

Lemma init_upload_then_status_witness :
  exists w' s,
    init_upload "u2" 2000
      {| init_filename := Some "b.mp4"; init_fileType := Some "video" |}
      Examples.w_registered
    = (respond 200 (BUploadId "u2"), w')
    /\ upload_status "u2" w' = respond 200 (BStatus s)
    /\ status s = Waiting
    /\ uploadStatuses w' !! "u1" = uploadStatuses Examples.w_registered !! "u1".
Proof.
  destruct (init_upload_then_status "u2" 2000 "b.mp4" "video"
              Examples.w_registered)
    as (w' & s & Hrun & Hq & _ & Hst & _ & _ & _ & _ & _ & _ & _ & _ & Hothers & _);
    [discriminate | discriminate | discriminate |].
  exists w', s. repeat (split; [assumption|]). by apply Hothers.
Defined.

(** A registration request is refused with 400 exactly when the file
    name or the type is missing or empty, and a refused request changes
    nothing. *)
Theorem init_upload_refused_iff uuid now req w :
  ((init_upload uuid now req w).1
     = respond 400 (BError "Missing filename or fileType")
   <-> truthy (init_filename req) = false \/ truthy (init_fileType req) = false)
  /\ ((init_upload uuid now req w).1 <> respond 200 (BUploadId uuid) ->
      (init_upload uuid now req w).2 = w).
Proof.
  unfold init_upload.
  destruct (truthy (init_filename req)), (truthy (init_fileType req));
    cbn; (split; [split|]); try done; try (by intros [?|?]); auto.
Qed.

(** *** Cancelling: what it leaves alone *)

Lemma delete_temp_file_other w p q :
  q <> p -> files (delete_temp_file w p) !! q = files w !! q.
Proof.
  intros Hne. unfold delete_temp_file.
  destruct (existsSync p w); [|done].
  destruct (bool_decide (p ∈ unlink_fails w)); world; [done|].
  by apply lookup_delete_ne.
Qed.

Lemma delete_paths_other l : forall w q,
  q ∉ l -> files (foldl delete_temp_file w l) !! q = files w !! q.
Proof.
  induction l as [|p l IH]; intros w q Hq; simpl; [done|].
  apply not_elem_of_cons in Hq as [Hne Hq].
  by rewrite IH, delete_temp_file_other.
Qed.

(** Deleting paths that are all absent changes nothing. *)
Lemma delete_paths_again l : forall w,
  (forall p, p ∈ l -> files w !! p = None) ->
  foldl delete_temp_file w l = w.
Proof.
  induction l as [|p l IH]; intros w Hl; simpl; [done|].
  rewrite delete_temp_file_again by (apply Hl, elem_of_cons; by left).
  apply IH. intros q Hq. apply Hl, elem_of_cons. by right.
Qed.

Lemma world_ext (w1 w2 : World) :
  uploadStatuses w1 = uploadStatuses w2 -> files w1 = files w2 ->
  unlink_fails w1 = unlink_fails w2 -> arrays w1 = arrays w2 ->
  controllers w1 = controllers w2 -> console w1 = console w2 ->
  net w1 = net w2 -> w1 = w2.
Proof. destruct w1, w2; simpl; by intros -> -> -> -> -> -> ->. Qed.

(** The world a cancel request leaves, when the job is known. *)
Lemma cancel_upload_world w uploadId s :
  uploadId <> "" ->
  uploadStatuses w !! uploadId = Some s ->
  let w' := (cancel_upload uploadId w).2 in
  files w' = files (foldl delete_temp_file w (temp_paths s w))
  /\ console w' = console (foldl delete_temp_file w (temp_paths s w))
  /\ unlink_fails w' = unlink_fails w
  /\ arrays w' = arrays w
  /\ net w' = net w.
Proof.
  intros Hne Hs w'. subst w'. rewrite (cancel_upload_known _ _ _ Hne Hs).
  cbn [snd]. unfold delete_temp_files.
  set (w2 := with_table _ _).
  assert (Hpaths : temp_paths s w2 = temp_paths s w).
  { subst w2. unfold temp_paths. by destruct (abortController s). }
  rewrite Hpaths.
  assert (Hgen : forall l (a b : World),
            files a = files b -> console a = console b ->
            unlink_fails a = unlink_fails b ->
            files (foldl delete_temp_file a l) = files (foldl delete_temp_file b l)
            /\ console (foldl delete_temp_file a l)
               = console (foldl delete_temp_file b l)).
  { induction l as [|p l IH]; intros a b Hf Hc Hl; simpl; [done|].
    apply IH; unfold delete_temp_file, existsSync; rewrite Hf, Hl;
      destruct (bool_decide (is_Some (files b !! p))); try done;
      destruct (bool_decide (p ∈ unlink_fails b)); world; congruence. }
  destruct (Hgen (temp_paths s w) w2 w) as [-> ->];
    try (subst w2; by destruct (abortController s)).
  destruct (delete_paths_frame (temp_paths s w) w2) as (-> & -> & _ & ->).
  subst w2. by destruct (abortController s).
Qed.

(** X2: a cancel request touches one job only. Every other record is as
    before, no job is added or removed, nothing is sent, and of the files
    only those the job lists can disappear; no file is created. The
    controllers the job does not hold are as before. *)
Theorem cancel_upload_frame uploadId w :
  let w' := (cancel_upload uploadId w).2 in
  (forall other, other <> uploadId ->
     uploadStatuses w' !! other = uploadStatuses w !! other)
  /\ dom (uploadStatuses w') = dom (uploadStatuses w)
  /\ net w' = net w
  /\ (forall q,
        (forall s, uploadStatuses w !! uploadId = Some s -> q ∉ temp_paths s w) ->
        files w' !! q = files w !! q)
  /\ (forall q, files w !! q = None -> files w' !! q = None)
  /\ (forall c,
        (forall s, uploadStatuses w !! uploadId = Some s ->
                   abortController s <> Some c) ->
        controllers w' !! c = controllers w !! c).
Proof.
  intros w'. subst w'.
  split; [|split; [apply cancel_upload_dom|split; [apply cancel_upload_net|]]].
  { intros other Hne.
    destruct (uploadStatuses w !! uploadId) as [s|] eqn:Hs;
      [|by rewrite cancel_upload_unknown].
    destruct (String.eqb_spec uploadId "") as [->|Hid].
    { unfold cancel_upload. by rewrite Hs. }
    rewrite (cancel_upload_table _ _ _ Hid Hs). by apply lookup_insert_ne. }
  destruct (uploadStatuses w !! uploadId) as [s|] eqn:Hs;
    [|by rewrite cancel_upload_unknown].
  destruct (String.eqb_spec uploadId "") as [->|Hid].
  { unfold cancel_upload. by rewrite Hs. }
  destruct (cancel_upload_world _ _ _ Hid Hs) as (Hf & _).
  split; [|split].
  - intros q Hq. rewrite Hf. apply delete_paths_other. by apply Hq.
  - intros q Hq. rewrite Hf. by apply delete_paths_absent.
  - intros c Hc. rewrite (cancel_upload_controllers _ _ _ Hid Hs).
    destruct (abortController s) as [c0|] eqn:E; [|done].
    apply list_lookup_insert_ne. intros ->. by apply (Hc s).
Qed.

Lemma cancel_upload_frame_witness :
  let w' := (cancel_upload "u1" Examples.w_uploading).2 in
  net w' = net Examples.w_uploading
  /\ files w' !! "/srv/temp/other.png"
     = files Examples.w_uploading !! "/srv/temp/other.png"
  /\ controllers w' !! 0%nat = controllers Examples.w_uploading !! 0%nat.
Proof.
  destruct (cancel_upload_frame "u1" Examples.w_uploading)
    as (_ & _ & Hnet & Hfiles & _ & Hctl).
  split; [exact Hnet|]. split.
  - apply Hfiles. intros s [= <-]. vm_compute.
    intros H. repeat (apply elem_of_cons in H as [H|H]; [discriminate|]).
    by apply elem_of_nil in H.
  - apply Hctl. intros s [= <-]. discriminate.
Defined.

(** X3: cancelling twice is cancelling once, as long as no delete of a
    listed file fails: the second request answers 200 again and leaves the
    world the first one left. *)
Theorem cancel_upload_twice uploadId w :
  (forall s p, uploadStatuses w !! uploadId = Some s ->
               p ∈ temp_paths s w -> p ∉ unlink_fails w) ->
  cancel_upload uploadId (cancel_upload uploadId w).2
  = cancel_upload uploadId w.
Proof.
  intros Hfree.
  destruct (uploadStatuses w !! uploadId) as [s|] eqn:Hs.
  2:{ rewrite (cancel_upload_unknown _ _ Hs). cbn [snd].
      by rewrite (cancel_upload_unknown _ _ Hs). }
  destruct (String.eqb_spec uploadId "") as [->|Hid].
  { unfold cancel_upload at 2 3. rewrite Hs. cbn. unfold cancel_upload.
    by rewrite Hs. }
  set (s' := set_error cancel_message (set_status Cancelled s)).
  set (w1 := (cancel_upload uploadId w).2).
  assert (Hs1 : uploadStatuses w1 !! uploadId = Some s').
  { subst w1. by rewrite (cancel_upload_table _ _ _ Hid Hs), lookup_insert_eq. }
  destruct (cancel_upload_world _ _ _ Hid Hs) as (Hf & Hc & Hl & Ha & Hn).
  fold w1 in Hf, Hc, Hl, Ha, Hn.
  assert (Hpaths : temp_paths s' w1 = temp_paths s w).
  { unfold temp_paths. cbn [tempFiles s' set_error set_status]. by rewrite Ha. }
  assert (Hgone : forall p, p ∈ temp_paths s w -> files w1 !! p = None).
  { intros p Hp. rewrite Hf.
    destruct (delete_paths_done (temp_paths s w) w p Hp) as [?|[Hin _]];
      [done|]. by destruct (Hfree s p eq_refl Hp). }
  rewrite (surjective_pairing (cancel_upload uploadId w)). fold w1.
  rewrite (cancel_upload_known _ _ _ Hid Hs1).
  f_equal; [by rewrite (cancel_upload_known _ _ _ Hid Hs)|].
  unfold delete_temp_files.
  set (w2 := with_table _ _).
  assert (Hw2 : w2 = w1).
  { subst w2. apply world_ext;
      try (by destruct (abortController s')).
    - world.
      replace (uploadStatuses (match abortController s' with
                               | Some c => abort c w1 | None => w1 end))
        with (uploadStatuses w1) by (by destruct (abortController s')).
      apply insert_id. by rewrite Hs1.
    - assert (Hc1 : controllers w1
                    = match abortController s with
                      | Some c => <[c := true]> (controllers w)
                      | None => controllers w
                      end)
        by (subst w1; apply (cancel_upload_controllers _ _ _ Hid Hs)).
      world. change (abortController s') with (abortController s).
      destruct (abortController s) as [c|]; [|done].
      unfold abort. world. rewrite Hc1. apply list_insert_insert_eq. }
  rewrite Hw2, Hpaths. by apply delete_paths_again.
Qed.

Lemma cancel_upload_twice_witness :
  cancel_upload "u1" (cancel_upload "u1" Examples.w_uploading).2
  = cancel_upload "u1" Examples.w_uploading.
Proof.
  apply (cancel_upload_twice "u1" Examples.w_uploading).
  intros s p _ _. apply not_elem_of_empty.
Defined.

(** *** The sweep and the files *)

Lemma sweep_files_frame (l : list (string * UploadStatus)) : forall w,
  let w' := foldl (fun w kv => delete_temp_files kv.2 w) w l in
  unlink_fails w' = unlink_fails w
  /\ arrays w' = arrays w
  /\ controllers w' = controllers w
  /\ net w' = net w.
Proof.
  induction l as [|kv l IH]; intros w; simpl; [done|].
  destruct (IH (delete_temp_files kv.2 w)) as (-> & -> & -> & ->).
  apply delete_temp_files_frame.
Qed.

Lemma temp_paths_arrays s w1 w2 :
  arrays w1 = arrays w2 -> temp_paths s w1 = temp_paths s w2.
Proof. intros H. unfold temp_paths. by rewrite H. Qed.

Lemma sweep_files_absent (l : list (string * UploadStatus)) : forall w q,
  files w !! q = None ->
  files (foldl (fun w kv => delete_temp_files kv.2 w) w l) !! q = None.
Proof.
  induction l as [|kv l IH]; intros w q Hq; simpl; [done|].
  apply IH. unfold delete_temp_files. by apply delete_paths_absent.
Qed.

Lemma sweep_files_console (l : list (string * UploadStatus)) : forall w e,
  e ∈ console w ->
  e ∈ console (foldl (fun w kv => delete_temp_files kv.2 w) w l).
Proof.
  induction l as [|kv l IH]; intros w e He; simpl; [done|].
  apply IH. unfold delete_temp_files. by apply delete_paths_console.
Qed.

Lemma sweep_files_done (l : list (string * UploadStatus)) : forall w kv p,
  kv ∈ l -> p ∈ temp_paths kv.2 w ->
  let w' := foldl (fun w kv => delete_temp_files kv.2 w) w l in
  files w' !! p = None
  \/ (p ∈ unlink_fails w /\ delete_error p ∈ console w').
Proof.
  induction l as [|a l IH]; intros w kv p Hkv Hp;
    [by apply elem_of_nil in Hkv|].
  simpl. apply elem_of_cons in Hkv as [->|Hkv].
  - destruct (delete_paths_done (temp_paths a.2 w) w p Hp) as [Hgone|[Hl Hlog]].
    + left. by apply sweep_files_absent.
    + right. split; [done|]. by apply sweep_files_console.
  - destruct (delete_temp_files_frame a.2 w) as (Hl & Ha & _).
    destruct (IH (delete_temp_files a.2 w) kv p Hkv) as [?|[Hin ?]].
    + by rewrite (temp_paths_arrays _ _ w).
    + by left.
    + right. split; [by rewrite <- Hl|done].
Qed.

Lemma sweep_files_other (l : list (string * UploadStatus)) : forall w q,
  (forall kv, kv ∈ l -> q ∉ temp_paths kv.2 w) ->
  files (foldl (fun w kv => delete_temp_files kv.2 w) w l) !! q = files w !! q.
Proof.
  induction l as [|a l IH]; intros w q Hq; simpl; [done|].
  destruct (delete_temp_files_frame a.2 w) as (_ & Ha & _).
  rewrite IH.
  - unfold delete_temp_files. apply delete_paths_other, Hq, elem_of_cons.
    by left.
  - intros kv Hkv. rewrite (temp_paths_arrays _ _ w) by done.
    apply Hq, elem_of_cons. by right.
Qed.

(** X4: the sweep deletes the temporary files of every job it removes:
    each path such a job lists is absent afterwards, or its delete failed
    and the failure is on the console. *)
Theorem sweep_deletes_listed_files now w uploadId s p :
  uploadStatuses w !! uploadId = Some s ->
  expired now s = true ->
  p ∈ temp_paths s w ->
  uploadStatuses (sweep now w) !! uploadId = None
  /\ (files (sweep now w) !! p = None
      \/ (p ∈ unlink_fails w /\ delete_error p ∈ console (sweep now w))).
Proof.
  intros Hs Hexp Hp. split.
  { by rewrite (sweep_lookup _ _ _ _ Hs), Hexp. }
  unfold sweep. world.
  apply (sweep_files_done _ w (uploadId, s) p); [|done].
  apply elem_of_map_to_list, map_lookup_filter_Some. by split.
Qed.

Lemma sweep_deletes_listed_files_witness :
  files (sweep 3601001 Examples.w_uploading) !! "/srv/temp/1-a.png" = None
  \/ ("/srv/temp/1-a.png" ∈ unlink_fails Examples.w_uploading
      /\ delete_error "/srv/temp/1-a.png"
         ∈ console (sweep 3601001 Examples.w_uploading)).
Proof.
  apply (sweep_deletes_listed_files 3601001 Examples.w_uploading "u1"
           Examples.job_uploading "/srv/temp/1-a.png").
  - reflexivity.
  - reflexivity.
  - apply elem_of_cons. by left.
Defined.

(** X5: the sweep leaves alone what does not belong to an expired job: a
    file that no expired job lists is as before, no file is created, and
    nothing is sent. *)
Theorem sweep_frame now w :
  (forall q,
     (forall uploadId s, uploadStatuses w !! uploadId = Some s ->
                         expired now s = true -> q ∉ temp_paths s w) ->
     files (sweep now w) !! q = files w !! q)
  /\ (forall q, files w !! q = None -> files (sweep now w) !! q = None)
  /\ net (sweep now w) = net w
  /\ arrays (sweep now w) = arrays w
  /\ controllers (sweep now w) = controllers w.
Proof.
  unfold sweep. world. split; [|split].
  - intros q Hq. apply sweep_files_other. intros [k s] Hkv.
    apply elem_of_map_to_list, map_lookup_filter_Some in Hkv as [Hs Hexp].
    by apply (Hq k s).
  - intros q Hq. by apply sweep_files_absent.
  - by destruct (sweep_files_frame
                   (map_to_list (filter (fun kv => expired now kv.2 = true)
                                   (uploadStatuses w))) w)
      as (_ & -> & -> & ->).
Qed.

Lemma sweep_frame_witness :
  files (sweep 3601001 Examples.w_uploading) !! "/srv/temp/other.png"
  = files Examples.w_uploading !! "/srv/temp/other.png".
Proof.
  destruct (sweep_frame 3601001 Examples.w_uploading) as (H & _).
  apply H. intros uploadId s Hs _.
  destruct (decide (uploadId = "u1")) as [->|Hne].
  - injection Hs as <-. vm_compute.
    intros H0. repeat (apply elem_of_cons in H0 as [H0|H0]; [discriminate|]).
    by apply elem_of_nil in H0.
  - unfold Examples.w_uploading in Hs. cbn [uploadStatuses] in Hs.
    by rewrite lookup_singleton_ne in Hs.
Defined.

(** When no job is expired the sweep changes nothing. *)
Lemma sweep_nothing_expired now w :
  (forall uploadId s, uploadStatuses w !! uploadId = Some s ->
                      expired now s = false) ->
  sweep now w = w.
Proof.
  intros Hnone. unfold sweep.
  assert (Hold : filter (fun kv : string * UploadStatus =>
                           expired now kv.2 = true) (uploadStatuses w) = ∅).
  { apply map_empty. intros k. apply map_lookup_filter_None. right.
    intros s Hs. simpl. by rewrite (Hnone k s Hs). }
  rewrite Hold, map_to_list_empty. cbn [foldl].
  apply world_ext; try done. world.
  apply map_filter_id. intros k s Hs. simpl. by apply (Hnone k s).
Qed.

(** X6: sweeping again at the same time changes nothing more. *)
Theorem sweep_idempotent now w : sweep now (sweep now w) = sweep now w.
Proof.
  apply sweep_nothing_expired. intros uploadId s Hs.
  unfold sweep in Hs. cbn [uploadStatuses with_table] in Hs.
  by apply map_lookup_filter_Some in Hs as [_ Hs].
Qed.

End JobTable.

(** ** The upload handler of the tracked server, whatever happens outside *)

Section Stable.
Import Tracked TrackedFacts.

#[local] Open Scope list_scope.

(** A relation between the world before and the world after that every
    step a handler makes for job [uploadId] respects. *)
Context (uploadId : string) (R : World -> World -> Prop) `{!PreOrder R}.
Context (R_alter : forall f w,
           R w (with_table (alter f uploadId (uploadStatuses w)) w)).
Context (R_insert : forall s w,
           R w (with_table (<[uploadId := s]> (uploadStatuses w)) w)).
Context (R_files : forall fs w, R w (with_files fs w)).
Context (R_arrays : forall a w, R w (with_arrays a w)).
Context (R_controllers : forall c w, R w (with_controllers c w)).
Context (R_console : forall p d w, R w (console_error p d w)).
Context (R_emit : forall e w, R w (emit e w)).

Lemma stable_ret {A} (a : A) : stable R (ret a).
Proof. intros w. reflexivity. Qed.

Lemma stable_throw {A} e : stable R (@throw A e).
Proof. intros w. reflexivity. Qed.

Lemma stable_gets {A} (f : World -> A) : stable R (gets f).
Proof. intros w. reflexivity. Qed.

Lemma stable_modify f : (forall w, R w (f w)) -> stable R (modify f).
Proof. intros H w. apply H. Qed.

Lemma stable_bind {A B} (m : M A) (k : A -> M B) :
  stable R m -> (forall a, stable R (k a)) -> stable R (bind m k).
Proof.
  intros Hm Hk w. unfold bind. specialize (Hm w).
  destruct (m w) as [[a|e] w1]; simpl in *; [|done].
  etrans; [exact Hm | apply Hk].
Qed.

Lemma stable_try_catch {A} (m : M A) (h : JsError -> M A) :
  stable R m -> (forall e, stable R (h e)) -> stable R (try_catch m h).
Proof.
  intros Hm Hh w. unfold try_catch. specialize (Hm w).
  destruct (m w) as [[a|e] w1]; simpl in *; [done|].
  etrans; [exact Hm | apply Hh].
Qed.

Lemma R_delete_temp_file w p : R w (delete_temp_file w p).
Proof.
  unfold delete_temp_file. destruct (existsSync p w); [|reflexivity].
  destruct (bool_decide _); [apply R_console | apply R_files].
Qed.

Lemma R_delete_paths l : forall w, R w (foldl delete_temp_file w l).
Proof.
  induction l as [|p l IH]; intros w; simpl; [reflexivity|].
  etrans; [apply R_delete_temp_file | apply IH].
Qed.

Lemma R_cancel_upload w : R w (cancel_upload uploadId w).2.
Proof.
  unfold cancel_upload.
  destruct (uploadStatuses w !! uploadId) as [s|]; [|reflexivity].
  destruct (String.eqb uploadId ""); [reflexivity|]. cbn [snd].
  unfold delete_temp_files.
  etrans; [|apply R_delete_paths].
  destruct (abortController s) as [c|]; [|apply R_insert].
  etrans; [apply (R_controllers (<[c := true]> (controllers w)))|].
  apply (R_insert _ (abort c w)).
Qed.

Lemma R_cleanup p1 p2 w : R w (cleanup p1 p2 w).
Proof.
  assert (Hsecond : forall w0,
            R w0 (if existsSync p2 w0 then
                    if bool_decide (p2 ∈ unlink_fails w0)
                    then console_error "Error cleaning up temporary files:"
                           "EPERM" w0
                    else with_files (delete p2 (files w0)) w0
                  else w0)).
  { intros w0. destruct (existsSync p2 w0); [|reflexivity].
    destruct (bool_decide _); [apply R_console | apply R_files]. }
  unfold cleanup. cbv zeta beta.
  destruct (existsSync p1 w); [|apply Hsecond].
  destruct (bool_decide (p1 ∈ unlink_fails w)); [apply R_console|].
  etrans; [apply (R_files (delete p1 (files w)))|apply Hsecond].
Qed.

Lemma stable_update f : stable R (update uploadId f).
Proof. apply stable_modify. intros w. apply R_alter. Qed.

Lemma stable_interleave_cancel b : stable R (interleave_cancel b uploadId).
Proof.
  apply stable_modify. intros w. destruct b; [apply R_cancel_upload|reflexivity].
Qed.

Lemma stable_new_controller : stable R new_controller.
Proof. intros w. apply R_controllers. Qed.

Lemma stable_copyFileSync src dst : stable R (copyFileSync src dst).
Proof.
  intros w. unfold copyFileSync.
  destruct (files w !! src); [apply R_files|reflexivity].
Qed.

Lemma stable_statSync_size p : stable R (statSync_size p).
Proof. intros w. unfold statSync_size. destruct (files w !! p); reflexivity. Qed.

Lemma stable_ensure_tempFiles : stable R (ensure_tempFiles uploadId).
Proof.
  intros w. unfold ensure_tempFiles.
  destruct (uploadStatuses w !! uploadId) as [s|]; [|reflexivity].
  destruct (tempFiles s); [reflexivity|]. cbn [snd].
  etrans; [apply (R_arrays (arrays w ++ [[]]))|].
  apply (R_insert _ (with_arrays _ w)).
Qed.

Ltac stable_step :=
  first
    [ apply stable_ret | apply stable_throw | apply stable_gets
    | apply stable_update | apply stable_interleave_cancel
    | apply stable_new_controller | apply stable_copyFileSync
    | apply stable_statSync_size | apply stable_ensure_tempFiles
    | apply stable_bind; [|intros ?]
    | apply stable_try_catch; [|intros ?]
    | apply stable_modify; intros ?;
      first [ apply R_emit | apply R_console | apply R_files | apply R_arrays
            | apply R_cleanup ]
    | assumption
    | match goal with
      | |- stable _ (if ?b then _ else _) => destruct b
      | |- stable _ (match ?x with _ => _ end) => destruct x
      end ].

Lemma stable_await_fetch {A} c b (answer : Settled A) :
  stable R (await_fetch uploadId c b answer).
Proof. unfold await_fetch. repeat stable_step. Qed.

Lemma stable_check_node node : stable R (check_node node).
Proof. unfold check_node. repeat stable_step. Qed.

Lemma stable_wait_loop env fileId interval n : forall attempt,
  stable R (wait_loop env uploadId fileId interval n attempt).
Proof.
  induction n as [|n IH]; intros attempt; simpl.
  - repeat stable_step.
  - unfold status_of.
    repeat first [ apply stable_await_fetch | apply stable_check_node
                 | apply IH | stable_step ].
Qed.

Lemma stable_upload_to_shopify env fileType filePath :
  stable R (upload_to_shopify env uploadId fileType filePath).
Proof.
  unfold upload_to_shopify, uploadImageToShopify, uploadVideoToShopify,
    uploadGenericFileToShopify, createStagedUpload, uploadFileToS3,
    call_fileCreate, waitForFileReady.
  repeat first [ apply stable_await_fetch | apply stable_wait_loop
               | stable_step ].
Qed.

Lemma stable_upload_stage env fileType f :
  stable R (upload_stage env uploadId fileType f).
Proof.
  unfold upload_stage.
  repeat first [ apply stable_upload_to_shopify | stable_step ].
Qed.

Lemma stable_compress_stage env fileType f :
  stable R (compress_stage env uploadId fileType f).
Proof.
  unfold compress_stage, compressImage, compressVideo, leave_output,
    write_file, status_of.
  repeat stable_step.
Qed.

Lemma stable_handler_body env req :
  default "" (body_uploadId req) = uploadId ->
  stable R (handler_body env req).
Proof.
  intros Hid. unfold handler_body, is_cancelled, push, status_of.
  rewrite Hid.
  repeat first [ apply stable_upload_stage | apply stable_compress_stage
               | stable_step ].
Qed.

Lemma stable_upload_file env req w :
  default "" (body_uploadId req) = uploadId ->
  R w (upload_file env req w).2.
Proof.
  intros Hid. unfold upload_file.
  pose proof (stable_handler_body env req Hid w) as H.
  destruct (handler_body env req w) as [[r|e] w1]; simpl in *; [done|].
  etrans; [exact H|]. cbv zeta. rewrite Hid.
  destruct (_ && _); [|apply R_console].
  etrans; [apply (R_console "Loading error" (err_message e))|].
  apply (R_alter _ (console_error "Loading error" (err_message e) w1)).
Qed.

End Stable.

Section UploadHandler.
Import Tracked TrackedFacts.

#[local] Open Scope list_scope.

#[local] Instance same_others_preorder uploadId : PreOrder (same_others uploadId).
Proof.
  split.
  - by intros w other _.
  - intros w1 w2 w3 H12 H23 other Hne. by rewrite H23, H12.
Qed.

#[local] Instance same_locks_preorder : PreOrder same_locks.
Proof.
  split.
  - by intros w.
  - intros w1 w2 w3 H12 H23. unfold same_locks in *. congruence.
Qed.

(** X7: an upload touches the record of its own job only: whatever the
    platform answers and whenever a cancel request for the job is served,
    every other record is afterwards what it was. *)
Theorem upload_file_other_jobs env req w other :
  other <> default "" (body_uploadId req) ->
  uploadStatuses (upload_file env req w).2 !! other
  = uploadStatuses w !! other.
Proof.
  intros Hne.
  apply (stable_upload_file (default "" (body_uploadId req))
           (same_others (default "" (body_uploadId req)))); try done.
  - intros f w0 o Ho. world. by apply lookup_alter_ne.
  - intros s w0 o Ho. world. by apply lookup_insert_ne.
Qed.

Lemma upload_file_other_jobs_witness :
  uploadStatuses
    (upload_file Examples.env_never_ready Examples.req_image
       (init_upload "u2" 2000
          {| init_filename := Some "b.mp4"; init_fileType := Some "video" |}
          Examples.w_registered).2).2 !! "u2"
  = Some {| id := "u2"; status := Waiting; progress := 0;
            originalFilename := "b.mp4"; error := None; url := None;
            type := "video"; timestamp := Some 2000;
            abortController := None; tempFiles := Some 1%nat |}.
Proof.
  rewrite (upload_file_other_jobs Examples.env_never_ready Examples.req_image);
    [|discriminate].
  vm_compute. reflexivity.
Defined.

(** The handler leaves the set of failing deletes as it is. *)
Lemma upload_to_shopify_locks env uploadId fileType filePath w :
  unlink_fails (upload_to_shopify env uploadId fileType filePath w).2
  = unlink_fails w.
Proof.
  by apply (stable_upload_to_shopify uploadId same_locks).
Qed.

(** X8: the handler refuses a request without a file, and then one whose
    job identifier is missing, empty or unknown, with 400; in both cases
    nothing at all changes. The file is looked at first. *)
Theorem upload_file_bad_request env req w :
  (file req = None ->
   upload_file env req w
   = (respond 400 (BError "The file was not uploaded"), w))
  /\ (forall f,
        file req = Some f ->
        ~ registered (default "" (body_uploadId req)) w ->
        upload_file env req w = (respond 400 (BError "Invalid upload ID"), w)).
Proof.
  split.
  - intros Hf. unfold upload_file, handler_body. by rewrite Hf.
  - intros f Hf Hnot. unfold upload_file, handler_body. rewrite Hf.
    rewrite bind_gets.
    destruct (body_uploadId req) as [u|]; [|done]. cbn [default from_option] in *.
    change (Datatypes.id u) with u in *.
    destruct (truthy (Some u)) eqn:Htr; [|done].
    case_bool_decide as Hk; [|done].
    destruct Hnot. split; [|done]. by apply truthy_Some.
Qed.

Lemma upload_file_bad_request_witness :
  upload_file Examples.env_direct_url
    {| file := None; fileType := Some "image"; body_uploadId := Some "u1" |}
    Examples.w_registered
  = (respond 400 (BError "The file was not uploaded"), Examples.w_registered)
  /\ upload_file Examples.env_direct_url
       {| file := Some Examples.a_png; fileType := Some "image";
          body_uploadId := Some "nobody" |}
       Examples.w_registered
     = (respond 400 (BError "Invalid upload ID"), Examples.w_registered).
Proof.
  split.
  - by apply (upload_file_bad_request Examples.env_direct_url).
  - apply (upload_file_bad_request Examples.env_direct_url
             {| file := Some Examples.a_png; fileType := Some "image";
                body_uploadId := Some "nobody" |}
             Examples.w_registered) with (f := Examples.a_png);
      [reflexivity|].
    intros [_ [s Hs]]. vm_compute in Hs. discriminate.
Defined.


(** *** The answer and the record *)









(** X27: in the tracked server the size check of the handler cannot
    fire for a file that is not an image: its limit is multer's limit, so
    a larger file never reaches the handler. The request is answered by
    Express with 500, not with the 400 and the size message, and the
    record of the job is left as it was. *)
Theorem oversize_video_never_reaches_handler strict env req w f :
  file req = Some f ->
  fileType req <> Some "image" ->
  size f > maxSize (fileType req) ->
  (post_upload_file strict env req w).1 = Unhandled LIMIT_FILE_SIZE
  /\ http_status (post_upload_file strict env req w).1 = 500
  /\ uploadStatuses (post_upload_file strict env req w).2 = uploadStatuses w
  /\ net (post_upload_file strict env req w).2 = net w.
Proof.
  intros Hf Hkind Hsize.
  assert (Hover : over_limit strict fileSize_limit (size f) = true).
  { unfold over_limit, fileSize_limit.
    unfold maxSize, is_type in Hsize.
    rewrite bool_decide_eq_false_2 in Hsize by done.
    replace (Z.gtb (size f) (100 * 1024 * 1024)) with true; [done|].
    symmetry. rewrite Z.gtb_ltb. apply Z.ltb_lt. lia. }
  unfold post_upload_file. rewrite Hf, Hover. cbn [fst snd http_status].
  unfold multer_remove. by case_bool_decide.
Qed.

Lemma oversize_video_never_reaches_handler_witness :
  (post_upload_file true Examples.env_video_url Examples.req_huge_video
     Examples.w_video).1 = Unhandled LIMIT_FILE_SIZE
  /\ uploadStatuses
       (post_upload_file true Examples.env_video_url Examples.req_huge_video
          Examples.w_video).2
     = uploadStatuses Examples.w_video.
Proof.
  destruct (oversize_video_never_reaches_handler true Examples.env_video_url
              Examples.req_huge_video Examples.w_video Examples.huge_mp4)
    as (Hanswer & _ & Htable & _).
  - reflexivity.
  - discriminate.
  - vm_compute. reflexivity.
  - split; [exact Hanswer | exact Htable].
Defined.

Lemma bind_ensure_tempFiles {B} uploadId s (k : nat -> M B) w :
  uploadStatuses w !! uploadId = Some s ->
  bind (ensure_tempFiles uploadId) k w
  = match tempFiles s with
    | Some r => k r w
    | None =>
        k (length (arrays w))
          (with_table
             (<[uploadId := set_tempFiles (length (arrays w)) s]>
                (uploadStatuses w))
             (with_arrays (arrays w ++ [[]]) w))
    end.
Proof.
  intros Hs. unfold bind, ensure_tempFiles. rewrite Hs.
  by destruct (tempFiles s).
Qed.

(** X10: the handler never looks at what the job was doing: it stores
    status compressing and progress 10 over whatever the record held, so
    a job that was cancelled, completed or failed before is processed like
    a fresh one. Formally the run is the same from any previous status and
    progress. *)
Theorem upload_ignores_previous_status env req w f uploadId s st p :
  file req = Some f ->
  body_uploadId req = Some uploadId ->
  uploadId <> "" ->
  uploadStatuses w !! uploadId = Some s ->
  upload_file env req
    (with_table (<[uploadId := set_progress p (set_status st s)]>
                   (uploadStatuses w)) w)
  = upload_file env req w.
Proof.
  intros Hf Hid Hne Hs.
  assert (Hbody :
    handler_body env req
      (with_table (<[uploadId := set_progress p (set_status st s)]>
                     (uploadStatuses w)) w)
    = handler_body env req w); [|unfold upload_file; by rewrite Hbody].
  unfold handler_body. rewrite Hf, Hid.
  cbn [default from_option]. change (Datatypes.id uploadId) with uploadId.
  rewrite !bind_gets. world. rewrite lookup_insert_eq, Hs.
  rewrite !(bool_decide_eq_true_2 (is_Some (Some _))) by (by eexists).
  rewrite (proj2 (truthy_Some uploadId) Hne). cbn [negb orb].
  rewrite (bind_ensure_tempFiles uploadId (set_progress p (set_status st s)))
    by (world; apply lookup_insert_eq).
  rewrite (bind_ensure_tempFiles uploadId s) by done.
  change (tempFiles (set_progress p (set_status st s))) with (tempFiles s).
  unfold push.
  destruct (tempFiles s) as [r0|]; cbv beta iota; rewrite !bind_modify, !bind_update;
    world; f_equal; apply world_ext; try done; world;
    apply map_eq; intros k; destruct (decide (k = uploadId)) as [->|Hk];
    rewrite ?lookup_alter_eq, ?lookup_alter_ne, ?lookup_insert_eq,
      ?lookup_insert_ne, ?Hs by done; try done.
Qed.

Lemma upload_ignores_previous_status_witness :
  let job :=
    {| id := "u1"; status := Waiting; progress := 0;
       originalFilename := "a.png"; error := None; url := None;
       type := "image"; timestamp := Some 1000;
       abortController := None; tempFiles := Some 0%nat |} in
  upload_file Examples.env_direct_url Examples.req_image
    (with_table
       (<["u1" := set_progress 60 (set_status Cancelled job)]>
          (uploadStatuses Examples.w_registered)) Examples.w_registered)
  = upload_file Examples.env_direct_url Examples.req_image
      Examples.w_registered.
Proof.
  intros job.
  apply (upload_ignores_previous_status Examples.env_direct_url
           Examples.req_image Examples.w_registered Examples.a_png "u1" job
           Cancelled 60).
  - reflexivity.
  - reflexivity.
  - discriminate.
  - vm_compute. reflexivity.
Defined.

End UploadHandler.

(** ** Polling and cancellation in the tracked server *)

Section Polling.
Import Tracked TrackedFacts.

#[local] Open Scope list_scope.
#[local] Arguments waitForFileReady : simpl never.
#[local] Arguments await_fetch : simpl never.
#[local] Arguments truthy : simpl never.

Context (env : Env) (uploadId fileId : string) (interval : Z).

(** The start of an iteration, for a job that is not cancelled. *)
Lemma wait_loop_enter n attempt w st :
  (status <$> uploadStatuses w !! uploadId) = Some st ->
  st <> Cancelled ->
  wait_loop env uploadId fileId interval (S n) attempt w
  = (let c := length (controllers w) in
     let w1 :=
       emit (CallNode fileId)
         (with_table (alter (set_abortController c) uploadId
                        (uploadStatuses w))
            (with_controllers (controllers w ++ [false]) w)) in
     match (let* node := await_fetch uploadId c (cancel_in_poll env attempt)
                           (poll env attempt) in
            check_node node) w1 with
     | (Ret (Some u), w2) => (Ret u, w2)
     | (Ret None, w2) =>
         wait_loop env uploadId fileId interval n (S attempt)
           (let w3 := emit (Sleep interval) w2 in
            if cancel_in_sleep env attempt
            then (cancel_upload uploadId w3).2 else w3)
     | (Throw e, w2) =>
         if String.eqb (err_name e) "AbortError"
         then (Throw cancelled_error, w2)
         else
           wait_loop env uploadId fileId interval n (S attempt)
             (let w3 := emit (Sleep interval)
                          (console_error "Error checking file status:"
                             (err_message e) w2) in
              if cancel_in_sleep env attempt
              then (cancel_upload uploadId w3).2 else w3)
     end).
Proof.
  intros Hst Hne. cbn [wait_loop]. unfold status_of. run. rewrite Hst.
  rewrite bool_decide_eq_false_2 by done.
  rewrite bool_decide_eq_false_2 by congruence.
  cbn [orb]. run. rewrite bind_try_catch. run. cbv zeta.
  match goal with
  | |- match ?m with _ => _ end = _ => destruct m as [[[u|]|e] w2]
  end.
  - by run.
  - run. by rewrite bind_interleave.
  - destruct (String.eqb (err_name e) "AbortError"); run; [done|].
    by rewrite bind_interleave.
Qed.

Lemma status_after_controller w c st :
  (status <$> uploadStatuses w !! uploadId) = Some st ->
  (status <$> alter (set_abortController c) uploadId (uploadStatuses w)
              !! uploadId) = Some st.
Proof.
  intros Hst. rewrite lookup_alter_eq.
  destruct (uploadStatuses w !! uploadId); by simplify_eq/=.
Qed.

(** An attempt that does not see the file ready, with no cancel request
    served: one query, one wait, and the loop goes on. *)
Lemma wait_loop_idle_step n attempt w st :
  unready (poll env attempt) ->
  cancel_in_poll env attempt = false ->
  cancel_in_sleep env attempt = false ->
  (status <$> uploadStatuses w !! uploadId) = Some st ->
  st <> Cancelled ->
  exists w2,
    wait_loop env uploadId fileId interval (S n) attempt w
    = wait_loop env uploadId fileId interval n (S attempt) w2
    /\ net w2 = net w ++ [CallNode fileId; Sleep interval]
    /\ files w2 = files w
    /\ unlink_fails w2 = unlink_fails w
    /\ (status <$> uploadStatuses w2 !! uploadId) = Some st.
Proof.
  intros Hun Hq1 Hq2 Hst Hne.
  rewrite (wait_loop_enter _ _ _ _ Hst Hne). cbv zeta. rewrite Hq1, Hq2.
  unfold unready in Hun.
  destruct (poll env attempt) as [[node|]|e].
  - rewrite bind_await_resolved by live.
    unfold check_node. rewrite bool_decide_eq_false_2 by done.
    unfold ret at 1. cbv beta iota.
    eexists. split; [reflexivity|]. world. rewrite <- app_assoc.
    repeat (split; [done|]). by apply status_after_controller.
  - rewrite bind_await_resolved by live.
    unfold check_node, throw at 1. cbv beta iota.
    change (err_name (mkError "File not found") =? "AbortError")%string
      with false. cbv iota.
    eexists. split; [reflexivity|]. world. rewrite <- app_assoc.
    repeat (split; [done|]). by apply status_after_controller.
  - rewrite bind_await_rejected by live. cbv beta iota.
    destruct (String.eqb_spec (err_name e) "AbortError"); [done|].
    eexists. split; [reflexivity|]. world. rewrite <- app_assoc.
    repeat (split; [done|]). by apply status_after_controller.
Qed.

Lemma idle_polls_S n :
  idle_polls fileId interval (S n)
  = [CallNode fileId; Sleep interval] ++ idle_polls fileId interval n.
Proof. done. Qed.

Lemma idle_polls_snoc n :
  idle_polls fileId interval (S n)
  = idle_polls fileId interval n ++ [CallNode fileId; Sleep interval].
Proof.
  induction n as [|n IH]; [done|].
  rewrite idle_polls_S, IH at 1. by rewrite idle_polls_S, app_assoc.
Qed.

(** [k] such attempts in a row. *)
Lemma wait_loop_idle k : forall n attempt w st,
  (forall i, (i < k)%nat ->
     unready (poll env (attempt + i))
     /\ cancel_in_poll env (attempt + i) = false
     /\ cancel_in_sleep env (attempt + i) = false) ->
  (status <$> uploadStatuses w !! uploadId) = Some st ->
  st <> Cancelled ->
  exists w2,
    wait_loop env uploadId fileId interval (k + n) attempt w
    = wait_loop env uploadId fileId interval n (attempt + k) w2
    /\ net w2 = net w ++ idle_polls fileId interval k
    /\ files w2 = files w
    /\ unlink_fails w2 = unlink_fails w
    /\ (status <$> uploadStatuses w2 !! uploadId) = Some st.
Proof.
  induction k as [|k IH]; intros n attempt w st Hidle Hst Hne.
  { exists w. rewrite Nat.add_0_r. unfold idle_polls. cbn.
    by rewrite app_nil_r. }
  destruct (Hidle 0%nat) as (Hun & Hq1 & Hq2); [lia|].
  rewrite Nat.add_0_r in Hun, Hq1, Hq2.
  cbn [Nat.add].
  destruct (wait_loop_idle_step (k + n) attempt w st Hun Hq1 Hq2 Hst Hne)
    as (w1 & -> & Hn1 & Hf1 & Hl1 & Hs1).
  destruct (IH n (S attempt) w1 st) as (w2 & -> & Hn2 & Hf2 & Hl2 & Hs2);
    [|done|done|].
  { intros i Hi. replace (S attempt + i)%nat with (attempt + S i)%nat by lia.
    apply Hidle. lia. }
  exists w2. replace (attempt + S k)%nat with (S attempt + k)%nat by lia.
  split; [done|]. rewrite Hn2, Hn1, Hf2, Hf1, Hl2, Hl1, idle_polls_S.
  by rewrite <- app_assoc.
Qed.

(** The attempt that sees the file ready returns its URL. *)
Lemma wait_loop_ready n attempt w st node u :
  poll env attempt = Resolved (Some node) ->
  ready_with node u ->
  cancel_in_poll env attempt = false ->
  (status <$> uploadStatuses w !! uploadId) = Some st ->
  st <> Cancelled ->
  exists w2,
    wait_loop env uploadId fileId interval (S n) attempt w = (Ret u, w2)
    /\ net w2 = net w ++ [CallNode fileId]
    /\ files w2 = files w
    /\ unlink_fails w2 = unlink_fails w
    /\ (status <$> uploadStatuses w2 !! uploadId) = Some st.
Proof.
  intros Hpoll [Hready Hurl] Hq Hst Hne.
  rewrite (wait_loop_enter _ _ _ _ Hst Hne). cbv zeta. rewrite Hq, Hpoll.
  rewrite bind_await_resolved by live.
  unfold check_node. rewrite bool_decide_eq_true_2 by done.
  destruct Hurl as [[-> ->]|[(-> & l & ->)|(-> & Hnone & -> & ->)]];
    [| |destruct Hnone as [->| ->]];
    (eexists; split; [reflexivity|]); world;
    repeat (split; [done|]); by apply status_after_controller.
Qed.

(** A cancel request served while a request bound to the controller the
    job holds is in flight: the request is rejected by abort. *)
Lemma await_fetch_cancelled {A} c (answer : Settled A) w s :
  uploadId <> "" ->
  uploadStatuses w !! uploadId = Some s ->
  abortController s = Some c ->
  (c < length (controllers w))%nat ->
  await_fetch uploadId c true answer w
  = (Throw AbortError, (cancel_upload uploadId w).2).
Proof.
  intros Hne Hs Hc Hlt.
  unfold await_fetch, bind, interleave_cancel, modify, gets.
  by rewrite (cancel_upload_aborts _ _ _ _ Hne Hs Hc Hlt).
Qed.

(** The record of a job that has just been cancelled. *)
Lemma cancel_upload_record w s :
  uploadId <> "" ->
  uploadStatuses w !! uploadId = Some s ->
  (status <$> uploadStatuses (cancel_upload uploadId w).2 !! uploadId)
  = Some Cancelled
  /\ (error <$> uploadStatuses (cancel_upload uploadId w).2 !! uploadId)
     = Some (Some cancel_message).
Proof.
  intros Hne Hs.
  by rewrite (cancel_upload_table _ _ _ Hne Hs), lookup_insert_eq.
Qed.

Lemma cancel_upload_locks w :
  unlink_fails (cancel_upload uploadId w).2 = unlink_fails w.
Proof.
  destruct (uploadStatuses w !! uploadId) as [s|] eqn:Hs;
    [|by rewrite cancel_upload_unknown].
  destruct (String.eqb_spec uploadId "") as [Hid|Hid].
  { unfold cancel_upload. by rewrite Hs, Hid. }
  by destruct (cancel_upload_world _ _ _ Hid Hs) as (_ & _ & -> & _).
Qed.

(** A cancel request served during a status query ends the polling with
    the cancellation error. *)
Lemma wait_loop_cancel_in_query n attempt w s :
  uploadId <> "" ->
  uploadStatuses w !! uploadId = Some s ->
  status s <> Cancelled ->
  cancel_in_poll env attempt = true ->
  exists w2,
    wait_loop env uploadId fileId interval (S n) attempt w
    = (Throw cancelled_error, w2)
    /\ net w2 = net w ++ [CallNode fileId]
    /\ unlink_fails w2 = unlink_fails w
    /\ (status <$> uploadStatuses w2 !! uploadId) = Some Cancelled
    /\ (error <$> uploadStatuses w2 !! uploadId) = Some (Some cancel_message).
Proof.
  intros Hid Hs Hne Hcancel.
  rewrite (wait_loop_enter n attempt w (status s)) by (by rewrite ?Hs).
  cbv zeta. rewrite Hcancel. unfold bind at 1.
  set (c := length (controllers w)).
  set (w1 := emit _ _).
  assert (Hs1 : uploadStatuses w1 !! uploadId = Some (set_abortController c s)).
  { subst w1. world. by rewrite lookup_alter_eq, Hs. }
  rewrite (await_fetch_cancelled c (poll env attempt) w1 _ Hid Hs1 eq_refl)
    by (subst w1 c; world; rewrite length_app; simpl; lia).
  change (err_name AbortError =? "AbortError")%string with true. cbv iota.
  eexists. split; [reflexivity|].
  rewrite cancel_upload_net, cancel_upload_locks.
  split; [done|]. split; [done|].
  by apply (cancel_upload_record w1 _ Hid Hs1).
Qed.

(** A cancel request served during the wait after a query. *)
Lemma wait_loop_cancel_in_sleep n attempt w s :
  uploadId <> "" ->
  uploadStatuses w !! uploadId = Some s ->
  status s <> Cancelled ->
  unready (poll env attempt) ->
  cancel_in_poll env attempt = false ->
  cancel_in_sleep env attempt = true ->
  exists w2,
    wait_loop env uploadId fileId interval (S n) attempt w
    = wait_loop env uploadId fileId interval n (S attempt) w2
    /\ net w2 = net w ++ [CallNode fileId; Sleep interval]
    /\ unlink_fails w2 = unlink_fails w
    /\ (status <$> uploadStatuses w2 !! uploadId) = Some Cancelled
    /\ (error <$> uploadStatuses w2 !! uploadId) = Some (Some cancel_message).
Proof.
  intros Hid Hs Hne Hun Hq1 Hq2.
  rewrite (wait_loop_enter n attempt w (status s)) by (by rewrite ?Hs).
  cbv zeta. rewrite Hq1, Hq2.
  pose (c := length (controllers w)).
  assert (Hdone : forall w3 : World,
            uploadStatuses w3
            = alter (set_abortController c) uploadId (uploadStatuses w) ->
            net w3 = net w ++ [CallNode fileId; Sleep interval] ->
            unlink_fails w3 = unlink_fails w ->
            exists w2,
              wait_loop env uploadId fileId interval n (S attempt)
                (cancel_upload uploadId w3).2
              = wait_loop env uploadId fileId interval n (S attempt) w2
              /\ net w2 = net w ++ [CallNode fileId; Sleep interval]
              /\ unlink_fails w2 = unlink_fails w
              /\ (status <$> uploadStatuses w2 !! uploadId) = Some Cancelled
              /\ (error <$> uploadStatuses w2 !! uploadId)
                 = Some (Some cancel_message)).
  { intros w3 Ht Hn Hl. eexists. split; [reflexivity|].
    rewrite cancel_upload_net, cancel_upload_locks.
    split; [done|]. split; [done|].
    apply (cancel_upload_record w3 (set_abortController c s) Hid).
    by rewrite Ht, lookup_alter_eq, Hs. }
  unfold unready in Hun.
  destruct (poll env attempt) as [[node|]|e].
  - rewrite bind_await_resolved by live.
    unfold check_node. rewrite bool_decide_eq_false_2 by done.
    unfold ret at 1. cbv beta iota.
    apply Hdone; world; by rewrite <- ?app_assoc.
  - rewrite bind_await_resolved by live.
    unfold check_node, throw at 1. cbv beta iota.
    change (err_name (mkError "File not found") =? "AbortError")%string
      with false. cbv iota.
    apply Hdone; world; by rewrite <- ?app_assoc.
  - rewrite bind_await_rejected by live. cbv beta iota.
    destruct (String.eqb_spec (err_name e) "AbortError"); [done|].
    apply Hdone; world; by rewrite <- ?app_assoc.
Qed.

(** An iteration that starts on a cancelled job sends nothing. *)
Lemma wait_loop_cancelled_job n attempt w :
  (status <$> uploadStatuses w !! uploadId) = Some Cancelled ->
  wait_loop env uploadId fileId interval (S n) attempt w
  = (Throw cancelled_error, w).
Proof.
  intros Hst. cbn [wait_loop]. unfold status_of. run. rewrite Hst.
  rewrite (bool_decide_eq_true_2 (Some Cancelled = Some Cancelled)) by done.
  by rewrite orb_true_r.
Qed.
End Polling.

Section AfterFileCreate.
Import Tracked TrackedFacts.

#[local] Open Scope list_scope.

(** An accepted request whose [fileCreate] response has no URL of the
    kind but an id: the job polls for the file. *)
Context (env : Env) (req : UploadRequest) (w : World) (f : File).
Context (uploadId original : string).
Context (t : Target) (r : BlobResponse) (json : FileCreateJson).
Context (Hacc : Accepted env req w f uploadId original).
Context (Hans : Answers env t r json).
Context (Hurl : truthy (embedded_url (fileType req) json) = false).
Context (Hid : truthy (created_id json) = true).

(** The handler from the first status query on. *)
Lemma upload_file_polling :
  exists w2 w3 s3,
    upload_to_shopify env uploadId (fileType req) (compressedFilePath env f) w2
    = wait_loop env uploadId (default "" (created_id json)) default_interval
        default_maxAttempts 0 w3
    /\ (forall resp w',
          upload_stage env uploadId (fileType req) f w2 = (Ret resp, w') ->
          upload_file env req w = (resp, w'))
    /\ net w3
       = net w ++ three_calls (fileType req) t
                    (encoded env (fileType req) original)
    /\ unlink_fails w3 = unlink_fails w
    /\ uploadStatuses w3 !! uploadId = Some s3
    /\ status s3 = Uploading
    /\ uploadId <> "".
Proof.
  destruct (upload_file_accepted _ _ _ _ _ _ Hacc)
    as (w2 & Hfile & Hnet2 & Hlock2 & Hcomp & [s2 Hs2]).
  destruct (upload_to_shopify_polls env uploadId (fileType req) t r json Hans
              (compressedFilePath env f) w2 _ s2 Hs2 Hcomp Hurl Hid)
    as (w3 & Hup & Hnet3 & _ & Hlock3 & Hst3).
  destruct (uploadStatuses w3 !! uploadId) as [s3|] eqn:Hs3; [|done].
  exists w2, w3, s3. split; [exact Hup|]. split; [exact Hfile|].
  rewrite Hnet3, Hnet2, Hlock3, Hlock2. repeat (split; [done|]).
  split; [by injection Hst3|]. by destruct Hacc as [_ _ [? _] _ _ _ _].
Qed.

(** X11: polling ends at the first query that finds the file ready (the
    [k]-th, after [k] that did not): the handler answers 200 with the URL of
    the node (image URL, else the URL of the first source, even an absent
    one, else the generic URL), stores it with status completed, and has
    made exactly [k + 1] queries with [k] waits of five seconds between
    them. *)
Theorem polling_returns_first_ready_url k node u :
  (k < 30)%nat ->
  idle_before env k ->
  cancel_in_poll env k = false ->
  poll env k = Resolved (Some node) ->
  ready_with node u ->
  exists w',
    upload_file env req w = (respond 200 (BUrl u), w')
    /\ sent w w'
       = three_calls (fileType req) t (encoded env (fileType req) original)
         ++ idle_polls (default "" (created_id json)) 5000 k
         ++ [CallNode (default "" (created_id json))]
    /\ (status <$> uploadStatuses w' !! uploadId) = Some Completed
    /\ (url <$> uploadStatuses w' !! uploadId) = Some u.
Proof.
  intros Hk Hidle Hq Hpoll Hready.
  destruct upload_file_polling
    as (w2 & w3 & s3 & Hup & Hfile & Hnet3 & Hlock3 & Hs3 & Hst3 & Hne).
  replace default_maxAttempts with (k + S (29 - k))%nat in Hup
    by (unfold default_maxAttempts; lia).
  destruct (wait_loop_idle env uploadId (default "" (created_id json))
              default_interval k (S (29 - k)) 0%nat w3 Uploading)
    as (w4 & Hrun4 & Hnet4 & _ & _ & Hst4);
    [exact Hidle|by rewrite Hs3, <- Hst3|done|].
  destruct (wait_loop_ready env uploadId (default "" (created_id json))
              default_interval (29 - k) k w4 Uploading node u)
    as (w5 & Hrun5 & Hnet5 & _ & _ & Hst5); try done.
  rewrite Hrun4 in Hup. cbn [Nat.add] in Hup. rewrite Hrun5 in Hup.
  eexists. split; [apply Hfile, (upload_stage_ok _ _ _ _ _ _ _ Hup)|].
  match goal with
  | |- context [cleanup ?a ?b ?x] =>
      destruct (cleanup_frame a b x) as (Ht & Hn & _)
  end.
  rewrite Ht. split.
  { apply sent_app. rewrite Hn. world.
    rewrite Hnet5, Hnet4, Hnet3. by rewrite <- !app_assoc. }
  world. rewrite lookup_alter_eq.
  destruct (uploadStatuses w5 !! uploadId); by simplify_eq/=.
Qed.

(** X12: a cancel request served during a status query (the [k]-th, after
    [k] that did not see the file ready) aborts the query; the handler
    answers 400 with the cancellation message, makes no further query and
    leaves the job cancelled, with the message of the cancel request. *)
Theorem cancel_during_status_query k :
  (k < 30)%nat ->
  idle_before env k ->
  cancel_in_poll env k = true ->
  exists w',
    upload_file env req w = (respond 400 (BError "Upload cancelled by user"), w')
    /\ sent w w'
       = three_calls (fileType req) t (encoded env (fileType req) original)
         ++ idle_polls (default "" (created_id json)) 5000 k
         ++ [CallNode (default "" (created_id json))]
    /\ (status <$> uploadStatuses w' !! uploadId) = Some Cancelled
    /\ (error <$> uploadStatuses w' !! uploadId)
       = Some (Some "Upload cancelled by user").
Proof.
  intros Hk Hidle Hcancel.
  destruct upload_file_polling
    as (w2 & w3 & s3 & Hup & Hfile & Hnet3 & Hlock3 & Hs3 & Hst3 & Hne).
  replace default_maxAttempts with (k + S (29 - k))%nat in Hup
    by (unfold default_maxAttempts; lia).
  destruct (wait_loop_idle env uploadId (default "" (created_id json))
              default_interval k (S (29 - k)) 0%nat w3 Uploading)
    as (w4 & Hrun4 & Hnet4 & _ & _ & Hst4);
    [exact Hidle|by rewrite Hs3, <- Hst3|done|].
  destruct (uploadStatuses w4 !! uploadId) as [s4|] eqn:Hs4; [|done].
  destruct (wait_loop_cancel_in_query env uploadId
              (default "" (created_id json)) default_interval (29 - k) k w4 s4)
    as (w5 & Hrun5 & Hnet5 & _ & Hst5 & Herr5); try done.
  { injection Hst4 as ->. done. }
  rewrite Hrun4 in Hup. cbn [Nat.add] in Hup. rewrite Hrun5 in Hup.
  eexists. split.
  { apply Hfile, (upload_stage_cancelled _ _ _ _ _ _ _ Hup). reflexivity. }
  world. split; [|done].
  apply sent_app. world. rewrite Hnet5, Hnet4, Hnet3.
  by rewrite <- !app_assoc.
Qed.

(** X13: a cancel request served during the wait after a query (the
    [k]-th, which is not the last) is seen when the next attempt starts:
    no further query is made, the handler answers 400 with the cancellation
    message and the job stays cancelled. *)
Theorem cancel_during_wait k :
  (k < 29)%nat ->
  idle_before env k ->
  unready (poll env k) ->
  cancel_in_poll env k = false ->
  cancel_in_sleep env k = true ->
  exists w',
    upload_file env req w = (respond 400 (BError "Upload cancelled by user"), w')
    /\ sent w w'
       = three_calls (fileType req) t (encoded env (fileType req) original)
         ++ idle_polls (default "" (created_id json)) 5000 (S k)
    /\ (status <$> uploadStatuses w' !! uploadId) = Some Cancelled
    /\ (error <$> uploadStatuses w' !! uploadId)
       = Some (Some "Upload cancelled by user").
Proof.
  intros Hk Hidle Hun Hq Hcancel.
  destruct upload_file_polling
    as (w2 & w3 & s3 & Hup & Hfile & Hnet3 & Hlock3 & Hs3 & Hst3 & Hne).
  replace default_maxAttempts with (k + S (S (28 - k)))%nat in Hup
    by (unfold default_maxAttempts; lia).
  destruct (wait_loop_idle env uploadId (default "" (created_id json))
              default_interval k (S (S (28 - k))) 0%nat w3 Uploading)
    as (w4 & Hrun4 & Hnet4 & _ & _ & Hst4);
    [exact Hidle|by rewrite Hs3, <- Hst3|done|].
  destruct (uploadStatuses w4 !! uploadId) as [s4|] eqn:Hs4; [|done].
  destruct (wait_loop_cancel_in_sleep env uploadId
              (default "" (created_id json)) default_interval
              (S (28 - k)) k w4 s4)
    as (w5 & Hrun5 & Hnet5 & _ & Hst5 & Herr5); try done.
  { injection Hst4 as ->. done. }
  rewrite Hrun4 in Hup. cbn [Nat.add] in Hup.
  rewrite Hrun5, (wait_loop_cancelled_job _ _ _ _ _ _ _ Hst5) in Hup.
  eexists. split.
  { apply Hfile, (upload_stage_cancelled _ _ _ _ _ _ _ Hup). reflexivity. }
  world. split; [|done].
  apply sent_app. world. rewrite Hnet5, Hnet4, Hnet3, idle_polls_snoc.
  by rewrite <- !app_assoc.
Qed.

(** X14: a cancel request served during the wait after the last query is
    never seen: the loop ends with the timeout error, which the handler
    stores over the cancellation. The job the user cancelled ends in status
    error with the timeout message, and the handler answers 500. *)
Theorem cancel_during_last_wait_is_lost :
  idle_before env 29 ->
  unready (poll env 29) ->
  cancel_in_poll env 29 = false ->
  cancel_in_sleep env 29 = true ->
  exists w',
    upload_file env req w = (respond 500 (BError "Error uploading file"), w')
    /\ sent w w'
       = three_calls (fileType req) t (encoded env (fileType req) original)
         ++ idle_polls (default "" (created_id json)) 5000 30
    /\ (status <$> uploadStatuses w' !! uploadId) = Some Error
    /\ (error <$> uploadStatuses w' !! uploadId)
       = Some (Some "The file did not become ready in the allotted time.").
Proof.
  intros Hidle Hun Hq Hcancel.
  destruct upload_file_polling
    as (w2 & w3 & s3 & Hup & Hfile & Hnet3 & Hlock3 & Hs3 & Hst3 & Hne).
  change default_maxAttempts with (29 + 1)%nat in Hup.
  destruct (wait_loop_idle env uploadId (default "" (created_id json))
              default_interval 29 1 0%nat w3 Uploading)
    as (w4 & Hrun4 & Hnet4 & _ & _ & Hst4);
    [exact Hidle|by rewrite Hs3, <- Hst3|done|].
  destruct (uploadStatuses w4 !! uploadId) as [s4|] eqn:Hs4; [|done].
  destruct (wait_loop_cancel_in_sleep env uploadId
              (default "" (created_id json)) default_interval 0 29 w4 s4)
    as (w5 & Hrun5 & Hnet5 & _ & Hst5 & Herr5); try done.
  { injection Hst4 as ->. done. }
  rewrite Hrun4 in Hup. cbn [Nat.add] in Hup. rewrite Hrun5 in Hup.
  cbn [wait_loop] in Hup.
  eexists. split.
  { apply Hfile, (upload_stage_failed _ _ _ _ _ _ _ Hup). discriminate. }
  match goal with
  | |- context [cleanup ?a ?b ?x] =>
      destruct (cleanup_frame a b x) as (Ht & Hn & _)
  end.
  rewrite Ht. split.
  { apply sent_app. rewrite Hn. world. rewrite Hnet5, Hnet4, Hnet3.
    rewrite (idle_polls_snoc _ _ 29). by rewrite <- !app_assoc. }
  world. rewrite lookup_alter_eq.
  destruct (uploadStatuses w5 !! uploadId); by simplify_eq/=.
Qed.
End AfterFileCreate.

Section PollingExamples.
Import Tracked TrackedFacts.

#[local] Open Scope list_scope.

(** Discharges [Accepted] and [Answers] on a concrete run by evaluation. *)
Ltac concrete_run :=
  first
    [ constructor;
      [ reflexivity
      | reflexivity
      | split; [discriminate | vm_compute; eexists; reflexivity]
      | vm_compute; discriminate
      | vm_compute; reflexivity
      | reflexivity
      | intros e; discriminate ]
    | constructor; reflexivity ].

Lemma polling_returns_first_ready_url_witness :
  exists w',
    upload_file
      (Examples.env_polling Examples.ready_at_third (fun _ => false)
         (fun _ => false))
      Examples.req_image Examples.w_registered
    = (respond 200 (BUrl (Some "https://cdn.example/a.jpg")), w')
    /\ polls (sent Examples.w_registered w') = 3%nat.
Proof.
  destruct (polling_returns_first_ready_url
              (Examples.env_polling Examples.ready_at_third (fun _ => false)
                 (fun _ => false))
              Examples.req_image Examples.w_registered Examples.a_png "u1"
              "PNGDATA" Examples.a_target
              {| blob_ok := true; blob_text := "" |}
              {| files0 := Some Examples.pending_node; userErrors := [] |}
              ltac:(concrete_run) ltac:(concrete_run) eq_refl eq_refl
              2%nat Examples.ready_node (Some "https://cdn.example/a.jpg"))
    as (w' & Hrun & Hsent & _).
  - lia.
  - intros i Hi. destruct i as [|[|i]]; [by repeat split..|lia].
  - reflexivity.
  - reflexivity.
  - split; [reflexivity|]. left. by split.
  - exists w'. split; [exact Hrun|]. by rewrite Hsent.
Defined.

Lemma cancel_during_status_query_witness :
  exists w',
    upload_file
      (Examples.env_polling (fun _ => Resolved (Some Examples.pending_node))
         (fun i => Nat.eqb i 1) (fun _ => false))
      Examples.req_image Examples.w_registered
    = (respond 400 (BError "Upload cancelled by user"), w')
    /\ polls (sent Examples.w_registered w') = 2%nat
    /\ (status <$> uploadStatuses w' !! "u1") = Some Cancelled.
Proof.
  destruct (cancel_during_status_query
              (Examples.env_polling
                 (fun _ => Resolved (Some Examples.pending_node))
                 (fun i => Nat.eqb i 1) (fun _ => false))
              Examples.req_image Examples.w_registered Examples.a_png "u1"
              "PNGDATA" Examples.a_target
              {| blob_ok := true; blob_text := "" |}
              {| files0 := Some Examples.pending_node; userErrors := [] |}
              ltac:(concrete_run) ltac:(concrete_run) eq_refl eq_refl 1%nat)
    as (w' & Hrun & Hsent & Hst & _).
  - lia.
  - intros i Hi. destruct i as [|i]; [|lia]. repeat split. discriminate.
  - reflexivity.
  - exists w'. split; [exact Hrun|]. split; [by rewrite Hsent|exact Hst].
Defined.

Lemma cancel_during_wait_witness :
  exists w',
    upload_file
      (Examples.env_polling (fun _ => Resolved (Some Examples.pending_node))
         (fun _ => false) (fun i => Nat.eqb i 0))
      Examples.req_image Examples.w_registered
    = (respond 400 (BError "Upload cancelled by user"), w')
    /\ polls (sent Examples.w_registered w') = 1%nat
    /\ (status <$> uploadStatuses w' !! "u1") = Some Cancelled.
Proof.
  destruct (cancel_during_wait
              (Examples.env_polling
                 (fun _ => Resolved (Some Examples.pending_node))
                 (fun _ => false) (fun i => Nat.eqb i 0))
              Examples.req_image Examples.w_registered Examples.a_png "u1"
              "PNGDATA" Examples.a_target
              {| blob_ok := true; blob_text := "" |}
              {| files0 := Some Examples.pending_node; userErrors := [] |}
              ltac:(concrete_run) ltac:(concrete_run) eq_refl eq_refl 0%nat)
    as (w' & Hrun & Hsent & Hst & _).
  - lia.
  - intros i Hi. lia.
  - discriminate.
  - reflexivity.
  - reflexivity.
  - exists w'. split; [exact Hrun|]. split; [by rewrite Hsent|exact Hst].
Defined.

Lemma cancel_during_last_wait_is_lost_witness :
  exists w',
    upload_file
      (Examples.env_polling (fun _ => Resolved (Some Examples.pending_node))
         (fun _ => false) (fun i => Nat.eqb i 29))
      Examples.req_image Examples.w_registered
    = (respond 500 (BError "Error uploading file"), w')
    /\ (status <$> uploadStatuses w' !! "u1") = Some Error.
Proof.
  destruct (cancel_during_last_wait_is_lost
              (Examples.env_polling
                 (fun _ => Resolved (Some Examples.pending_node))
                 (fun _ => false) (fun i => Nat.eqb i 29))
              Examples.req_image Examples.w_registered Examples.a_png "u1"
              "PNGDATA" Examples.a_target
              {| blob_ok := true; blob_text := "" |}
              {| files0 := Some Examples.pending_node; userErrors := [] |}
              ltac:(concrete_run) ltac:(concrete_run) eq_refl eq_refl)
    as (w' & Hrun & _ & Hst & _).
  - intros i Hi. split; [discriminate|]. split; [reflexivity|].
    apply Nat.eqb_neq. lia.
  - discriminate.
  - reflexivity.
  - reflexivity.
  - exists w'. split; [exact Hrun|exact Hst].
Defined.

End PollingExamples.

(** ** Cancel requests served outside the polling *)

Section CancelElsewhere.
Import Tracked TrackedFacts.

#[local] Open Scope list_scope.
#[local] Arguments waitForFileReady : simpl never.
#[local] Arguments await_fetch : simpl never.
#[local] Arguments truthy : simpl never.

(** What a cancel request served during a call leaves. *)
Lemma await_cancelled_outcome {A B} uploadId c (answer : Settled A)
    (k : A -> M B) w s :
  uploadId <> "" ->
  uploadStatuses w !! uploadId = Some s ->
  abortController s = Some c ->
  (c < length (controllers w))%nat ->
  exists w2,
    bind (await_fetch uploadId c true answer) k w = (Throw AbortError, w2)
    /\ net w2 = net w
    /\ unlink_fails w2 = unlink_fails w
    /\ (status <$> uploadStatuses w2 !! uploadId) = Some Cancelled.
Proof.
  intros Hne Hs Hc Hlt. exists (cancel_upload uploadId w).2.
  unfold bind.
  rewrite (await_fetch_cancelled uploadId c answer w s Hne Hs Hc Hlt).
  split; [done|]. rewrite cancel_upload_net, cancel_upload_locks.
  split; [done|]. split; [done|].
  by apply (cancel_upload_record uploadId w s).
Qed.

(** Ends a run at the call the cancel request hits. *)
Ltac hit Hne Hs :=
  match goal with
  | |- exists w2, bind (await_fetch ?i ?c true ?a) ?k ?w1 = _ /\ _ =>
      let Hrun := fresh "Hrun" in
      let Hn := fresh "Hn" in
      let Hl := fresh "Hl" in
      let Hst := fresh "Hst" in
      edestruct (await_cancelled_outcome i c a k w1)
        as (w2 & Hrun & Hn & Hl & Hst);
      [ exact Hne
      | world; rewrite !lookup_alter_eq, Hs;
        cbn [fmap option_fmap option_map]; reflexivity
      | reflexivity
      | world; rewrite !length_app; simpl; lia
      | exists w2; split; [exact Hrun|]; rewrite Hn, Hl; world;
        rewrite <- ?app_assoc; cbn [app take]; done ]
  end.

Lemma upload_to_shopify_aborted env uploadId fileType filePath w c s k :
  aborted_call env = Some k ->
  uploadId <> "" ->
  uploadStatuses w !! uploadId = Some s ->
  files w !! filePath = Some c ->
  exists w2,
    upload_to_shopify env uploadId fileType filePath w = (Throw AbortError, w2)
    /\ net w2 = net w ++ take k (calls_sent fileType env c)
    /\ unlink_fails w2 = unlink_fails w
    /\ (status <$> uploadStatuses w2 !! uploadId) = Some Cancelled.
Proof.
  intros Hab Hne Hs Hc. unfold aborted_call in Hab.
  unfold calls_sent, upload_to_shopify, uploadImageToShopify,
    uploadVideoToShopify, uploadGenericFileToShopify, createStagedUpload,
    uploadFileToS3, call_fileCreate, staged_resource, content_type.
  destruct (cancel_in_staged env) eqn:Hc1.
  { injection Hab as <-.
    destruct (is_type "image" fileType); [|destruct (is_type "video" fileType)];
      run; erewrite bind_statSync_size by (world; exact Hc);
      cbn [String.eqb andb Ascii.eqb Bool.eqb]; run; hit Hne Hs. }
  destruct (staged env) as [[t|]|e1] eqn:Hst; try discriminate.
  destruct (cancel_in_blob env) eqn:Hc2.
  { injection Hab as <-.
    destruct (is_type "image" fileType); [|destruct (is_type "video" fileType)];
      run; erewrite bind_statSync_size by (world; exact Hc);
      cbn [String.eqb andb Ascii.eqb Bool.eqb]; run; hit Hne Hs. }
  destruct (blob env) as [r|e2] eqn:Hbl; try discriminate.
  destruct (blob_ok r) eqn:Hok; cbn [andb] in Hab; try discriminate.
  destruct (cancel_in_fileCreate env) eqn:Hc3; try discriminate.
  injection Hab as <-.
  destruct (is_type "image" fileType); [|destruct (is_type "video" fileType)];
    run; erewrite bind_statSync_size by (world; exact Hc);
    cbn [String.eqb andb Ascii.eqb Bool.eqb]; run;
    rewrite ?Hok; cbn [negb]; run; hit Hne Hs.
Qed.

(** X15: a cancel request served during one of the three calls of an
    upload (staged upload, blob storage, [fileCreate]) aborts the call, but
    the handler does not take the abort for a cancellation: it answers 500,
    and stores status error with the message of the abort over the
    cancellation. The calls made are those up to the one that was hit; no
    status query follows. *)
Theorem cancel_during_upload_call env req w f uploadId original k :
  Accepted env req w f uploadId original ->
  aborted_call env = Some k ->
  exists w',
    upload_file env req w = (respond 500 (BError "Error uploading file"), w')
    /\ sent w w'
       = take k (calls_sent (fileType req) env
                   (encoded env (fileType req) original))
    /\ (status <$> uploadStatuses w' !! uploadId) = Some Error
    /\ (error <$> uploadStatuses w' !! uploadId)
       = Some (Some "The user aborted a request.").
Proof.
  intros Hacc Hab.
  destruct (upload_file_accepted _ _ _ _ _ _ Hacc)
    as (w2 & Hfile & Hnet2 & Hlock2 & Hcomp & [s2 Hs2]).
  assert (Hne : uploadId <> "") by (by destruct Hacc as [_ _ [? _] _ _ _ _]).
  destruct (upload_to_shopify_aborted env uploadId (fileType req)
              (compressedFilePath env f) w2 _ s2 k Hab Hne Hs2 Hcomp)
    as (w3 & Hup & Hnet3 & _ & Hst3).
  eexists. split.
  { apply Hfile, (upload_stage_failed _ _ _ _ _ _ _ Hup). discriminate. }
  match goal with
  | |- context [cleanup ?a ?b ?x] =>
      destruct (cleanup_frame a b x) as (Ht & Hn & _)
  end.
  rewrite Ht. split.
  { apply sent_app. rewrite Hn. world. by rewrite Hnet3, Hnet2. }
  world. rewrite lookup_alter_eq.
  destruct (uploadStatuses w3 !! uploadId); by simplify_eq/=.
Qed.

Lemma cancel_during_upload_call_witness :
  exists w',
    upload_file Examples.env_cancel_in_blob Examples.req_image
      Examples.w_registered
    = (respond 500 (BError "Error uploading file"), w')
    /\ sent Examples.w_registered w'
       = [CallStaged "FILE" 7; CallBlob "https://blob.example/upload"]
    /\ (status <$> uploadStatuses w' !! "u1") = Some Error.
Proof.
  destruct (cancel_during_upload_call Examples.env_cancel_in_blob
              Examples.req_image Examples.w_registered Examples.a_png "u1"
              "PNGDATA" 2%nat)
    as (w' & Hrun & Hsent & Hst & _).
  - constructor;
      [ reflexivity | reflexivity
      | split; [discriminate | vm_compute; eexists; reflexivity]
      | vm_compute; discriminate | vm_compute; reflexivity
      | reflexivity | intros e; discriminate ].
  - reflexivity.
  - exists w'. split; [exact Hrun|]. split; [by rewrite Hsent|exact Hst].
Defined.

(** *** The request up to the first stage *)

(** A request with a file within the limit for a registered job: the
    handler lists the stored file and the compressed path, stores status
    compressing and runs the first stage. *)
Lemma handler_body_entry env req w f uploadId s :
  file req = Some f ->
  body_uploadId req = Some uploadId ->
  uploadId <> "" ->
  uploadStatuses w !! uploadId = Some s ->
  temp_ok s w ->
  size f <= maxSize (fileType req) ->
  exists w1 s1,
    handler_body env req w
    = bind (compress_stage env uploadId (fileType req) f)
        (fun early =>
           match early with
           | Some resp => ret resp
           | None =>
               bind (is_cancelled uploadId)
                 (fun c2 => if c2 then ret cancelled_response
                            else upload_stage env uploadId (fileType req) f)
           end) w1
    /\ uploadStatuses w1 !! uploadId = Some s1
    /\ status s1 = Compressing
    /\ net w1 = net w /\ files w1 = files w
    /\ unlink_fails w1 = unlink_fails w /\ console w1 = console w
    /\ path f ∈ temp_paths s1 w1
    /\ compressedFilePath env f ∈ temp_paths s1 w1.
Proof.
  intros Hf Hid Hne Hs Hok Hsize. unfold handler_body.
  rewrite Hf, Hid, (gtb_of_le _ _ Hsize).
  cbn [default from_option]. change (Datatypes.id uploadId) with uploadId.
  rewrite (proj2 (truthy_Some uploadId) Hne). run.
  rewrite bool_decide_eq_true_2 by (by eexists). cbn [negb orb].
  rewrite (bind_ensure_tempFiles uploadId s) by done.
  unfold push.
  destruct (tempFiles s) as [r0|] eqn:Htemp; cbv beta iota;
    unfold is_cancelled at 1, status_of; run;
    rewrite lookup_alter_eq, ?lookup_insert_eq, ?Hs;
    cbn [fmap option_fmap option_map];
    (rewrite bool_decide_eq_false_2 by (by intros [=])); run;
    eexists _, _; (split; [reflexivity|]); world;
    rewrite lookup_alter_eq, ?lookup_insert_eq, ?Hs;
    cbn [fmap option_fmap option_map];
    (split; [reflexivity|]); repeat (split; [done|]);
    unfold temp_paths; cbn [tempFiles set_progress set_status set_tempFiles
                            compose]; world;
    rewrite ?Htemp, !list_lookup_alter_eq.
  - destruct (Hok r0 Htemp) as [a Ha]. rewrite Ha. cbn.
    split; apply elem_of_app; [left|right].
    + apply elem_of_app. right. by apply list_elem_of_singleton.
    + by apply list_elem_of_singleton.
  - rewrite list_lookup_middle by done. cbn.
    split; [apply elem_of_cons; by left|].
    apply elem_of_cons. right. by apply list_elem_of_singleton.
Qed.

Lemma is_type_eq t fileType : fileType = Some t -> is_type t fileType = true.
Proof. intros ->. unfold is_type. by apply bool_decide_eq_true_2. Qed.

(** What a cancel request leaves of the files the job lists. *)
Lemma cancel_upload_deletes uploadId w s p :
  uploadId <> "" ->
  uploadStatuses w !! uploadId = Some s ->
  p ∈ temp_paths s w ->
  files (cancel_upload uploadId w).2 !! p = None \/ p ∈ unlink_fails w.
Proof.
  intros Hne Hs Hp.
  destruct (cancel_upload_world _ _ _ Hne Hs) as (-> & _).
  destruct (delete_paths_done (temp_paths s w) w p Hp) as [?|[? _]]; auto.
Qed.




Lemma bind_copyFileSync_missing {B} src dst (k : unit -> M B) w :
  files w !! src = None ->
  bind (copyFileSync src dst) k w = (Throw (ENOENT src), w).
Proof. intros Hc. unfold bind, copyFileSync. by rewrite Hc. Qed.

(** X17: a cancel request served while sharp reads an image deletes the
    stored file; when sharp fails over it, the fall-back copy of the
    original fails too, and the failure reaches the outer handler of the
    request: the answer is 500 with the generic message, nothing was sent,
    and the job the user cancelled ends in status error. *)
Theorem cancel_breaking_image_encoder env req w f uploadId s e :
  file req = Some f ->
  body_uploadId req = Some uploadId ->
  uploadId <> "" ->
  uploadStatuses w !! uploadId = Some s ->
  temp_ok s w ->
  size f <= maxSize (fileType req) ->
  fileType req = Some "image" ->
  cancel_in_transform env = true ->
  transform env = Rejected e ->
  err_message e <> "Upload cancelled" ->
  path f ∉ unlink_fails w ->
  exists w',
    upload_file env req w
    = (respond 500 (BError "Loading error processing file"), w')
    /\ net w' = net w
    /\ files w' !! path f = None
    /\ (status <$> uploadStatuses w' !! uploadId) = Some Error
    /\ (error <$> uploadStatuses w' !! uploadId)
       = Some (Some "Loading error processing file").
Proof.
  intros Hf Hid Hne Hs Hok Hsize Hft Hcancel Htr Hmsg Hfree.
  destruct (handler_body_entry env req w f uploadId s Hf Hid Hne Hs Hok Hsize)
    as (w1 & s1 & Hbody & Hs1 & _ & Hnet1 & _ & Hlock1 & _ & Hp1 & _).
  assert (Hgone : files (cancel_upload uploadId w1).2 !! path f = None).
  { destruct (cancel_upload_deletes uploadId w1 s1 (path f) Hne Hs1 Hp1)
      as [?|Hin]; [done|]. rewrite Hlock1 in Hin. by destruct Hfree. }
  unfold upload_file. rewrite Hbody, Hid.
  cbn [default from_option]. change (Datatypes.id uploadId) with uploadId.
  rewrite (proj2 (truthy_Some uploadId) Hne).
  unfold bind at 1, compress_stage, compressImage.
  rewrite (is_type_eq _ _ Hft), Hcancel, Htr, try_catch_run.
  rewrite !bind_assoc, bind_interleave. run.
  destruct (String.eqb_spec (err_message e) "Upload cancelled"); [done|].
  rewrite bind_copyFileSync_missing by (world; exact Hgone).
  cbv zeta. world.
  rewrite (cancel_upload_table _ _ _ Hne Hs1).
  rewrite bool_decide_eq_true_2 by (rewrite lookup_insert_eq; by eexists).
  cbn [andb]. eexists. split; [reflexivity|]. world.
  rewrite cancel_upload_net. split; [done|]. split; [done|].
  by rewrite lookup_alter_eq, lookup_insert_eq.
Qed.

Lemma cancel_breaking_image_encoder_witness :
  exists w',
    upload_file Examples.env_cancel_breaks_sharp Examples.req_image
      Examples.w_registered
    = (respond 500 (BError "Loading error processing file"), w')
    /\ net w' = []
    /\ (status <$> uploadStatuses w' !! "u1") = Some Error.
Proof.
  destruct (cancel_breaking_image_encoder Examples.env_cancel_breaks_sharp
              Examples.req_image Examples.w_registered Examples.a_png "u1"
              {| id := "u1"; status := Waiting; progress := 0;
                 originalFilename := "a.png"; error := None; url := None;
                 type := "image"; timestamp := Some 1000;
                 abortController := None; tempFiles := Some 0%nat |}
              (mkError "Input file is missing"))
    as (w' & Hrun & Hnet & _ & Hst & _); try reflexivity.
  - discriminate.
  - intros r0 [= <-]. by eexists.
  - vm_compute. discriminate.
  - discriminate.
  - apply not_elem_of_empty.
  - exists w'. split; [exact Hrun|]. split; [exact Hnet|exact Hst].
Defined.

End CancelElsewhere.

(** ** The temporary files after an upload *)

Section CleanUp.
Import Tracked TrackedFacts.

#[local] Open Scope list_scope.

(** X18: when the handler answers an accepted request with 200 or with
    500, the clean-up has run: with no failing delete, neither the stored
    file nor the compressed file is left, whatever the platform answered
    and whenever a cancel request was served during the upload. *)
Theorem accepted_upload_cleans_up env req w f uploadId original :
  Accepted env req w f uploadId original ->
  unlink_fails w = ∅ ->
  code (upload_file env req w).1 <> 400 ->
  files (upload_file env req w).2 !! path f = None
  /\ files (upload_file env req w).2 !! compressedFilePath env f = None.
Proof.
  intros Hacc Hnone.
  destruct (upload_file_accepted _ _ _ _ _ _ Hacc)
    as (w2 & Hfile & _ & Hlock2 & _ & _).
  pose proof (upload_to_shopify_locks env uploadId (fileType req)
                (compressedFilePath env f) w2) as Hlock3.
  destruct (upload_to_shopify env uploadId (fileType req)
              (compressedFilePath env f) w2) as [[u|e] w3] eqn:Hup;
    cbn [snd] in Hlock3.
  - rewrite (Hfile _ _ (upload_stage_ok _ _ _ _ _ _ _ Hup)). cbn [fst snd].
    intros _. apply cleanup_removes. world. congruence.
  - destruct (String.eqb_spec (err_message e) "Upload cancelled") as [Hc|Hc].
    + rewrite (Hfile _ _ (upload_stage_cancelled _ _ _ _ _ _ _ Hup Hc)).
      by intros [].
    + rewrite (Hfile _ _ (upload_stage_failed _ _ _ _ _ _ _ Hup Hc)).
      cbn [fst snd]. intros _. apply cleanup_removes. world. congruence.
Qed.

Lemma accepted_upload_cleans_up_witness :
  files (upload_file Examples.env_cancel_in_blob Examples.req_image
           Examples.w_registered).2 !! "/srv/temp/1-a.png" = None
  /\ files (upload_file Examples.env_cancel_in_blob Examples.req_image
              Examples.w_registered).2 !! "/srv/temp/compressed-1-a.png"
     = None.
Proof.
  apply (accepted_upload_cleans_up Examples.env_cancel_in_blob
           Examples.req_image Examples.w_registered Examples.a_png "u1"
           "PNGDATA").
  - constructor;
      [ reflexivity | reflexivity
      | split; [discriminate | vm_compute; eexists; reflexivity]
      | vm_compute; discriminate | vm_compute; reflexivity
      | reflexivity | intros e; discriminate ].
  - reflexivity.
  - vm_compute. discriminate.
Defined.

End CleanUp.

(** ** The direct server: polling and failures *)

Section DirectPolling.
Import Direct DirectFacts.

#[local] Open Scope list_scope.
#[local] Arguments waitForFileReady : simpl never.
#[local] Arguments truthy : simpl never.

Ltac out := cbn [net console emit console_error await].
Ltac run_step :=
  first [ rewrite direct_bind_assoc | rewrite direct_bind_ret
        | rewrite direct_bind_throw | rewrite direct_bind_modify
        | rewrite direct_ret_run | rewrite direct_throw_run ].
Ltac run := out; repeat (run_step; cbv beta iota; out).

Context (env : Env) (fileId : string) (interval : Z).

Lemma direct_wait_loop_idle k : forall n attempt o,
  (forall i, (i < k)%nat ->
     exists nd, poll env (attempt + i) = Resolved (Some nd)
                /\ fileStatus nd <> Some "READY") ->
  wait_loop env fileId interval (k + n) attempt o
  = wait_loop env fileId interval n (attempt + k)
      {| net := net o ++ idle_polls fileId interval k; console := console o |}.
Proof.
  induction k as [|k IH]; intros n attempt o Hidle.
  { rewrite Nat.add_0_r. unfold idle_polls. cbn. rewrite app_nil_r.
    by destruct o. }
  destruct (Hidle 0%nat) as (nd & Hpoll & Hnot); [lia|].
  rewrite Nat.add_0_r in Hpoll.
  cbn [Nat.add wait_loop]. run. rewrite Hpoll. run.
  unfold check_node. rewrite bool_decide_eq_false_2 by done. run.
  rewrite IH.
  - replace (S attempt + k)%nat with (attempt + S k)%nat by lia.
    out. unfold idle_polls. cbn. by rewrite <- !app_assoc.
  - intros i Hi. replace (S attempt + i)%nat with (attempt + S i)%nat by lia.
    apply Hidle. lia.
Qed.

Lemma direct_wait_loop_ready n attempt o node u :
  poll env attempt = Resolved (Some node) ->
  ready_with node u ->
  wait_loop env fileId interval (S n) attempt o
  = (Ret u, emit (CallNode fileId) o).
Proof.
  intros Hpoll [Hready Hurl]. cbn [wait_loop]. run. rewrite Hpoll. run.
  unfold check_node. rewrite bool_decide_eq_true_2 by done.
  destruct Hurl as [[-> ->]|[(-> & l & ->)|(-> & Hnone & -> & ->)]];
    [| |destruct Hnone as [->| ->]]; by run.
Qed.

Lemma direct_wait_loop_failing n attempt o :
  failing (poll env attempt) ->
  exists e,
    wait_loop env fileId interval (S n) attempt o
    = (Throw e, emit (CallNode fileId) o).
Proof.
  intros Hfail. cbn [wait_loop]. run. unfold failing in Hfail.
  destruct (poll env attempt) as [[node|]|e]; run; [|by eexists..].
  destruct Hfail as (Hready & Himg & Hnone & Hno).
  unfold check_node. rewrite bool_decide_eq_true_2 by done.
  rewrite Himg, Hno.
  destruct Hnone as [->| ->]; run; by eexists.
Qed.

End DirectPolling.

Section DirectAfterCreate.
Import Direct DirectFacts.

#[local] Open Scope list_scope.
#[local] Arguments waitForFileReady : simpl never.
#[local] Arguments truthy : simpl never.

Ltac out := cbn [net console emit console_error await].
Ltac run_step :=
  first [ rewrite direct_bind_assoc | rewrite direct_bind_ret
        | rewrite direct_bind_throw | rewrite direct_bind_modify
        | rewrite direct_ret_run | rewrite direct_throw_run ].
Ltac run := out; repeat (run_step; cbv beta iota; out).

(** A request within the limit whose inline attempt, if any, gave no
    URL, and whose [fileCreate] response has no URL but an id. *)
Context (env : Env) (req : UploadRequest) (f : File).
Context (t : Target) (r : BlobResponse) (json : FileCreateJson).
Context (Hans : Answers env t r json).
Context (Hfile : file req = Some f).
Context (Hsize : size f <= maxSize (fileType req)).
Context (Hinline : truthy (inline_url env (fileType req)) = false).
Context (Hurl : truthy (embedded_url (fileType req) json) = false).
Context (Hid : truthy (files0 json ≫= node_id) = true).

(** The handler from the first status query on. *)
Lemma direct_upload_file_polls o :
  exists o3,
    upload_file env req o
    = match waitForFileReady env (default "" (files0 json ≫= node_id))
              default_maxAttempts default_interval o3 with
      | (Ret u, o4) => (respond 200 (BUrl u), o4)
      | (Throw e, o4) =>
          (respond 500 (BError "The file was not ready in the allotted time"),
           console_error "Error waiting for file:" o4)
      end
    /\ net o3 = net o ++ calls_to_create (fileType req) f t.
Proof.
  destruct Hans as [Hst Hbl Hblok Hfc].
  unfold upload_file, handler_body, inline_video, staged_flow, inline_url,
    calls_to_create, embedded_url in *.
  rewrite Hfile, (direct_gtb_of_le _ _ Hsize).
  destruct (is_type "video" (fileType req)) eqn:Hv;
    destruct (is_type "image" (fileType req)) eqn:Hi;
    try (unfold is_type in Hv, Hi; repeat case_bool_decide; congruence);
    [ rewrite direct_bind_try_catch; run; unfold await;
      destruct (inline env) as [j|e0];
      [ run; rewrite Hinline; try destruct (userErrors j) | ]
    | | ];
    run; rewrite ?Hst, ?Hbl, ?Hfc; run; rewrite ?Hblok; cbn [negb]; run;
    cbn [String.eqb Ascii.eqb Bool.eqb andb]; cbv iota.
  all: try (destruct (truthy (files0 json ≫= first_source_url)) eqn:E;
            [congruence|]).
  all: try (destruct (truthy (files0 json ≫= image_url)) eqn:E;
            [congruence|]).
  all: rewrite Hurl, Hid; cbn [negb]; cbv iota;
    unfold try_catch, bind;
    match goal with
    | |- context [waitForFileReady ?a ?b ?c ?d ?o3] =>
        exists o3; split;
        [ destruct (waitForFileReady a b c d o3) as [[u|e] o4]; reflexivity
        | out; by rewrite <- ?app_assoc ]
    end.
Qed.

(** X19: in the direct server too polling ends at the first query that
    finds the file ready (the [k]-th, after [k] answered with a node that
    is not ready): the handler answers 200 with the URL of the node, after
    exactly [k + 1] queries with [k] waits of five seconds between them. *)
Theorem direct_polling_returns_first_ready_url o k node u :
  (k < 30)%nat ->
  idle_before env k ->
  poll env k = Resolved (Some node) ->
  ready_with node u ->
  exists o',
    upload_file env req o = (respond 200 (BUrl u), o')
    /\ net o'
       = net o ++ calls_to_create (fileType req) f t
         ++ idle_polls (default "" (files0 json ≫= node_id)) 5000 k
         ++ [CallNode (default "" (files0 json ≫= node_id))].
Proof.
  intros Hk Hidle Hpoll Hready.
  destruct (direct_upload_file_polls o) as (o3 & Hrun & Hnet3).
  rewrite Hrun. unfold waitForFileReady.
  replace default_maxAttempts with (k + S (29 - k))%nat
    by (unfold default_maxAttempts; lia).
  rewrite direct_wait_loop_idle by exact Hidle. cbn [Nat.add].
  rewrite (direct_wait_loop_ready env _ _ _ _ _ node u Hpoll Hready).
  eexists. split; [reflexivity|]. out. rewrite Hnet3.
  by rewrite <- !app_assoc.
Qed.
(** X20: the direct server gives up at the first status query that goes
    wrong: a failed request, an answer without node, or a node that is
    ready but carries no URL at all ends the polling at once, and the
    handler answers 500 with the message of the timeout although no time
    limit was reached. *)
Theorem direct_polling_stops_at_first_failure o k :
  (k < 30)%nat ->
  idle_before env k ->
  failing (poll env k) ->
  exists o',
    upload_file env req o
    = (respond 500 (BError "The file was not ready in the allotted time"), o')
    /\ net o'
       = net o ++ calls_to_create (fileType req) f t
         ++ idle_polls (default "" (files0 json ≫= node_id)) 5000 k
         ++ [CallNode (default "" (files0 json ≫= node_id))].
Proof.
  intros Hk Hidle Hfail.
  destruct (direct_upload_file_polls o) as (o3 & Hrun & Hnet3).
  rewrite Hrun. unfold waitForFileReady.
  replace default_maxAttempts with (k + S (29 - k))%nat
    by (unfold default_maxAttempts; lia).
  rewrite direct_wait_loop_idle by exact Hidle. cbn [Nat.add].
  match goal with
  | |- context [wait_loop ?e ?i ?iv (S ?n) ?a ?o0] =>
      destruct (direct_wait_loop_failing e i iv n a o0 Hfail) as [err ->]
  end.
  eexists. split; [reflexivity|]. out. rewrite Hnet3.
  by rewrite <- !app_assoc.
Qed.

End DirectAfterCreate.

Section DirectFailures.
Import Direct DirectFacts.

#[local] Open Scope list_scope.
#[local] Arguments waitForFileReady : simpl never.
#[local] Arguments truthy : simpl never.

Ltac out := cbn [net console emit console_error await].
Ltac run_step :=
  first [ rewrite direct_bind_assoc | rewrite direct_bind_ret
        | rewrite direct_bind_throw | rewrite direct_bind_modify
        | rewrite direct_ret_run | rewrite direct_throw_run ].
Ltac run := out; repeat (run_step; cbv beta iota; out).

Lemma direct_polling_returns_first_ready_url_witness :
  exists o',
    upload_file DirectExamples.env_ready_at_third DirectExamples.req_image
      DirectExamples.o_empty
    = (respond 200 (BUrl (Some "https://cdn.example/a.jpg")), o')
    /\ polls (net o') = 3%nat.
Proof.
  destruct (direct_polling_returns_first_ready_url
              DirectExamples.env_ready_at_third DirectExamples.req_image
              DirectExamples.a_png Examples.a_target
              {| blob_ok := true; blob_text := "" |}
              {| files0 := Some Examples.pending_node; userErrors := [] |}
              ltac:(by constructor) eq_refl ltac:(vm_compute; discriminate)
              eq_refl eq_refl eq_refl DirectExamples.o_empty 2%nat
              Examples.ready_node (Some "https://cdn.example/a.jpg"))
    as (o' & Hrun & Hnet).
  - lia.
  - intros i Hi. destruct i as [|[|i]]; [by eexists..|lia].
  - reflexivity.
  - split; [reflexivity|]. left. by split.
  - exists o'. split; [exact Hrun|]. by rewrite Hnet.
Defined.

Lemma direct_polling_stops_at_first_failure_witness :
  exists o',
    upload_file DirectExamples.env_query_fails DirectExamples.req_image
      DirectExamples.o_empty
    = (respond 500 (BError "The file was not ready in the allotted time"), o')
    /\ polls (net o') = 2%nat.
Proof.
  destruct (direct_polling_stops_at_first_failure
              DirectExamples.env_query_fails DirectExamples.req_image
              DirectExamples.a_png Examples.a_target
              {| blob_ok := true; blob_text := "" |}
              {| files0 := Some Examples.pending_node; userErrors := [] |}
              ltac:(by constructor) eq_refl ltac:(vm_compute; discriminate)
              eq_refl eq_refl eq_refl DirectExamples.o_empty 1%nat)
    as (o' & Hrun & Hnet).
  - lia.
  - intros i Hi. destruct i as [|i]; [by eexists|lia].
  - exact I.
  - exists o'. split; [exact Hrun|]. by rewrite Hnet.
Defined.

(** X21: the answer of the direct server when one of the three calls of
    the staged upload fails. A rejected request is caught by the outer
    handler and answered with the generic message; a response without
    target, a refusal of the blob storage and a [fileCreate] response with
    neither URL nor id are answered where they are found, each with its own
    message. The answer is always 500, the calls stop at the one that
    failed, and no status query is made. *)
Theorem direct_failed_call_answer env req f o k msg :
  file req = Some f ->
  size f <= maxSize (fileType req) ->
  truthy (inline_url env (fileType req)) = false ->
  failure_answer (fileType req) env = Some (k, msg) ->
  exists o' evs,
    upload_file env req o = (respond 500 (BError msg), o')
    /\ net o' = net o ++ evs
    /\ length evs
       = ((if is_type "video" (fileType req) then 1 else 0) + k)%nat
    /\ polls evs = 0%nat.
Proof.
  intros Hfile Hsize Hinline Hfail.
  unfold upload_file, handler_body, inline_video, staged_flow, inline_url,
    failure_answer, embedded_url in *.
  rewrite Hfile, (direct_gtb_of_le _ _ Hsize).
  destruct (is_type "video" (fileType req)) eqn:Hv;
    destruct (is_type "image" (fileType req)) eqn:Hi;
    try (unfold is_type in Hv, Hi; repeat case_bool_decide; congruence);
    [ rewrite direct_bind_try_catch; run; unfold await;
      destruct (inline env) as [j|e0];
      [ run; rewrite Hinline; try destruct (userErrors j) | ]
    | | ];
    run;
    (destruct (staged env) as [[t|]|e1]; run;
     [ destruct (blob env) as [r|e2]; run;
       [ destruct (blob_ok r); cbn [negb]; run;
         [ destruct (fileCreate env) as [json|e3]; run;
           [ cbn [String.eqb Ascii.eqb Bool.eqb andb]; cbv iota;
             destruct (truthy (files0 json ≫= image_url)) eqn:E1;
             destruct (truthy (files0 json ≫= first_source_url)) eqn:E2;
             destruct (truthy (files0 json ≫= node_url)) eqn:E3;
             destruct (truthy (files0 json ≫= node_id)) eqn:E4;
             rewrite ?E1, ?E2, ?E3, ?E4 in Hfail;
             cbn [orb negb] in Hfail; try discriminate
           | ]
         | ]
       | ]
     | | ]);
    cbn [negb]; run; injection Hfail as <- <-;
    eexists _, _; (split; [reflexivity|]); out;
    rewrite <- ?app_assoc; (split; [reflexivity|]); done.
Qed.

Lemma direct_failed_call_answer_witness :
  exists o',
    upload_file DirectExamples.env_blob_refuses DirectExamples.req_image
      DirectExamples.o_empty
    = (respond 500 (BError "Loading error S3"), o')
    /\ length (net o') = 2%nat.
Proof.
  destruct (direct_failed_call_answer DirectExamples.env_blob_refuses
              DirectExamples.req_image DirectExamples.a_png
              DirectExamples.o_empty 2%nat "Loading error S3")
    as (o' & evs & Hrun & Hnet & Hlen & _).
  - reflexivity.
  - vm_compute. discriminate.
  - reflexivity.
  - reflexivity.
  - exists o'. split; [exact Hrun|]. rewrite Hnet. exact Hlen.
Defined.

(** *** What reaches the platform *)

Lemma direct_wait_loop_net env fileId interval n attempt o :
  exists evs, net (wait_loop env fileId interval n attempt o).2 = net o ++ evs.
Proof.
  destruct (direct_wait_loop_events env fileId interval n attempt o)
    as (evs & Hnet & _). by exists evs.
Qed.

(** The staged flow starts with the staged-upload request. *)
Lemma direct_staged_flow_net env f fileType o :
  exists e evs, net (staged_flow env f fileType o).2 = net o ++ e :: evs.
Proof.
  assert (Hdone : forall (o1 : Out) e evs,
            net o1 = net o ++ e :: evs ->
            exists e evs, net o1 = net o ++ e :: evs) by eauto.
  unfold staged_flow. run.
  destruct (staged env) as [[t|]|e1]; run;
    [|eapply Hdone; cbn [snd]; out; reflexivity..].
  destruct (blob env) as [r|e2]; run;
    [|eapply Hdone; cbn [snd]; out; rewrite <- ?app_assoc; reflexivity].
  destruct (blob_ok r); cbn [negb]; run;
    [|eapply Hdone; cbn [snd]; out; rewrite <- ?app_assoc; reflexivity].
  destruct (fileCreate env) as [json|e3]; run;
    [|eapply Hdone; cbn [snd]; out; rewrite <- ?app_assoc; reflexivity].
  repeat match goal with
         | |- context [if ?b then _ else _] =>
             destruct b; run;
             try (eapply Hdone; cbn [snd]; out; rewrite <- ?app_assoc; reflexivity)
         end.
  all: unfold try_catch, bind, waitForFileReady;
    match goal with
    | |- context [wait_loop ?a ?b ?c ?d ?e ?o3] =>
        destruct (direct_wait_loop_net a b c d e o3) as (evs & Hnet);
        destruct (wait_loop a b c d e o3) as [[u|err] o4]
    end; cbn [snd] in *; cbn; eapply Hdone; rewrite Hnet; out;
    rewrite <- ?app_assoc; reflexivity.
Qed.

(** X22: the direct server contacts the platform for exactly the
    requests it accepts: nothing is sent when the file is missing or over
    the limit, and every other request sends at least one call, whatever
    is answered. *)
Theorem direct_contacts_platform_iff env req o :
  net (upload_file env req o).2 = net o
  <-> file req = None
      \/ exists f, file req = Some f /\ size f > maxSize (fileType req).
Proof.
  split.
  - intros Hsame. destruct (file req) as [f|] eqn:Hfile; [|by left].
    right. exists f. split; [done|].
    destruct (Z.gtb (size f) (maxSize (fileType req))) eqn:Hgt.
    { rewrite Z.gtb_ltb in Hgt. apply Z.ltb_lt in Hgt. lia. }
    exfalso.
    assert (Hgrow : exists e evs,
              net (upload_file env req o).2 = net o ++ e :: evs).
    { unfold upload_file, handler_body. rewrite Hfile, Hgt.
      destruct (is_type "video" (fileType req)).
      - unfold inline_video. rewrite direct_bind_try_catch. run.
        unfold await.
        assert (Hrest : forall o1 : Out,
                  net o1 = net o ++ [CallFileCreateInline (size f)] ->
                  exists e evs,
                    net (match staged_flow env f (fileType req) o1 with
                         | (Ret resp, o2) => (resp, o2)
                         | (Throw _, o2) =>
                             (respond 500
                                (BError "Loading error processing file"),
                              console_error "Loading error" o2)
                         end).2 = net o ++ e :: evs).
        { intros o1 Hnet1.
          destruct (direct_staged_flow_net env f (fileType req) o1)
            as (e & evs & Hnet).
          destruct (staged_flow env f (fileType req) o1) as [[resp|err] o2];
            cbn [snd] in *; out; rewrite Hnet, Hnet1, <- app_assoc;
            by eexists _, _. }
        destruct (inline env) as [j|e0]; run; [|by apply Hrest].
        destruct (truthy (files0 j ≫= node_url)); run; [by eexists _, _|].
        destruct (userErrors j); run; by apply Hrest.
      - run.
        destruct (direct_staged_flow_net env f (fileType req) o)
          as (e & evs & Hnet).
        destruct (staged_flow env f (fileType req) o) as [[resp|err] o2];
          cbn [snd] in *; out; rewrite Hnet; by eexists _, _. }
    destruct Hgrow as (e & evs & Hnet). rewrite Hsame in Hnet.
    apply (f_equal length) in Hnet. rewrite length_app in Hnet.
    simpl in Hnet. lia.
  - intros [Hnone|(f & Hfile & Hsize)].
    + unfold upload_file, handler_body. by rewrite Hnone.
    + by rewrite (direct_upload_file_oversize env req o f Hfile Hsize).
Qed.

Lemma direct_contacts_platform_iff_witness :
  net (upload_file DirectExamples.env_direct_url DirectExamples.req_big_image
         DirectExamples.o_empty).2 = [].
Proof.
  apply (direct_contacts_platform_iff DirectExamples.env_direct_url
           DirectExamples.req_big_image DirectExamples.o_empty).
  right. exists DirectExamples.big_png. split; [reflexivity|].
  vm_compute. reflexivity.
Defined.

End DirectFailures.

(** ** The first variant of the server *)

Section LegacyFacts.
Import Direct DirectFacts.

#[local] Open Scope list_scope.
#[local] Arguments Legacy.waitForFileReady : simpl never.
#[local] Arguments truthy : simpl never.

Ltac out := cbn [net console emit console_error await snd].
Ltac run_step :=
  first [ rewrite direct_bind_assoc | rewrite direct_bind_ret
        | rewrite direct_bind_throw | rewrite direct_bind_modify
        | rewrite direct_ret_run | rewrite direct_throw_run ].
Ltac run := out; repeat (run_step; cbv beta iota; out).

Lemma legacy_wait_loop_idle env fileId interval k : forall n attempt o,
  (forall i, (i < k)%nat ->
     exists nd, Legacy.poll env (attempt + i) = Resolved (Some nd)
                /\ fileStatus nd <> Some "READY") ->
  Legacy.wait_loop env fileId interval (k + n) attempt o
  = Legacy.wait_loop env fileId interval n (attempt + k)
      {| net := net o ++ idle_polls fileId interval k; console := console o |}.
Proof.
  induction k as [|k IH]; intros n attempt o Hidle.
  { rewrite Nat.add_0_r. unfold idle_polls. cbn. rewrite app_nil_r.
    by destruct o. }
  destruct (Hidle 0%nat) as (nd & Hpoll & Hnot); [lia|].
  rewrite Nat.add_0_r in Hpoll.
  cbn [Nat.add Legacy.wait_loop]. run. rewrite Hpoll. run.
  rewrite bool_decide_eq_false_2 by done. run.
  rewrite IH.
  - replace (S attempt + k)%nat with (attempt + S k)%nat by lia.
    out. unfold idle_polls. cbn. by rewrite <- !app_assoc.
  - intros i Hi. replace (S attempt + i)%nat with (attempt + S i)%nat by lia.
    apply Hidle. lia.
Qed.

Lemma legacy_wait_loop_net env fileId interval n : forall attempt o,
  exists evs,
    net (Legacy.wait_loop env fileId interval n attempt o).2 = net o ++ evs.
Proof.
  induction n as [|n IH]; intros attempt o.
  { exists []. cbn. by rewrite app_nil_r. }
  cbn [Legacy.wait_loop]. run.
  destruct (Legacy.poll env attempt) as [[nd|]|e]; run; [|by eexists..].
  destruct (bool_decide _); run; [by eexists|].
  destruct (IH (S attempt) (emit (Sleep interval) (emit (CallNode fileId) o)))
    as (evs & ->).
  out. eexists. by rewrite <- !app_assoc.
Qed.

(** The handler up to the first status query. *)
Lemma legacy_upload_image_polls env f t fileId o :
  Legacy.Created env t fileId ->
  Legacy.upload_image env (Some f) o
  = match Legacy.wait_loop env fileId Legacy.default_interval
            Legacy.default_maxAttempts 0
            {| net := net o ++ Legacy.three_calls f t;
               console := console o |} with
    | (Ret u, o4) => (respond 200 (BUrl u), o4)
    | (Throw e, o4) =>
        (respond 500 (BError "The file was not ready in the allotted time"),
         console_error "Error waiting for file:" o4)
    end.
Proof.
  intros [Hst (r & Hbl & Hok) (json & Hfc & Hid) Hne].
  unfold Legacy.upload_image, Legacy.handler_body, Legacy.three_calls.
  run. rewrite Hst. run. rewrite Hbl. run. rewrite Hok. cbn [negb]. run.
  rewrite Hfc. run. rewrite Hid.
  rewrite (proj2 (TrackedFacts.truthy_Some fileId) Hne). cbn [negb].
  unfold try_catch, bind, Legacy.waitForFileReady.
  cbn [default from_option]. change (Datatypes.id fileId) with fileId.
  unfold emit. cbn [net console]. rewrite <- !app_assoc. cbn [app].
  match goal with
  | |- context [Legacy.wait_loop ?a ?b ?c ?d ?e ?o3] =>
      destruct (Legacy.wait_loop a b c d e o3) as [[u|err] o4]
  end; reflexivity.
Qed.

(** X23: the first variant never takes the URL from the [fileCreate]
    response: once the file is created it polls, and it answers 200 with
    what the first ready node holds, the image URL or else the generic URL,
    even when that is absent. It makes [k + 1] status queries when the
    [k]-th is the first to find the file ready, two seconds apart. *)
Theorem legacy_polling_returns_ready_url env f t fileId o k node :
  Legacy.Created env t fileId ->
  (k < 10)%nat ->
  Legacy.idle_before env k ->
  Legacy.poll env k = Resolved (Some node) ->
  fileStatus node = Some "READY" ->
  exists o',
    Legacy.upload_image env (Some f) o
    = (respond 200 (BUrl (Legacy.ready_url node)), o')
    /\ net o'
       = net o ++ Legacy.three_calls f t
         ++ idle_polls fileId 2000 k ++ [CallNode fileId].
Proof.
  intros Hcr Hk Hidle Hpoll Hready.
  rewrite (legacy_upload_image_polls env f t fileId o Hcr).
  replace Legacy.default_maxAttempts with (k + S (9 - k))%nat
    by (unfold Legacy.default_maxAttempts; lia).
  rewrite legacy_wait_loop_idle by exact Hidle.
  cbn [Nat.add Legacy.wait_loop]. run. rewrite Hpoll. run.
  rewrite bool_decide_eq_true_2 by done. run.
  eexists. split; [reflexivity|]. out. by rewrite <- !app_assoc.
Qed.

Lemma legacy_polling_returns_ready_url_witness :
  exists o',
    Legacy.upload_image LegacyExamples.env_ready_at_third
      (Some DirectExamples.a_png) DirectExamples.o_empty
    = (respond 200 (BUrl (Some "https://cdn.example/a.jpg")), o')
    /\ polls (net o') = 3%nat.
Proof.
  destruct (legacy_polling_returns_ready_url
              LegacyExamples.env_ready_at_third DirectExamples.a_png
              Examples.a_target "gid://shopify/MediaImage/1"
              DirectExamples.o_empty 2%nat Examples.ready_node)
    as (o' & Hrun & Hnet).
  - constructor; [reflexivity|by eexists|by eexists|discriminate].
  - lia.
  - intros i Hi. destruct i as [|[|i]]; [by eexists..|lia].
  - reflexivity.
  - reflexivity.
  - exists o'. split; [exact Hrun|]. by rewrite Hnet.
Defined.

(** X24: the first variant gives up after ten status queries two
    seconds apart: when none of them finds the file ready it answers 500,
    having made exactly the three calls and ten queries, each followed by
    its wait. *)
Theorem legacy_times_out_after_ten_queries env f t fileId o :
  Legacy.Created env t fileId ->
  Legacy.idle_before env 10 ->
  exists o',
    Legacy.upload_image env (Some f) o
    = (respond 500 (BError "The file was not ready in the allotted time"), o')
    /\ net o' = net o ++ Legacy.three_calls f t ++ idle_polls fileId 2000 10.
Proof.
  intros Hcr Hidle.
  rewrite (legacy_upload_image_polls env f t fileId o Hcr).
  change Legacy.default_maxAttempts with (10 + 0)%nat.
  rewrite legacy_wait_loop_idle by exact Hidle.
  cbn [Nat.add Legacy.wait_loop]. run.
  eexists. split; [reflexivity|]. out. by rewrite <- !app_assoc.
Qed.

Lemma legacy_times_out_after_ten_queries_witness :
  exists o',
    Legacy.upload_image LegacyExamples.env_never_ready
      (Some DirectExamples.a_png) DirectExamples.o_empty
    = (respond 500 (BError "The file was not ready in the allotted time"), o')
    /\ polls (net o') = 10%nat.
Proof.
  destruct (legacy_times_out_after_ten_queries LegacyExamples.env_never_ready
              DirectExamples.a_png Examples.a_target
              "gid://shopify/MediaImage/1" DirectExamples.o_empty)
    as (o' & Hrun & Hnet).
  - constructor; [reflexivity|by eexists|by eexists|discriminate].
  - intros i Hi. by eexists.
  - exists o'. split; [exact Hrun|]. by rewrite Hnet.
Defined.

(** X25: the first variant reads the body of the blob storage's
    response before it looks at the status, and reads it again when the
    status is a refusal; the second read is rejected, so the refusal is
    answered by the outer handler with its generic message. The answer
    written for this case is never given. *)
Theorem legacy_blob_refusal_answer env file o :
  (forall f t r,
     file = Some f ->
     Legacy.staged env = Resolved (Some t) ->
     Legacy.blob env = Resolved r ->
     blob_ok r = false ->
     exists o',
       Legacy.upload_image env file o
       = (respond 500 (BError "Loading error image"), o')
       /\ net o' = net o ++ [CallStaged "FILE" (size f);
                              CallBlob (target_url t)])
  /\ body (Legacy.upload_image env file o).1 <> BError "Loading error S3".
Proof.
  split.
  - intros f t r -> Hst Hbl Hok.
    unfold Legacy.upload_image, Legacy.handler_body, Legacy.text_again.
    run. rewrite Hst. run. rewrite Hbl. run. rewrite Hok. cbn [negb]. run.
    eexists. split; [reflexivity|]. out. by rewrite <- !app_assoc.
  - unfold Legacy.upload_image, Legacy.handler_body, Legacy.text_again.
    destruct file as [f|]; [|done]. run.
    destruct (Legacy.staged env) as [[t|]|e1]; run; try done.
    destruct (Legacy.blob env) as [r|e2]; run; try done.
    destruct (blob_ok r); cbn [negb]; run; try done.
    destruct (Legacy.fileCreate env) as [json|e3]; run; try done.
    destruct (truthy (files0 json ≫= node_id)); cbn [negb]; run; try done.
    unfold try_catch, bind.
    match goal with
    | |- context [Legacy.waitForFileReady ?a ?b ?c ?d ?o3] =>
        destruct (Legacy.waitForFileReady a b c d o3) as [[u|err] o4]
    end; done.
Qed.

Lemma legacy_blob_refusal_answer_witness :
  exists o',
    Legacy.upload_image LegacyExamples.env_blob_refuses
      (Some DirectExamples.a_png) DirectExamples.o_empty
    = (respond 500 (BError "Loading error image"), o')
    /\ length (net o') = 2%nat.
Proof.
  destruct (legacy_blob_refusal_answer LegacyExamples.env_blob_refuses
              (Some DirectExamples.a_png) DirectExamples.o_empty) as [H _].
  destruct (H DirectExamples.a_png Examples.a_target
              {| blob_ok := false; blob_text := "AccessDenied" |})
    as (o' & Hrun & Hnet); try reflexivity.
  exists o'. split; [exact Hrun|]. by rewrite Hnet.
Defined.

(** X26: the first variant has no size limit: a request without a file
    is refused with 400 and sends nothing, and every request with a file,
    whatever its size, starts by announcing that size in the staged-upload
    request. *)
Theorem legacy_has_no_size_limit env o :
  Legacy.upload_image env None o
  = (respond 400 (BError "The file was not uploaded"), o)
  /\ forall f,
       exists evs,
         net (Legacy.upload_image env (Some f) o).2
         = net o ++ CallStaged "FILE" (size f) :: evs.
Proof.
  split; [done|]. intros f.
  assert (Hdone : forall (l : list NetEvent) evs,
            l = net o ++ CallStaged "FILE" (size f) :: evs ->
            exists evs, l = net o ++ CallStaged "FILE" (size f) :: evs)
    by eauto.
  unfold Legacy.upload_image, Legacy.handler_body, Legacy.text_again. run.
  destruct (Legacy.staged env) as [[t|]|e1]; run;
    [|eapply Hdone; out; reflexivity..].
  destruct (Legacy.blob env) as [r|e2]; run;
    [|eapply Hdone; out; rewrite <- ?app_assoc; reflexivity].
  destruct (blob_ok r); cbn [negb]; run;
    [|eapply Hdone; out; rewrite <- ?app_assoc; reflexivity].
  destruct (Legacy.fileCreate env) as [json|e3]; run;
    [|eapply Hdone; out; rewrite <- ?app_assoc; reflexivity].
  destruct (truthy (files0 json ≫= node_id)); cbn [negb]; run;
    [|eapply Hdone; out; rewrite <- ?app_assoc; reflexivity].
  unfold try_catch, bind, Legacy.waitForFileReady.
  match goal with
  | |- context [Legacy.wait_loop ?a ?b ?c ?d ?e ?o3] =>
      destruct (legacy_wait_loop_net a b c d e o3) as (evs & Hnet);
      destruct (Legacy.wait_loop a b c d e o3) as [[u|err] o4]
  end; cbn [snd] in *; cbn; eapply Hdone; rewrite Hnet; out;
    rewrite <- ?app_assoc; reflexivity.
Qed.

Lemma legacy_has_no_size_limit_witness :
  exists evs,
    net (Legacy.upload_image LegacyExamples.env_never_ready
           (Some LegacyExamples.huge_png) DirectExamples.o_empty).2
    = CallStaged "FILE" (300 * 1024 * 1024) :: evs.
Proof.
  destruct (legacy_has_no_size_limit LegacyExamples.env_never_ready
              DirectExamples.o_empty) as [_ H].
  exact (H LegacyExamples.huge_png).
Defined.

End LegacyFacts.

(** ** Failed calls: what ends a job and what is tried again *)

Section DirectNoRetry.
Import Direct DirectFacts.

#[local] Open Scope list_scope.
#[local] Arguments waitForFileReady : simpl never.
#[local] Arguments truthy : simpl never.

Ltac out := cbn [net console emit console_error await].
Ltac run_step :=
  first [ rewrite direct_bind_assoc | rewrite direct_bind_ret
        | rewrite direct_bind_throw | rewrite direct_bind_modify
        | rewrite direct_ret_run | rewrite direct_throw_run ].
Ltac run := out; repeat (run_step; cbv beta iota; out).

Lemma direct_calls_sent_NoDup fileType env f :
  NoDup (calls_sent fileType env f).
Proof.
  unfold calls_sent.
  destruct (is_type "video" fileType); cbn [app];
    (destruct (staged env) as [[t|]|e];
     [destruct (blob env) as [r|e]; [destruct (blob_ok r)|]| |]);
    repeat (apply NoDup_cons; split;
            [intros Hin;
             repeat (apply elem_of_cons in Hin as [Hin|Hin]; [discriminate|]);
             by apply elem_of_nil in Hin|]);
    apply NoDup_nil_2.
Qed.

(** The first of the three calls that fails is answered at once. *)
Lemma direct_first_failure env req f o k msg :
  file req = Some f ->
  size f <= maxSize (fileType req) ->
  truthy (inline_url env (fileType req)) = false ->
  failure_answer (fileType req) env = Some (k, msg) ->
  exists o',
    upload_file env req o = (respond 500 (BError msg), o')
    /\ net o' = net o ++ calls_sent (fileType req) env f
    /\ length (calls_sent (fileType req) env f)
       = ((if is_type "video" (fileType req) then 1 else 0) + k)%nat.
Proof.
  intros Hfile Hsize Hinline Hfail.
  unfold upload_file, handler_body, inline_video, staged_flow, inline_url,
    failure_answer, embedded_url, calls_sent in *.
  rewrite Hfile, (direct_gtb_of_le _ _ Hsize).
  destruct (is_type "video" (fileType req)) eqn:Hv;
    destruct (is_type "image" (fileType req)) eqn:Hi;
    try (unfold is_type in Hv, Hi; repeat case_bool_decide; congruence);
    [ rewrite direct_bind_try_catch; run; unfold await;
      destruct (inline env) as [j|e0];
      [ run; rewrite Hinline; try destruct (userErrors j) | ]
    | | ];
    run;
    (destruct (staged env) as [[t|]|e1]; run;
     [ destruct (blob env) as [r|e2]; run;
       [ destruct (blob_ok r); cbn [negb]; run;
         [ destruct (fileCreate env) as [json|e3]; run;
           [ cbn [String.eqb Ascii.eqb Bool.eqb andb]; cbv iota;
             destruct (truthy (files0 json ≫= image_url)) eqn:E1;
             destruct (truthy (files0 json ≫= first_source_url)) eqn:E2;
             destruct (truthy (files0 json ≫= node_url)) eqn:E3;
             destruct (truthy (files0 json ≫= node_id)) eqn:E4;
             rewrite ?E1, ?E2, ?E3, ?E4 in Hfail;
             cbn [orb negb] in Hfail; try discriminate
           | ]
         | ]
       | ]
     | | ]);
    cbn [negb]; run; injection Hfail as <- <-;
    eexists; (split; [reflexivity|]); out;
    rewrite <- ?app_assoc; (split; [reflexivity|]); done.
Qed.

(** A failed inline attempt is one without a URL. *)
Lemma inline_failed_no_url env fileType :
  inline_failed env fileType ->
  truthy (inline_url env fileType) = false.
Proof.
  intros [Hv Hin]. unfold inline_url. rewrite Hv.
  destruct (inline env) as [j|e]; [|done].
  destruct (files0 j) as [n|]; [|done]. cbn [mbind option_bind].
  by destruct (Hin n eq_refl) as [-> | ->].
Qed.

(** A status query that fails after [k] idle ones ends the request. *)
Lemma direct_failed_query_answer env req f t r json o k e :
  Answers env t r json ->
  file req = Some f ->
  size f <= maxSize (fileType req) ->
  truthy (inline_url env (fileType req)) = false ->
  truthy (embedded_url (fileType req) json) = false ->
  truthy (files0 json ≫= node_id) = true ->
  (k < 30)%nat ->
  idle_before env k ->
  poll env k = Rejected e ->
  exists o',
    upload_file env req o
    = (respond 500 (BError "The file was not ready in the allotted time"), o')
    /\ net o'
       = net o ++ calls_to_create (fileType req) f t
         ++ idle_polls (default "" (files0 json ≫= node_id)) 5000 k
         ++ [CallNode (default "" (files0 json ≫= node_id))].
Proof.
  intros Hans Hfile Hsize Hinline Hurl Hid Hk Hidle Hpoll.
  destruct (direct_upload_file_polls env req f t r json Hans Hfile Hsize
              Hinline Hurl Hid o) as (o3 & Hrun & Hnet3).
  rewrite Hrun. unfold waitForFileReady.
  replace default_maxAttempts with (k + S (29 - k))%nat
    by (unfold default_maxAttempts; lia).
  rewrite direct_wait_loop_idle by exact Hidle. cbn [Nat.add].
  match goal with
  | |- context [wait_loop ?e0 ?i ?iv (S ?n) ?a ?o0] =>
      destruct (direct_wait_loop_failing e0 i iv n a o0) as [err ->];
      [unfold failing; by rewrite Hpoll|]
  end.
  eexists. split; [reflexivity|]. out. rewrite Hnet3.
  by rewrite <- !app_assoc.
Qed.

End DirectNoRetry.

Section NoRetry.
Import Tracked TrackedFacts.

#[local] Open Scope list_scope.

(** The second stage starts with the job in status uploading. *)
Lemma upload_file_accepted_uploading env req w f uploadId original :
  Accepted env req w f uploadId original ->
  exists w2,
    (forall resp w',
       upload_stage env uploadId (fileType req) f w2 = (Ret resp, w') ->
       upload_file env req w = (resp, w'))
    /\ net w2 = net w
    /\ files w2 !! compressedFilePath env f
       = Some (encoded env (fileType req) original)
    /\ (status <$> uploadStatuses w2 !! uploadId) = Some Uploading.
Proof.
  intros [Hf Hid [Hne [s Hs]] Hsize Hc Hq Henc].
  assert (Hbody : exists w2,
            handler_body env req w
            = upload_stage env uploadId (fileType req) f w2
            /\ net w2 = net w
            /\ files w2 !! compressedFilePath env f
               = Some (encoded env (fileType req) original)
            /\ (status <$> uploadStatuses w2 !! uploadId) = Some Uploading).
  { unfold handler_body.
    rewrite Hf, Hid, (gtb_of_le _ _ Hsize).
    cbn [default from_option]. change (Datatypes.id uploadId) with uploadId.
    apply truthy_Some in Hne as Htr. rewrite Htr. run.
    rewrite bool_decide_eq_true_2 by (by eexists).
    cbn [negb orb]. unfold bind at 1, ensure_tempFiles at 1. rewrite Hs.
    unfold is_cancelled, status_of, push.
    destruct (tempFiles s) as [r0|]; cbv beta iota; run;
      rewrite lookup_alter_eq, ?lookup_insert_eq, ?Hs;
      cbn [fmap option_fmap option_map];
      (rewrite bool_decide_eq_false_2 by (by intros [=])); run;
      match goal with
      | |- context [bind (compress_stage _ _ _ _) _ ?w1] =>
          destruct (compress_stage_done env uploadId (fileType req) f w1
                      original Compressing Hq Henc)
            as (w2 & Hrun & Hcomp & Hst2 & Hnet2 & Hlock2);
          [ by world
          | by world; rewrite lookup_alter_eq, ?lookup_insert_eq, ?Hs
          | done
          | ]
      end;
      unfold bind at 1; rewrite Hrun; run; rewrite Hst2;
      (rewrite bool_decide_eq_false_2 by (by intros [=]));
      exists w2; (split; [done|]); rewrite Hnet2; world;
      repeat (split; [done|]); done. }
  destruct Hbody as (w2 & Hrun & Hrest).
  exists w2. split; [|done].
  intros resp w' Hstage. unfold upload_file. by rewrite Hrun, Hstage.
Qed.

(** A failing call leaves the job in status uploading. *)
Lemma upload_to_shopify_fails_uploading env uploadId fileType filePath w c k e :
  quiet_calls env ->
  first_failure fileType env = Some (k, e) ->
  (status <$> uploadStatuses w !! uploadId) = Some Uploading ->
  files w !! filePath = Some c ->
  exists w2,
    upload_to_shopify env uploadId fileType filePath w = (Throw e, w2)
    /\ net w2 = net w ++ calls_sent fileType env c
    /\ length (calls_sent fileType env c) = k
    /\ files w2 = files w
    /\ (status <$> uploadStatuses w2 !! uploadId) = Some Uploading.
Proof.
  intros (Hq1 & Hq2 & Hq3) Hfail Hst Hc.
  destruct (uploadStatuses w !! uploadId) as [s|] eqn:Hs; [|done].
  injection Hst as Hst.
  unfold first_failure, calls_sent, upload_to_shopify, uploadImageToShopify,
    uploadVideoToShopify, uploadGenericFileToShopify, createStagedUpload,
    uploadFileToS3, call_fileCreate, embedded_url, create_failure,
    staged_failure, staged_resource, content_type in *.
  rewrite Hq1, Hq2, Hq3.
  destruct (is_type "image" fileType); [|destruct (is_type "video" fileType)];
    run; erewrite bind_statSync_size by (world; exact Hc);
    cbn [String.eqb andb Ascii.eqb Bool.eqb]; run;
    (destruct (staged env) as [[t|]|e1]; run;
     [ destruct (blob env) as [r|e2]; run;
       [ destruct (blob_ok r); cbn [negb]; run;
         [ destruct (fileCreate env) as [json|e3]; run;
           [ destruct (truthy _); [done|]; destruct (truthy _); [done|];
             try destruct (userErrors json) | ]
         | ]
       | ]
     | | ]);
    simplify_eq/=;
    (eexists; split; [reflexivity|]); world;
    rewrite <- ?app_assoc; cbn [app]; repeat (split; [done|]);
    rewrite !lookup_alter_eq, Hs; cbn; by rewrite ?Hst.
Qed.

(** C8 as the code has it. No call is made again after it failed,
    except a status query of the tracked server.

    Tracked server. The first of the staged-upload, blob-storage and
    [fileCreate] calls that fails ends the job: the handler stores status
    [error] with the message and answers 500, and the calls made are
    those up to the failing one, each once. When the message of the
    failure is exactly [Upload cancelled] the handler takes it for a
    cancellation: it answers 400, leaves the job in status [uploading]
    and the compressed file in place; the calls are the same. A status
    query that fails (not by abort) fails nothing: it is logged and after
    the wait the loop goes on with the next attempt.

    Direct server. The first of the three calls that fails is answered
    500 and the calls stop there, each made once. A failed inline attempt
    for a video is not made again, and it does not fail the request
    either: the staged upload follows. A status query that fails ends
    the polling at once and the request is answered 500. *)
Theorem first_failing_call_fails_job :
  (forall env req w f uploadId original k e,
     Accepted env req w f uploadId original ->
     quiet_calls env ->
     first_failure (fileType req) env = Some (k, e) ->
     err_message e <> "Upload cancelled" ->
     exists w',
       upload_file env req w
       = (respond 500 (BError "Error uploading file"), w')
       /\ sent w w'
          = calls_sent (fileType req) env (encoded env (fileType req) original)
       /\ length (sent w w') = k
       /\ NoDup (sent w w')
       /\ (status <$> uploadStatuses w' !! uploadId) = Some Error
       /\ (error <$> uploadStatuses w' !! uploadId)
          = Some (Some (message_or (err_message e) "Error uploading file")))
  /\ (forall env req w f uploadId original k e,
        Accepted env req w f uploadId original ->
        quiet_calls env ->
        first_failure (fileType req) env = Some (k, e) ->
        err_message e = "Upload cancelled" ->
        exists w',
          upload_file env req w
          = (respond 400 (BError "Upload cancelled by user"), w')
          /\ sent w w'
             = calls_sent (fileType req) env
                 (encoded env (fileType req) original)
          /\ length (sent w w') = k
          /\ NoDup (sent w w')
          /\ (status <$> uploadStatuses w' !! uploadId) = Some Uploading
          /\ files w' !! compressedFilePath env f
             = Some (encoded env (fileType req) original))
  /\ (forall env uploadId fileId interval n attempt w e st,
        cancel_in_poll env attempt = false ->
        cancel_in_sleep env attempt = false ->
        poll env attempt = Rejected e ->
        err_name e <> "AbortError" ->
        (status <$> uploadStatuses w !! uploadId) = Some st ->
        st <> Cancelled ->
        exists w2,
          wait_loop env uploadId fileId interval (S n) attempt w
          = wait_loop env uploadId fileId interval n (S attempt) w2
          /\ net w2 = net w ++ [CallNode fileId; Sleep interval]
          /\ console w2
             = console w ++ [{| log_prefix := "Error checking file status:";
                                log_detail := err_message e |}])
  /\ (forall env req f o k msg,
        Direct.file req = Some f ->
        Direct.size f <= Direct.maxSize (Direct.fileType req) ->
        truthy (Direct.inline_url env (Direct.fileType req)) = false ->
        Direct.failure_answer (Direct.fileType req) env = Some (k, msg) ->
        exists o',
          Direct.upload_file env req o
          = (Direct.respond 500 (Direct.BError msg), o')
          /\ Direct.net o'
             = Direct.net o ++ Direct.calls_sent (Direct.fileType req) env f
          /\ NoDup (Direct.calls_sent (Direct.fileType req) env f)
          /\ polls (Direct.calls_sent (Direct.fileType req) env f) = 0%nat)
  /\ (forall env req f t r json u o,
        Direct.file req = Some f ->
        Direct.size f <= Direct.maxSize (Direct.fileType req) ->
        Direct.inline_failed env (Direct.fileType req) ->
        Direct.Answers env t r json ->
        Direct.holds_url (Direct.fileType req) json u ->
        exists o',
          Direct.upload_file env req o
          = (Direct.respond 200 (Direct.BUrl (Some u)), o')
          /\ Direct.net o'
             = Direct.net o
               ++ [CallFileCreateInline (Direct.size f);
                   CallStaged "VIDEO" (Direct.size f);
                   CallBlob (target_url t);
                   CallFileCreate "VIDEO" (resourceUrl t)])
  /\ (forall env req f t r json o k e,
        Direct.Answers env t r json ->
        Direct.file req = Some f ->
        Direct.size f <= Direct.maxSize (Direct.fileType req) ->
        truthy (Direct.inline_url env (Direct.fileType req)) = false ->
        truthy (Direct.embedded_url (Direct.fileType req) json) = false ->
        truthy (files0 json ≫= node_id) = true ->
        (k < 30)%nat ->
        Direct.idle_before env k ->
        Direct.poll env k = Rejected e ->
        exists o',
          Direct.upload_file env req o
          = (Direct.respond 500
               (Direct.BError "The file was not ready in the allotted time"),
             o')
          /\ Direct.net o'
             = Direct.net o
               ++ Direct.calls_to_create (Direct.fileType req) f t
               ++ Direct.idle_polls (default "" (files0 json ≫= node_id))
                    5000 k
               ++ [CallNode (default "" (files0 json ≫= node_id))]).
Proof.
  split; [|split; [|split; [|split; [|split]]]].
  - intros env req w f uploadId original k e Hacc Hq Hfail Hmsg.
    destruct (upload_file_accepted _ _ _ _ _ _ Hacc)
      as (w1 & Hstage & Hnet1 & _ & Hc & [s1 Hs1]).
    destruct (upload_to_shopify_fails env uploadId (fileType req)
                (compressedFilePath env f) w1 _ s1 k e Hq Hfail Hs1 Hc)
      as (w2 & Hup & Hnet & Hlen & _ & _ & [s2 Hs2]).
    rewrite (Hstage _ _ (upload_stage_failed _ _ _ _ _ _ _ Hup Hmsg)).
    eexists. split; [reflexivity|].
    match goal with
    | |- context [cleanup ?p1 ?p2 ?w0] =>
        destruct (cleanup_frame p1 p2 w0) as (Ht & Hn & _);
        assert (Hsent : sent w (cleanup p1 p2 w0)
                        = calls_sent (fileType req) env
                            (encoded env (fileType req) original))
    end.
    { apply sent_app. rewrite Hn. cbn [net with_table console_error].
      by rewrite Hnet, Hnet1. }
    rewrite Hsent, Ht. cbn [uploadStatuses with_table console_error].
    rewrite lookup_alter_eq, Hs2.
    repeat split; try done. apply calls_sent_NoDup.
  - intros env req w f uploadId original k e Hacc Hq Hfail Hmsg.
    destruct (upload_file_accepted_uploading _ _ _ _ _ _ Hacc)
      as (w1 & Hstage & Hnet1 & Hc & Hst1).
    destruct (upload_to_shopify_fails_uploading env uploadId (fileType req)
                (compressedFilePath env f) w1 _ k e Hq Hfail Hst1 Hc)
      as (w2 & Hup & Hnet & Hlen & Hfiles & Hst2).
    rewrite (Hstage _ _ (upload_stage_cancelled _ _ _ _ _ _ _ Hup Hmsg)).
    eexists. split; [reflexivity|].
    assert (Hsent : sent w (console_error "Error uploading file:"
                              (err_message e) w2)
                    = calls_sent (fileType req) env
                        (encoded env (fileType req) original)).
    { apply sent_app. cbn [net console_error]. by rewrite Hnet, Hnet1. }
    rewrite Hsent. cbn [uploadStatuses files console_error].
    rewrite Hfiles. repeat split; try done. apply calls_sent_NoDup.
  - intros env uploadId fileId interval n attempt w e st Hq1 Hq2 Hp Hn Hst Hne.
    destruct (wait_loop_failed_query env uploadId fileId interval n attempt w
                e st Hq1 Hq2 Hp Hn Hst Hne) as (w2 & Hrun & Hnet & Hlog & _).
    by exists w2.
  - intros env req f o k msg Hf Hsize Hin Hfail.
    destruct (direct_first_failure env req f o k msg Hf Hsize Hin Hfail)
      as (o' & Hrun & Hnet & _).
    exists o'. split; [done|]. split; [done|].
    split; [apply direct_calls_sent_NoDup|].
    unfold Direct.calls_sent, polls.
    destruct (Direct.is_type "video" _); cbn [app];
      (destruct (Direct.staged env) as [[t|]|e];
       [destruct (Direct.blob env) as [r|e]; [destruct (blob_ok r)|]| |]);
      reflexivity.
  - intros env req f t r json u o Hf Hsize Hfailed Hans Holds.
    destruct (direct_holds_url_embedded _ _ _ Holds) as [Hemb Htr].
    destruct (DirectFacts.direct_upload_file_url env req f t r json Hans Hf
                Hsize (inline_failed_no_url _ _ Hfailed) o
                ltac:(by rewrite Hemb)) as (o' & Hrun & Hnet).
    rewrite Hemb in Hrun. exists o'. split; [done|]. rewrite Hnet.
    destruct Hfailed as [Hv _]. unfold Direct.calls_to_create.
    rewrite Hv.
    replace (Direct.is_type "image" (Direct.fileType req)) with false; [done|].
    unfold Direct.is_type in *. repeat case_bool_decide; congruence.
  - intros env req f t r json o k e Hans Hf Hsize Hin Hurl Hid Hk Hidle Hpoll.
    by apply (direct_failed_query_answer env req f t r json o k e).
Qed.

Ltac example_accepted' :=
  constructor;
  [ reflexivity
  | reflexivity
  | split; [discriminate | vm_compute; eexists; reflexivity]
  | vm_compute; discriminate
  | vm_compute; reflexivity
  | reflexivity
  | intros e; discriminate ].

Lemma first_failing_call_fails_job_witness :
  (exists w',
     upload_file Examples.env_staged_fails Examples.req_image
       Examples.w_registered
     = (respond 500 (BError "Error uploading file"), w')
     /\ sent Examples.w_registered w' = [CallStaged "FILE" 7]
     /\ (status <$> uploadStatuses w' !! "u1") = Some Error
     /\ (error <$> uploadStatuses w' !! "u1") = Some (Some "socket hang up"))
  /\ (exists w',
        upload_file Examples.env_staged_says_cancelled Examples.req_image
          Examples.w_registered
        = (respond 400 (BError "Upload cancelled by user"), w')
        /\ sent Examples.w_registered w' = [CallStaged "FILE" 7]
        /\ (status <$> uploadStatuses w' !! "u1") = Some Uploading)
  /\ (exists o',
        Direct.upload_file DirectExamples.env_blob_refuses
          DirectExamples.req_image DirectExamples.o_empty
        = (Direct.respond 500 (Direct.BError "Loading error S3"), o')
        /\ Direct.net o'
           = [CallStaged "FILE" 7; CallBlob "https://blob.example/upload"]).
Proof.
  destruct first_failing_call_fails_job
    as (Hfail & Hcancelled & _ & Hdirect & _).
  split; [|split].
  - destruct (Hfail Examples.env_staged_fails Examples.req_image
                Examples.w_registered Examples.a_png "u1" "PNGDATA" 1%nat
                {| err_name := "FetchError"; err_message := "socket hang up" |})
      as (w' & Hrun & Hsent & _ & _ & Hstatus & Herror).
    + example_accepted'.
    + by repeat split.
    + reflexivity.
    + discriminate.
    + exists w'. split; [exact Hrun|]. split; [exact Hsent|].
      split; [exact Hstatus | exact Herror].
  - destruct (Hcancelled Examples.env_staged_says_cancelled Examples.req_image
                Examples.w_registered Examples.a_png "u1" "PNGDATA" 1%nat
                (mkError "Upload cancelled"))
      as (w' & Hrun & Hsent & _ & _ & Hstatus & _).
    + example_accepted'.
    + by repeat split.
    + reflexivity.
    + reflexivity.
    + exists w'. split; [exact Hrun|]. split; [exact Hsent|exact Hstatus].
  - destruct (Hdirect DirectExamples.env_blob_refuses DirectExamples.req_image
                DirectExamples.a_png DirectExamples.o_empty 2%nat
                "Loading error S3")
      as (o' & Hrun & Hnet & _).
    + reflexivity.
    + vm_compute. discriminate.
    + reflexivity.
    + reflexivity.
    + exists o'. split; [exact Hrun|exact Hnet].
Defined.

End NoRetry.
